(** * LoRa Edge tracker reference lambda: TLV stream decoding and solver orchestration

    A shallow embedding of [semtech_loraedge_referencetracker_v10.py]:
    the TLV generator [tlv_parser], the sensor decoders, and
    [lambda_handler] with its outbound solver and downlink calls, followed
    by the properties of the design specification checked against them.

    Conventions of the embedding.
    - A Python [str] is a list of 8-bit characters, the code points up to
      U+00FF.  [int(s, 16)], [bytes.fromhex] and [strptime] are given as
      Python has them on such text, [upper] and [lower] as Python has them
      on ASCII text.
    - A Python value of JSON shape is a [py]; a [dict] is an association
      list in insertion order.
    - A finite Python [float] is held as a rational it is the nearest
      double to: the number itself for a float read from JSON, the exact
      quotient for the result of one true division.
    - Raising is a [Raise] result, or a [Throw] inside a generator.
    - Outbound calls are recorded in the handler state; what they return
      comes from an environment indexed by the number of the call.
    - [print] has no effect on the result and is left out. *)

From Stdlib Require Import String Ascii DecimalString.
From Stdlib Require Import List ZArith QArith Qabs Lia Bool.
Import ListNotations.
Open Scope Z_scope.

(** ** Strings *)

Definition str := list ascii.

Definition lit (s : string) : str := list_ascii_of_string s.

Definition ord (c : ascii) : Z := Z.of_N (N_of_ascii c).

Definition chr (n : Z) : ascii := ascii_of_N (Z.to_N n).

Fixpoint str_eqb (a b : str) : bool :=
  match a, b with
  | [], [] => true
  | x :: a', y :: b' => Ascii.eqb x y && str_eqb a' b'
  | _, _ => false
  end.

(** [str.upper] and [str.lower] on ASCII text. *)
Definition upper_char (c : ascii) : ascii :=
  let n := ord c in
  if (97 <=? n) && (n <=? 122) then chr (n - 32) else c.

Definition lower_char (c : ascii) : ascii :=
  let n := ord c in
  if (65 <=? n) && (n <=? 90) then chr (n + 32) else c.

Definition upper (s : str) : str := map upper_char s.
Definition lower (s : str) : str := map lower_char s.

(** [needle in haystack] for two strings. *)
Fixpoint is_prefix (p s : str) : bool :=
  match p, s with
  | [], _ => true
  | x :: p', y :: s' => Ascii.eqb x y && is_prefix p' s'
  | _ :: _, [] => false
  end.

Fixpoint substring_in (needle hay : str) : bool :=
  is_prefix needle hay ||
  match hay with
  | [] => false
  | _ :: hay' => substring_in needle hay'
  end.

(** [s[a:b]] for [0 <= a <= b]. *)
Definition slice (a b : nat) (s : str) : str := firstn (b - a) (skipn a s).

(** [str(n)] for an [int]. *)
Definition str_of_int (n : Z) : str := lit (NilZero.string_of_int (Z.to_int n)).

(** ** Exceptions *)

Inductive exn : Type :=
| KeyError | ValueError | TypeError | IndexError | AttributeError
| UnboundLocalError
| StructError        (* struct.error *)
| JSONDecodeError
| TransportError     (* raised inside http.client by [send_https] *)
| ClientError        (* raised inside boto3 by [send_downlink] *)
| FuelExhausted.     (* not a Python exception: the recursion bound of
                        [tlv_run]; [tlv_parser_fuel] shows it never occurs *)

(** ** Hexadecimal text and [int(s, 16)] *)

Definition digit_value (c : ascii) : option Z :=
  let n := ord c in
  if (48 <=? n) && (n <=? 57) then Some (n - 48)
  else if (65 <=? n) && (n <=? 70) then Some (n - 55)
  else if (97 <=? n) && (n <=? 102) then Some (n - 87)
  else None.

Definition is_hex (c : ascii) : bool :=
  match digit_value c with Some _ => true | None => false end.

Definition is_space (c : ascii) : bool :=
  let n := ord c in ((9 <=? n) && (n <=? 13)) || (n =? 32).

Definition is_underscore (c : ascii) : bool := ord c =? 95.

(** The white space [int] passes over at both ends of a [str]: the
    ASCII white space and, of the other characters up to U+00FF, those that
    [str.isspace] holds for, U+0085 and U+00A0. *)
Definition is_unicode_space (c : ascii) : bool :=
  is_space c || (ord c =? 133) || (ord c =? 160).

Fixpoint lstrip (s : str) : str :=
  match s with
  | [] => []
  | c :: r => if is_unicode_space c then lstrip r else s
  end.

(** The digit loop of [int]: hexadecimal digits with single underscores
    between them; stops at the first other character. *)
Fixpoint scan_digits (acc : Z) (prev_us : bool) (s : str) : option (Z * str) :=
  match s with
  | [] => if prev_us then None else Some (acc, [])
  | c :: r =>
      if is_underscore c then
        if prev_us then None else scan_digits acc true r
      else
        match digit_value c with
        | Some d => scan_digits (16 * acc + d) false r
        | None => if prev_us then None else Some (acc, s)
        end
  end.

(** [int(s, 16)]: white space around, a sign, a [0x] prefix, digits
    with single underscores between them; [None] stands for
    [ValueError]. *)
Definition py_int16 (s : str) : option Z :=
  let s1 := lstrip s in
  let '(neg, s2) :=
    match s1 with
    | c :: r => if ord c =? 43 then (false, r)
                else if ord c =? 45 then (true, r) else (false, s1)
    | [] => (false, s1)
    end in
  let s3 :=
    match s2 with
    | z :: x :: r =>
        if (ord z =? 48) && ((ord x =? 120) || (ord x =? 88)) then
          match r with
          | u :: r' => if is_underscore u then r' else r
          | [] => r
          end
        else s2
    | _ => s2
    end in
  match s3 with
  | [] => None
  | c :: _ =>
      match digit_value c with
      | None => None
      | Some _ =>
          match scan_digits 0 false s3 with
          | None => None
          | Some (v, rest) =>
              match lstrip rest with
              | [] => Some (if neg then - v else v)
              | _ :: _ => None
              end
          end
      end
  end.

(** [bytes.hex()]: two lower-case digits per byte. *)
Definition nibble_char (d : Z) : ascii :=
  if d <? 10 then chr (48 + d) else chr (87 + d).

Definition byte_hex (b : Z) : str := [nibble_char (b / 16); nibble_char (b mod 16)].

Definition bytes_hex (bs : list Z) : str := flat_map byte_hex bs.

(** [bytes.fromhex(s)]: pairs of hexadecimal digits, ASCII white space
    allowed between the pairs; [None] stands for [ValueError]. *)
Fixpoint bytes_fromhex (s : str) : option (list Z) :=
  match s with
  | [] => Some []
  | c :: r =>
      if is_space c then bytes_fromhex r
      else
        match digit_value c, r with
        | Some top, d :: r' =>
            match digit_value d with
            | Some bot =>
                match bytes_fromhex r' with
                | Some bs => Some (16 * top + bot :: bs)
                | None => None
                end
            | None => None
            end
        | _, _ => None
        end
  end.

(** ** Python values *)

#[warnings="-register-all"] Inductive py : Type :=
| PNone
| PBool (b : bool)
| PInt (z : Z)
| PFloat (q : Q)
| PStr (s : str)
| PList (l : list py)
| PDict (d : list (str * py)).

Definition dict := list (str * py).

Fixpoint dict_get (k : str) (d : dict) : option py :=
  match d with
  | [] => None
  | (k', v) :: d' => if str_eqb k k' then Some v else dict_get k d'
  end.

(** [d[k] = v]: the entry is replaced where it stands, or appended. *)
Fixpoint dict_set (k : str) (v : py) (d : dict) : dict :=
  match d with
  | [] => [(k, v)]
  | (k', v') :: d' =>
      if str_eqb k k' then (k, v) :: d' else (k', v') :: dict_set k v d'
  end.

Definition dict_has (k : str) (d : dict) : bool :=
  match dict_get k d with Some _ => true | None => false end.

(** ** Generators *)

Inductive gen (A : Type) : Type :=
| Stop
| Throw (e : exn)
| Yield (a : A) (rest : gen A).

Arguments Stop {A}.
Arguments Throw {A} e.
Arguments Yield {A} a rest.

Fixpoint yields {A : Type} (l : list A) (tail : gen A) : gen A :=
  match l with
  | [] => tail
  | a :: l' => Yield a (yields l' tail)
  end.

(** The items of a string: its characters, each a string. *)
Definition chars (s : str) : list py := map (fun c => PStr [c]) s.

(** [iter(x)]: the items a [for] loop or [islice] draws from [x]. *)
Definition py_iter (x : py) : exn + list py :=
  match x with
  | PStr s => inr (chars s)
  | PList l => inr l
  | PDict d => inr (map (fun kv => PStr (fst kv)) d)
  | PNone | PBool _ | PInt _ | PFloat _ => inl TypeError
  end.

(** ["".join(items)]: every item must be a [str]. *)
Fixpoint str_join (items : list py) : exn + str :=
  match items with
  | [] => inr []
  | PStr s :: r =>
      match str_join r with
      | inr t => inr (s ++ t)
      | inl e => inl e
      end
  | _ :: _ => inl TypeError
  end.

(** ** [tlv_parser] *)

Definition TAG_FIELD_LENGTH : nat := 2.
Definition LENGTH_FIELD_LENGTH : nat := 2.

Definition sys_maxsize : Z := 2 ^ 63 - 1.

Definition triple := (str * Z * str)%type.

(** One turn of the [while] loop per unit of fuel.  [islice(it, n)] is
    [firstn n] of the remaining items, and leaves [skipn n] of them. *)
Fixpoint tlv_run (fuel : nat) (it : list py) : gen triple :=
  match fuel with
  | O => Throw FuelExhausted
  | S fuel' =>
      match str_join (firstn TAG_FIELD_LENGTH it) with
      | inl e => Throw e
      | inr [] => Stop
      | inr (t0 :: t') =>
          let tag := t0 :: t' in
          let it1 := skipn TAG_FIELD_LENGTH it in
          match str_join (firstn LENGTH_FIELD_LENGTH it1) with
          | inl e => Throw e
          | inr lf =>
              match py_int16 lf with
              | None => Throw ValueError
              | Some length =>
                  if (length <? 0) || (sys_maxsize <? length * 2)
                  then Throw ValueError
                  else
                    let it2 := skipn LENGTH_FIELD_LENGTH it1 in
                    let n := Z.to_nat (length * 2) in
                    match str_join (firstn n it2) with
                    | inl e => Throw e
                    | inr value =>
                        Yield (tag, length, value) (tlv_run fuel' (skipn n it2))
                    end
              end
          end
      end
  end.

Definition tlv_parser (tlv_string : py) : gen triple :=
  match py_iter tlv_string with
  | inl e => Throw e
  | inr it => tlv_run (S (List.length it)) it
  end.

(** ** [struct.unpack] and [b64encode] *)

Definition to_signed16 (u : Z) : Z := if u <? 32768 then u else u - 65536.

(** [struct.unpack(">Bhhhh", b)]: one unsigned byte and four signed
    big-endian 16-bit integers; [None] stands for [struct.error]. *)
Definition unpack_Bhhhh (b : list Z) : option (Z * Z * Z * Z * Z) :=
  match b with
  | [b0; x1; x0; y1; y0; z1; z0; t1; t0] =>
      Some (b0, to_signed16 (x1 * 256 + x0), to_signed16 (y1 * 256 + y0),
            to_signed16 (z1 * 256 + z0), to_signed16 (t1 * 256 + t0))
  | _ => None
  end.

(** [struct.unpack(">L", b)[0]]. *)
Definition unpack_L (b : list Z) : option Z :=
  match b with
  | [b3; b2; b1; b0] => Some (((b3 * 256 + b2) * 256 + b1) * 256 + b0)
  | _ => None
  end.

(** [struct.unpack(">H", b)[0]]. *)
Definition unpack_H (b : list Z) : option Z :=
  match b with
  | [b1; b0] => Some (b1 * 256 + b0)
  | _ => None
  end.

Definition b64_char (n : Z) : ascii :=
  if n <? 26 then chr (65 + n)
  else if n <? 52 then chr (97 + (n - 26))
  else if n <? 62 then chr (48 + (n - 52))
  else if n =? 62 then chr 43 else chr 47.

(** [b64encode(bs).decode('ascii')]. *)
Fixpoint b64encode (bs : list Z) : str :=
  match bs with
  | [] => []
  | [a] => [b64_char (a / 4); b64_char (a mod 4 * 16); chr 61; chr 61]
  | [a; b] =>
      [b64_char (a / 4); b64_char (a mod 4 * 16 + b / 16);
       b64_char (b mod 16 * 4); chr 61]
  | a :: b :: c :: r =>
      b64_char (a / 4) :: b64_char (a mod 4 * 16 + b / 16)
      :: b64_char (b mod 16 * 4 + c / 64) :: b64_char (c mod 64)
      :: b64encode r
  end.

(** ** Numbers *)

(** [a / b] on two [int]s, and on an [int] and a [float] constant: the
    exact quotient, in lowest terms. *)
Definition true_div (a b : Z) : Q := Qred (inject_Z a / inject_Z b).

(** [x == 0] for a float held as the rational it is nearest to: doubles
    round to zero exactly from [2^-1075] downwards. *)
Definition float_is_zero (q : Q) : bool :=
  Qle_bool (Qabs q) (1 # 2 ^ 1075).

(** [v == 0]. *)
Definition py_eq_zero (v : py) : bool :=
  match v with
  | PInt z => z =? 0
  | PBool b => negb b
  | PFloat q => float_is_zero q
  | PNone | PStr _ | PList _ | PDict _ => false
  end.

(** ** Operations on values *)

(** [k in x] for a string [k]. *)
Definition py_in (k : str) (x : py) : exn + bool :=
  match x with
  | PDict d => inr (dict_has k d)
  | PList l =>
      inr (existsb (fun y => match y with PStr s => str_eqb k s | _ => false end) l)
  | PStr s => inr (substring_in k s)
  | PNone | PBool _ | PInt _ | PFloat _ => inl TypeError
  end.

(** [x[k]] for a string [k]. *)
Definition getitem (x : py) (k : str) : exn + py :=
  match x with
  | PDict d =>
      match dict_get k d with
      | Some v => inr v
      | None => inl KeyError
      end
  | _ => inl TypeError
  end.

(** [x[i]] for an integer literal [i >= 0]. *)
Definition getindex (x : py) (i : nat) : exn + py :=
  match x with
  | PList l =>
      match nth_error l i with
      | Some v => inr v
      | None => inl IndexError
      end
  | PStr s =>
      match nth_error s i with
      | Some c => inr (PStr [c])
      | None => inl IndexError
      end
  | PDict _ => inl KeyError
  | PNone | PBool _ | PInt _ | PFloat _ => inl TypeError
  end.

(** [x.keys()] and [x.items()]. *)
Definition py_items (x : py) : exn + dict :=
  match x with
  | PDict d => inr d
  | _ => inl AttributeError
  end.

(** [bytes.fromhex(x)]. *)
Definition py_fromhex (x : py) : exn + list Z :=
  match x with
  | PStr s =>
      match bytes_fromhex s with
      | Some bs => inr bs
      | None => inl ValueError
      end
  | _ => inl TypeError
  end.

Definition bind_sum {A B : Type} (m : exn + A) (k : A -> exn + B) : exn + B :=
  match m with
  | inl e => inl e
  | inr a => k a
  end.

(** [x['result'][deveui]['result']]. *)
Definition inner_result (x : py) (deveui : str) : exn + py :=
  bind_sum (getitem x (lit "result")) (fun a =>
  bind_sum (getitem a deveui) (fun b =>
  getitem b (lit "result"))).

(** ** Sensor decoders *)

Definition int16_or_raise (s : str) : exn + Z :=
  match py_int16 s with
  | Some z => inr z
  | None => inl ValueError
  end.

Definition parse_sensors_full (data : str) : exn + py :=
  bind_sum (int16_or_raise (slice 0 1 data)) (fun version =>
  bind_sum (int16_or_raise (slice 1 2 data)) (fun move_history =>
  bind_sum (int16_or_raise (slice 2 6 data)) (fun t =>
  let temperature := true_div t 100 in
  bind_sum (int16_or_raise (slice 6 10 data)) (fun acc_charge =>
  bind_sum (int16_or_raise (slice 10 14 data)) (fun u =>
  let voltage := true_div u 1000 in
  inr (PDict
    [ (lit "type", PStr (lit "sensor_full"));
      (lit "version", PInt version);
      (lit "move_history", PInt move_history);
      (lit "temperature_C", PFloat temperature);
      (lit "accumulated_charge", PInt acc_charge);
      (lit "battLevel", PFloat (true_div (100 * (2400 - acc_charge)) 2400));
      (lit "voltage", PFloat voltage) ])))))).

Definition parse_sensors_basic (data : str) : exn + py :=
  bind_sum (int16_or_raise (slice 0 1 data)) (fun version =>
  bind_sum (int16_or_raise (slice 1 2 data)) (fun move_history =>
  inr (PDict
    [ (lit "type", PStr (lit "sensor_basic"));
      (lit "version", PInt version);
      (lit "move_history", PInt move_history) ]))).

(** ** The time of the uplink *)

Definition dec_digit (c : ascii) : option Z :=
  let n := ord c in
  if (48 <=? n) && (n <=? 57) then Some (n - 48) else None.

(** A field of two digits that the pattern of a directive accepts, and
    a field of one. *)
Definition two_digits (accept : Z -> Z -> bool) (s : str) : option (Z * str) :=
  match s with
  | a :: b :: rest =>
      match dec_digit a, dec_digit b with
      | Some x, Some y => if accept x y then Some (10 * x + y, rest) else None
      | _, _ => None
      end
  | _ => None
  end.

Definition one_digit (accept : Z -> bool) (s : str) : option (Z * str) :=
  match s with
  | a :: rest =>
      match dec_digit a with
      | Some x => if accept x then Some (x, rest) else None
      | None => None
      end
  | [] => None
  end.

Definition or_else {A : Type} (x y : option A) : option A :=
  match x with
  | Some _ => x
  | None => y
  end.

(** The patterns [_strptime] compiles the directives to, alternatives
    in their order.  A field is followed by a character that is no digit,
    so the first alternative that matches is the only one with which the
    rest of the pattern can match.

    [%Y]: [\d\d\d\d]. *)
Definition field_Y (s : str) : option (Z * str) :=
  match s with
  | a :: b :: c :: d :: rest =>
      match dec_digit a, dec_digit b, dec_digit c, dec_digit d with
      | Some x, Some y, Some z, Some w => Some (1000 * x + 100 * y + 10 * z + w, rest)
      | _, _, _, _ => None
      end
  | _ => None
  end.

(** [%m]: [1[0-2]|0[1-9]|[1-9]]. *)
Definition field_m (s : str) : option (Z * str) :=
  or_else (two_digits (fun x y => (x =? 1) && (y <=? 2) || (x =? 0) && (1 <=? y)) s)
          (one_digit (fun x => 1 <=? x) s).

(** [%d]: [3[0-1]|[1-2]\d|0[1-9]|[1-9]| [1-9]]. *)
Definition field_d (s : str) : option (Z * str) :=
  or_else (two_digits (fun x y => (x =? 3) && (y <=? 1)
                                  || (1 <=? x) && (x <=? 2)
                                  || (x =? 0) && (1 <=? y)) s)
    (or_else (one_digit (fun x => 1 <=? x) s)
       match s with
       | a :: rest => if ord a =? 32 then one_digit (fun x => 1 <=? x) rest else None
       | [] => None
       end).

(** [%H]: [2[0-3]|[0-1]\d|\d]. *)
Definition field_H (s : str) : option (Z * str) :=
  or_else (two_digits (fun x y => (x =? 2) && (y <=? 3) || (x <=? 1)) s)
          (one_digit (fun _ => true) s).

(** [%M]: [[0-5]\d|\d]. *)
Definition field_M (s : str) : option (Z * str) :=
  or_else (two_digits (fun x _ => x <=? 5) s) (one_digit (fun _ => true) s).

(** [%S]: [6[0-1]|[0-5]\d|\d]. *)
Definition field_S (s : str) : option (Z * str) :=
  or_else (two_digits (fun x y => (x =? 6) && (y <=? 1) || (x <=? 5)) s)
          (one_digit (fun _ => true) s).

(** A character of the format that stands for itself; the pattern is
    matched without regard to letter case. *)
Definition literal (c : ascii) (s : str) : option str :=
  match s with
  | a :: rest =>
      if Ascii.eqb (upper_char a) (upper_char c) then Some rest else None
  | [] => None
  end.

Definition is_leap (y : Z) : bool :=
  (y mod 4 =? 0) && (negb (y mod 100 =? 0) || (y mod 400 =? 0)).

Definition days_in_month (y m : Z) : Z :=
  if m =? 2 then (if is_leap y then 29 else 28)
  else if (m =? 4) || (m =? 6) || (m =? 9) || (m =? 11) then 30
  else 31.

(** [date(y, m, d).toordinal()]: day 1 is 1 January of year 1. *)
Definition days_before_year (y : Z) : Z :=
  365 * (y - 1) + (y - 1) / 4 - (y - 1) / 100 + (y - 1) / 400.

Definition days_before_month (y m : Z) : Z :=
  nth (Z.to_nat (m - 1)) [0; 31; 59; 90; 120; 151; 181; 212; 243; 273; 304; 334] 0
  + (if (2 <? m) && is_leap y then 1 else 0).

Definition toordinal (y m d : Z) : Z :=
  days_before_year y + days_before_month y m + d.

(** [datetime.strptime(iso, '%Y-%m-%dT%H:%M:%SZ')]: the six fields of
    a text that matches the format to its end and names a date and a time
    of day that exist; [None] stands for [ValueError]. *)
Definition strptime (iso : str) : option (Z * Z * Z * Z * Z * Z) :=
  match field_Y iso with
  | None => None
  | Some (y, s1) =>
  match literal "-"%char s1 with
  | None => None
  | Some s2 =>
  match field_m s2 with
  | None => None
  | Some (m, s3) =>
  match literal "-"%char s3 with
  | None => None
  | Some s4 =>
  match field_d s4 with
  | None => None
  | Some (d, s5) =>
  match literal "T"%char s5 with
  | None => None
  | Some s6 =>
  match field_H s6 with
  | None => None
  | Some (hh, s7) =>
  match literal ":"%char s7 with
  | None => None
  | Some s8 =>
  match field_M s8 with
  | None => None
  | Some (mm, s9) =>
  match literal ":"%char s9 with
  | None => None
  | Some s10 =>
  match field_S s10 with
  | None => None
  | Some (ss, s11) =>
  match literal "Z"%char s11 with
  | Some [] =>
      if (1 <=? y) && (d <=? days_in_month y m) && (ss <=? 59)
      then Some (y, m, d, hh, mm, ss)
      else None
  | _ => None
  end end end end end end end end end end end end.

(** [dt.replace(tzinfo=timezone.utc).timestamp()]: the seconds from
    1 January 1970, a whole number. *)
Definition timestamp (dt : Z * Z * Z * Z * Z * Z) : Z :=
  let '(y, m, d, hh, mm, ss) := dt in
  (toordinal y m d - 719163) * 86400 + hh * 3600 + mm * 60 + ss.

Definition iso2ts (iso : str) : exn + Q :=
  match strptime iso with
  | Some dt => inr (inject_Z (timestamp dt))
  | None => inl ValueError
  end.

(** ** The inbound event *)

(** The event of AWS IoT Core for LoRaWAN, with the fields the handler
    reads.  [PayloadData] holds the bytes that the base64 text of the field
    decodes to. *)
Record Event : Type := {
  DevEui : str;
  FCnt : Z;
  FPort : Z;
  DataRate : Z;
  Frequency : Z;
  Timestamp : str;
  WirelessDeviceId : str;
  PayloadData : list Z
}.

(** [int(iso2ts(data['timestamp']))] and [iso2ts(data['timestamp'])]
    once the call has returned.  The handler makes the call first when it
    builds the primary forward, where a [Timestamp] that is not in the
    format raises [ValueError] and ends the invocation; the calls in the
    loop over the stream records are on the same text, after that one, and
    give this value. *)
Definition Timestamp_epoch (event : Event) : Z :=
  match strptime (Timestamp event) with
  | Some dt => timestamp dt
  | None => 0
  end.

Definition uplink_time (event : Event) : Q := inject_Z (Timestamp_epoch event).

(** Whether [Timestamp] is in the format. *)
Definition timestamp_ok (event : Event) : bool :=
  match strptime (Timestamp event) with
  | Some _ => true
  | None => false
  end.

(** ['-'.join(DevEui[i:i+2] for i in range(0, len(DevEui), 2))]. *)
Fixpoint dash_pairs (s : str) : str :=
  match s with
  | a :: b :: r =>
      match r with
      | [] => [a; b]
      | _ :: _ => a :: b :: chr 45 :: dash_pairs r
      end
  | _ => s
  end.

Definition DEVEUI_of (event : Event) : str := upper (dash_pairs (DevEui event)).
Definition deveui_of (event : Event) : str := lower (DEVEUI_of event).

(** ** Handler state, outbound calls and the monad *)

Record downlink_call : Type := {
  dl_id : str;
  dl_transmitMode : Z;
  dl_payload : str;
  dl_port : Z
}.

(** What [send_https] returns: the text read from the connection, with
    the value [json.loads] gives on that text ([None] when it raises). *)
Record reply : Type := {
  body : str;
  loads : option py
}.

(** A value held under a key of [retVal]: a value of its own, or the
    object the local [retAcc] is bound to.  Branch [09] binds a fresh dict
    to [retAcc] and stores that same object under ['accelerometer'], so
    later writes through [retAcc] show in [retVal]. *)
Inductive slot : Type :=
| Own (v : py)
| RetAccObject.

Record hstate : Type := {
  https_log : list py;              (* objects passed to [json.dumps] and sent, oldest first *)
  downlink_log : list downlink_call;
  retVal : list (str * slot);
  retAcc : option dict;             (* [None]: the local is unbound *)
  r : option py                     (* idem *)
}.

Definition initial : hstate :=
  {| https_log := []; downlink_log := []; retVal := []; retAcc := None; r := None |}.

Inductive result (A : Type) : Type :=
| Ok (a : A)
| Raise (e : exn).

Arguments Ok {A} a.
Arguments Raise {A} e.

Definition M (A : Type) : Type := hstate -> result A * hstate.

Definition ret {A : Type} (a : A) : M A := fun st => (Ok a, st).

Definition raise {A : Type} (e : exn) : M A := fun st => (Raise e, st).

Definition bind {A B : Type} (m : M A) (k : A -> M B) : M B :=
  fun st =>
    match m st with
    | (Ok a, st') => k a st'
    | (Raise e, st') => (Raise e, st')
    end.

Notation "x <- m ;; k" := (bind m (fun x => k))
  (at level 61, m at next level, right associativity).
Notation "m ;;; k" := (bind m (fun _ => k))
  (at level 61, right associativity).

Definition lift {A : Type} (m : exn + A) : M A :=
  match m with
  | inl e => raise e
  | inr a => ret a
  end.

Fixpoint slot_get (k : str) (d : list (str * slot)) : option slot :=
  match d with
  | [] => None
  | (k', v) :: d' => if str_eqb k k' then Some v else slot_get k d'
  end.

Fixpoint slot_set (k : str) (v : slot) (d : list (str * slot)) : list (str * slot) :=
  match d with
  | [] => [(k, v)]
  | (k', v') :: d' =>
      if str_eqb k k' then (k, v) :: d' else (k', v') :: slot_set k v d'
  end.

(** [retVal[k] = v]. *)
Definition set_retVal (k : str) (v : slot) : M unit :=
  fun st =>
    (Ok tt, {| https_log := https_log st; downlink_log := downlink_log st;
               retVal := slot_set k v (retVal st);
               retAcc := retAcc st; r := r st |}).

(** The state once one more request, or one more downlink, went out. *)
Definition log_request (m : py) (st : hstate) : hstate :=
  {| https_log := https_log st ++ [m]; downlink_log := downlink_log st;
     retVal := retVal st; retAcc := retAcc st; r := r st |}.

Definition log_downlink (c : downlink_call) (st : hstate) : hstate :=
  {| https_log := https_log st; downlink_log := downlink_log st ++ [c];
     retVal := retVal st; retAcc := retAcc st; r := r st |}.

(** [k in retVal]. *)
Definition in_retVal (k : str) : M bool :=
  fun st =>
    (Ok (match slot_get k (retVal st) with Some _ => true | None => false end), st).

(** Reading [retVal[k]], as in [format(retVal[k])]. *)
Definition read_retVal (k : str) : M unit :=
  fun st =>
    match slot_get k (retVal st) with
    | Some _ => (Ok tt, st)
    | None => (Raise KeyError, st)
    end.

(** [retAcc = d]. *)
Definition bind_retAcc (d : dict) : M unit :=
  fun st =>
    (Ok tt, {| https_log := https_log st; downlink_log := downlink_log st;
               retVal := retVal st; retAcc := Some d; r := r st |}).

(** [retAcc[k] = v]; the local must be bound. *)
Definition set_retAcc (k : str) (v : py) : M unit :=
  fun st =>
    match retAcc st with
    | None => (Raise UnboundLocalError, st)
    | Some d =>
        (Ok tt, {| https_log := https_log st; downlink_log := downlink_log st;
                   retVal := retVal st; retAcc := Some (dict_set k v d);
                   r := r st |})
    end.

(** [r = v]. *)
Definition bind_r (v : py) : M unit :=
  fun st =>
    (Ok tt, {| https_log := https_log st; downlink_log := downlink_log st;
               retVal := retVal st; retAcc := retAcc st; r := Some v |}).

(** Reading [r], as in [format(r)]. *)
Definition read_r : M py :=
  fun st =>
    match r st with
    | None => (Raise UnboundLocalError, st)
    | Some v => (Ok v, st)
    end.

(** The dict the caller receives for [return retVal]. *)
Definition returned_dict (st : hstate) : dict :=
  map (fun kv =>
         (fst kv,
          match snd kv with
          | Own v => v
          | RetAccObject =>
              match retAcc st with
              | Some d => PDict d
              | None => PDict []
              end
          end)) (retVal st).

Definition returned (st : hstate) : py := PDict (returned_dict st).

Definition return_retVal : M py := fun st => (Ok (returned st), st).

Fixpoint for_each {A : Type} (l : list A) (body : A -> M unit) : M unit :=
  match l with
  | [] => ret tt
  | a :: l' => body a ;;; for_each l' body
  end.

(** [for a in g: body], [g] a generator: the body runs on each item as
    it is produced, and an exception of the generator ends the loop. *)
Fixpoint for_gen {A : Type} (g : gen A) (body : A -> M unit) : M unit :=
  match g with
  | Stop => ret tt
  | Throw e => raise e
  | Yield a rest => body a ;;; for_gen rest body
  end.

(** ** [lambda_handler] *)

Section Handler.

(** The world outside the handler: what the [n]-th call of [send_https]
    returns ([None]: the call raises), whether the [n]-th call of
    [send_downlink] returns, and the text [format] gives for a value. *)
Variable solver : nat -> option reply.
Variable iot : nat -> bool.
Variable repr : py -> str.

(** [send_https(API_URI, 'POST', DEV_API, json.dumps(myData), myHeaders)]. *)
Definition send_https (myData : py) : M reply :=
  fun st =>
    match solver (List.length (https_log st)) with
    | Some ir => (Ok ir, log_request myData st)
    | None => (Raise TransportError, log_request myData st)
    end.

Definition send_downlink (id : str) (transmitMode : Z) (payload : str) (port : Z)
  : M unit :=
  fun st =>
    let call := {| dl_id := id; dl_transmitMode := transmitMode;
                   dl_payload := payload; dl_port := port |} in
    if iot (List.length (downlink_log st)) then (Ok tt, log_downlink call st)
    else (Raise ClientError, log_downlink call st).

Definition json_loads (ir : reply) : M py :=
  match loads ir with
  | Some v => ret v
  | None => raise JSONDecodeError
  end.

(** "Deliver downlink to end device (if present)": the same statements
    stand after the primary forward (on [td]) and in the GNSS branch
    (on [r]). *)
Definition deliver_downlink (id : str) (x : py) (deveui : str) : M unit :=
  res <- lift (inner_result x deveui) ;;
  ks <- lift (py_items res) ;;
  if dict_has (lit "dnlink") ks then
    downlink <- lift (getitem res (lit "dnlink")) ;;
    match downlink with
    | PNone => ret tt
    | _ =>
        p <- lift (getitem downlink (lit "port")) ;;
        let port := if py_eq_zero p then 150 else 199 in
        h <- lift (getitem downlink (lit "payload")) ;;
        bs <- lift (py_fromhex h) ;;
        send_downlink id 0 (b64encode bs) port
    end
  else ret tt.

(** The statements under [if ('result' in ir)] of the two Wi-Fi
    branches. *)
Definition wifi_solution (DEVEUI deveui : str) (ir : reply) : M unit :=
  v <- json_loads ir ;;
  bind_r v ;;;
  res <- lift (inner_result v deveui) ;;
  wifi_response <- lift (getitem res (lit "position_solution")) ;;
  match wifi_response with
  | PNone => ret tt
  | _ =>
      has_gdop <- lift (py_in (lit "gdop") wifi_response) ;;
      gdop <- (if has_gdop
               then lift (bind_sum (getitem wifi_response (lit "llh"))
                                   (fun l => getitem l (lit "gdop")))
               else ret (PInt (-1))) ;;
      lat <- lift (bind_sum (getitem wifi_response (lit "llh")) (fun l => getindex l 0)) ;;
      lon <- lift (bind_sum (getitem wifi_response (lit "llh")) (fun l => getindex l 1)) ;;
      alt <- lift (bind_sum (getitem wifi_response (lit "llh")) (fun l => getindex l 2)) ;;
      acc <- lift (getitem wifi_response (lit "accuracy")) ;;
      ts <- lift (getitem wifi_response (lit "timestamp")) ;;
      let loc := PDict
        [ (lit "msgtype", PStr (lit "wifi"));
          (lit "DevEUI", PStr DEVEUI);
          (lit "latitude", lat);
          (lit "longitude", lon);
          (lit "altitude", alt);
          (lit "acc", acc);
          (lit "gdop", gdop);
          (lit "timestamp", ts) ] in
      set_retVal (lit "wifi_location") (Own loc) ;;;
      set_retVal (lit "statusCode") (Own (PInt 200))
  end.

Definition scan_message (deveui msgtype payload : str) (timestamp : py) : py :=
  PDict [ (deveui, PDict [ (lit "msgtype", PStr msgtype);
                           (lit "payload", PStr payload);
                           (lit "timestamp", timestamp) ]) ].

Definition motion_label (b0 : Z) (i : Z) : py :=
  if Z.testbit b0 i then PStr (lit "Motion") else PStr (lit "Still").

(** The body of [for tlv in tlv_parser(pl)]. *)
Definition dispatch (event : Event) (tlv : triple) : M unit :=
  let '(tag, length, val) := tlv in
  let DEVEUI := DEVEUI_of event in
  let deveui := deveui_of event in
  if str_eqb (upper tag) (lit "0E") then
    ts <- lift (int16_or_raise (slice 2 10 val)) ;;
    let ptimestamp := Timestamp_epoch event in
    let timestamp := if ts =? 0 then ptimestamp else ts in
    let payload := lit "01" ++ skipn 10 val in
    ir <- send_https (scan_message deveui (lit "wifi") payload (PInt timestamp)) ;;
    if substring_in (lit "result") (body ir)
    then wifi_solution DEVEUI deveui ir
    else ret tt
  else if str_eqb (upper tag) (lit "08") then
    ir <- send_https (scan_message deveui (lit "wifi") (lit "01" ++ val)
                                   (PFloat (uplink_time event))) ;;
    if substring_in (lit "result") (body ir)
    then wifi_solution DEVEUI deveui ir
    else (_ <- read_r ;; ret tt)
  else if str_eqb (upper tag) (lit "09") then
    bind_retAcc [ (lit "msgtype", PStr (lit "accelerometer"));
                  (lit "DevEUI", PStr DEVEUI) ] ;;;
    bs <- lift (py_fromhex (PStr val)) ;;
    match unpack_Bhhhh bs with
    | None => raise StructError
    | Some (v0, v1, v2, v3, v4) =>
        let motArr := map (motion_label v0) [0; 1; 2; 3; 4; 5; 6; 7] in
        let accVals := PDict
          [ (lit "motArr", PList motArr);
            (lit "xAcc_mg", PFloat (true_div v1 1000));
            (lit "yAcc_mg", PFloat (true_div v2 1000));
            (lit "zAcc_mg", PFloat (true_div v3 1000));
            (lit "Temp_C", PFloat (true_div v4 100)) ] in
        set_retAcc (lit "accVals") accVals ;;;
        set_retVal (lit "accelerometer") RetAccObject ;;;
        set_retVal (lit "statusCode") (Own (PInt 200))
    end
  else if str_eqb (upper tag) (lit "0A") then
    bs <- lift (py_fromhex (PStr val)) ;;
    match unpack_L bs with
    | None => raise StructError
    | Some modemCharge =>
        set_retAcc (lit "modemCharge") (PInt modemCharge) ;;;
        set_retAcc (lit "battLevel")
                   (PFloat (true_div (100 * (2400 - modemCharge)) 2400)) ;;;
        set_retVal (lit "statusCode") (Own (PInt 200))
    end
  else if str_eqb (upper tag) (lit "0B") then
    bs <- lift (py_fromhex (PStr val)) ;;
    match unpack_H bs with
    | None => raise StructError
    | Some u =>
        let modemVolt := true_div u 1000 in
        set_retAcc (lit "modemVolt") (PFloat modemVolt) ;;;
        set_retVal (lit "statusCode") (Own (PInt 200))
    end
  else if str_eqb (upper tag) (lit "0D") then
    (if length =? 1 then
       s <- lift (parse_sensors_basic val) ;;
       set_retVal (lit "sensors") (Own s)
     else if length =? 7 then
       s <- lift (parse_sensors_full val) ;;
       set_retVal (lit "sensors") (Own s)
     else ret tt) ;;;
    read_retVal (lit "sensors") ;;;
    set_retVal (lit "statusCode") (Own (PInt 200))
  else if str_eqb (upper tag) (lit "05") || str_eqb (upper tag) (lit "06")
          || str_eqb (upper tag) (lit "07") then
    ir <- send_https (scan_message deveui (lit "gnss") val (PFloat (uplink_time event))) ;;
    if substring_in (lit "result") (body ir) then
      v <- json_loads ir ;;
      bind_r v ;;;
      deliver_downlink (WirelessDeviceId event) v deveui ;;;
      res <- lift (inner_result v deveui) ;;
      gnss_response <- lift (getitem res (lit "position_solution")) ;;
      match gnss_response with
      | PNone => ret tt
      | _ =>
          lat <- lift (bind_sum (getitem gnss_response (lit "llh")) (fun l => getindex l 0)) ;;
          lon <- lift (bind_sum (getitem gnss_response (lit "llh")) (fun l => getindex l 1)) ;;
          alt <- lift (bind_sum (getitem gnss_response (lit "llh")) (fun l => getindex l 2)) ;;
          acc <- lift (getitem gnss_response (lit "accuracy")) ;;
          gdop <- lift (getitem gnss_response (lit "gdop")) ;;
          ts <- lift (getitem gnss_response (lit "timestamp")) ;;
          let loc := PDict
            [ (lit "msgtype", PStr (lit "gnss"));
              (lit "soltype", PStr val);
              (lit "DevEUI", PStr DEVEUI);
              (lit "latitude", lat);
              (lit "longitude", lon);
              (lit "altitude", alt);
              (lit "acc", acc);
              (lit "gdop", gdop);
              (lit "timestamp", ts) ] in
          seen <- in_retVal (lit "gnss_location") ;;
          let gnss_key :=
            if seen then lit "gnss_location_" ++ upper tag
            else lit "gnss_location" in
          set_retVal gnss_key (Own loc) ;;;
          set_retVal (lit "statusCode") (Own (PInt 200))
      end
    else ret tt
  else ret tt.

(** The body of [for i in range(len(v))]. *)
Definition stream_record (event : Event) (vi : py) : M unit :=
  match vi with
  | PList _ =>
      pl <- lift (getindex vi 1) ;;
      for_gen (tlv_parser pl) (dispatch event)
  | _ => ret tt
  end.

(** The body of [for x in td['result'][deveui]['result'].items()]. *)
Definition result_item (event : Event) (x : str * py) : M unit :=
  let '(k, v) := x in
  match v with
  | PList l =>
      if str_eqb k (lit "stream_records")
      then for_each l (stream_record event)
      else ret tt
  | _ => ret tt
  end.

Definition join_message (deveui : str) : py :=
  PDict [ (deveui, PDict [ (lit "msgtype", PStr (lit "joining")) ]) ].

Definition uplink_message (event : Event) : py :=
  PDict [ (deveui_of event,
           PDict [ (lit "fcnt", PInt (FCnt event));
                   (lit "port", PInt (FPort event));
                   (lit "payload", PStr (bytes_hex (PayloadData event)));
                   (lit "dr", PInt (DataRate event));
                   (lit "freq", PInt (Frequency event));
                   (lit "timestamp", PInt (Timestamp_epoch event)) ]) ].

(** The statements from [td = json.loads(outerResponse)] to the end
    of the handler. *)
Definition process_solver_response (event : Event) (outerResponse : reply)
  : M py :=
  let DEVEUI := DEVEUI_of event in
  let deveui := deveui_of event in
  td <- json_loads outerResponse ;;
  has_result <- lift (py_in (lit "result") td) ;;
  if has_result then
    deliver_downlink (WirelessDeviceId event) td deveui ;;;
    res <- lift (inner_result td deveui) ;;
    items <- lift (py_items res) ;;
    for_each items (result_item event) ;;;
    set_retVal (lit "statusCode") (Own (PInt 200)) ;;;
    set_retVal (lit "msgtype") (Own (PStr (lit "Reference"))) ;;;
    set_retVal (lit "DevEUI") (Own (PStr DEVEUI)) ;;;
    set_retVal (lit "timestamp") (Own (PStr (Timestamp event))) ;;;
    return_retVal
  else
    set_retVal (lit "error")
      (Own (PStr (lit "Error, Bad CS response: " ++ repr td))) ;;;
    set_retVal (lit "statusCode") (Own (PInt 404)) ;;;
    set_retVal (lit "msgtype") (Own (PStr (lit "Error"))) ;;;
    set_retVal (lit "DevEUI") (Own (PStr DEVEUI)) ;;;
    set_retVal (lit "timestamp") (Own (PStr (Timestamp event))) ;;;
    return_retVal.

Definition lambda_handler_body (event : Event) : M py :=
  let DEVEUI := DEVEUI_of event in
  let deveui := deveui_of event in
  if negb (FPort event =? 199) then
    set_retVal (lit "error")
      (Own (PStr (lit "Port number 199 expected, receieved: "
                  ++ str_of_int (FPort event)))) ;;;
    set_retVal (lit "statusCode") (Own (PInt 400)) ;;;
    set_retVal (lit "msgtype") (Own (PStr (lit "Error"))) ;;;
    set_retVal (lit "DevEUI") (Own (PStr DEVEUI)) ;;;
    set_retVal (lit "timestamp") (Own (PStr (Timestamp event))) ;;;
    return_retVal
  else
    (if FCnt event <? 2
     then (_ <- send_https (join_message deveui) ;; ret tt)
     else ret tt) ;;;
    (* dmsmsg: int(iso2ts(data['timestamp'])) raises for a Timestamp that
       is not in the format; otherwise it is Timestamp_epoch. *)
    lift (iso2ts (Timestamp event)) ;;;
    outerResponse <- send_https (uplink_message event) ;;
    process_solver_response event outerResponse.

(** One invocation: the value returned or the exception raised, with
    the outbound calls made. *)
Definition lambda_handler (event : Event) : result py * hstate :=
  lambda_handler_body event initial.

End Handler.

(** ** TLV streams on the wire *)

(** A record as it stands in a stream: the text of its tag, of its length
    field and of its value. *)
Definition wire_record := (str * str * str)%type.

Definition all_hex (s : str) : bool := forallb is_hex s.

(** The number a text of hexadecimal digits denotes. *)
Definition hex_number (s : str) : Z :=
  fold_left (fun acc c => 16 * acc + match digit_value c with
                                     | Some d => d
                                     | None => 0
                                     end) s 0.

(** [tag(2) + length(2) + value(2*length)], all hexadecimal digits. *)
Definition wf_record (rec : wire_record) : Prop :=
  let '(tag, lf, value) := rec in
  List.length tag = 2%nat /\ all_hex tag = true /\
  List.length lf = 2%nat /\ all_hex lf = true /\
  all_hex value = true /\
  List.length value = Z.to_nat (2 * hex_number lf).

Definition wire (rec : wire_record) : str :=
  let '(tag, lf, value) := rec in tag ++ lf ++ value.

Definition wire_all (recs : list wire_record) : str := flat_map wire recs.

(** The triple [tlv_parser] is to yield for a record. *)
Definition triple_of (rec : wire_record) : triple :=
  let '(tag, lf, value) := rec in (tag, hex_number lf, value).

(** Two records that differ at most in the letter case of the tag. *)
Definition same_but_tag_case (rec rec' : wire_record) : Prop :=
  let '(tag, lf, value) := rec in
  let '(tag', lf', value') := rec' in
  upper tag = upper tag' /\ lf = lf' /\ value = value'.

(** Re-encoding of a triple: the tag, the length as one byte in two
    hexadecimal digits (as [bytes.hex] writes them), the value. *)
Definition reencode (t : triple) : str :=
  let '(tag, length, value) := t in tag ++ byte_hex length ++ value.

(** A generator that never meets the recursion bound of [tlv_run]. *)
Fixpoint within_fuel {A : Type} (g : gen A) : Prop :=
  match g with
  | Stop => True
  | Throw e => e <> FuelExhausted
  | Yield _ rest => within_fuel rest
  end.

(** ** Outbound calls of one invocation *)

(** The secondary requests: a Wi-Fi or GNSS scan sent for a stream
    record. *)
Definition is_scan_message (deveui : str) (m : py) : Prop :=
  exists msgtype payload timestamp,
    m = scan_message deveui msgtype payload timestamp /\
    (msgtype = lit "wifi" \/ msgtype = lit "gnss").

(** The downlinks the handler may emit for the device [id]. *)
Definition is_remapped_downlink (id : str) (c : downlink_call) : Prop :=
  dl_id c = id /\ dl_transmitMode c = 0 /\ (dl_port c = 150 \/ dl_port c = 199).

(** [st'] is [st] after further outbound calls: requests that satisfy
    [Req] and downlinks that satisfy [Dl]. *)
Definition extends (Req : py -> Prop) (Dl : downlink_call -> Prop)
           (st st' : hstate) : Prop :=
  exists l1 l2,
    https_log st' = https_log st ++ l1 /\
    downlink_log st' = downlink_log st ++ l2 /\
    Forall Req l1 /\ Forall Dl l2.

Definition grows (Req : py -> Prop) (Dl : downlink_call -> Prop)
           {A : Type} (m : M A) : Prop :=
  forall st, extends Req Dl st (snd (m st)).

(** The number of the call that carries the primary forward: it comes
    second when a join notification is sent. *)
Definition primary_index (event : Event) : nat :=
  if FCnt event <? 2 then 1%nat else 0%nat.


(** The GNSS tags, in either letter case. *)
Definition is_gnss_tag (tag : str) : Prop :=
  upper tag = lit "05" \/ upper tag = lit "06" \/ upper tag = lit "07".

(** What branch [05]/[06]/[07] stores for a position solution. *)
Definition gnss_location (event : Event) (val : str)
           (lat lon alt acc gdop ts : py) : py :=
  PDict
    [ (lit "msgtype", PStr (lit "gnss"));
      (lit "soltype", PStr val);
      (lit "DevEUI", PStr (DEVEUI_of event));
      (lit "latitude", lat);
      (lit "longitude", lon);
      (lit "altitude", alt);
      (lit "acc", acc);
      (lit "gdop", gdop);
      (lit "timestamp", ts) ].

(** The downlink directive of a result object is absent, null, or
    well formed (a port and a hexadecimal payload). *)
Definition directive_deliverable (d : dict) : Prop :=
  dict_get (lit "dnlink") d = None \/
  dict_get (lit "dnlink") d = Some PNone \/
  exists dl p h bs,
    dict_get (lit "dnlink") d = Some (PDict dl) /\
    dict_get (lit "port") dl = Some p /\
    dict_get (lit "payload") dl = Some (PStr h) /\
    bytes_fromhex h = Some bs.

(** A reply to a GNSS scan that carries a position solution. *)
Definition gnss_solved (event : Event) (ir : reply)
           (lat lon alt acc gdop ts : py) : Prop :=
  substring_in (lit "result") (body ir) = true /\
  exists v d sol more,
    loads ir = Some v /\
    inner_result v (deveui_of event) = inr (PDict d) /\
    directive_deliverable d /\
    dict_get (lit "position_solution") d = Some (PDict sol) /\
    dict_get (lit "llh") sol = Some (PList (lat :: lon :: alt :: more)) /\
    dict_get (lit "accuracy") sol = Some acc /\
    dict_get (lit "gdop") sol = Some gdop /\
    dict_get (lit "timestamp") sol = Some ts.

(** ** Sample inputs *)

Definition plain_char (c : ascii) : bool :=
  let n := ord c in (32 <=? n) && (n <? 127) && negb (n =? 34) && negb (n =? 92).

(** A JSON text that [json.loads] reads as [v]; given for values without
    floats whose strings need no escape. *)
Definition quoted (s : str) : option str :=
  if forallb plain_char s then Some (chr 34 :: s ++ [chr 34]) else None.

Fixpoint json_text (v : py) : option str :=
  match v with
  | PNone => Some (lit "null")
  | PBool b => Some (if b then lit "true" else lit "false")
  | PInt z => Some (str_of_int z)
  | PFloat _ => None
  | PStr s => quoted s
  | PList l =>
      match (fix items (l : list py) : option str :=
               match l with
               | [] => Some []
               | x :: l' =>
                   match json_text x, items l' with
                   | Some a, Some b =>
                       Some (match l' with [] => a | _ :: _ => a ++ lit ", " ++ b end)
                   | _, _ => None
                   end
               end) l with
      | Some t => Some (lit "[" ++ t ++ lit "]")
      | None => None
      end
  | PDict d =>
      match (fix items (d : list (str * py)) : option str :=
               match d with
               | [] => Some []
               | (k, x) :: d' =>
                   match quoted k, json_text x, items d' with
                   | Some kt, Some a, Some b =>
                       Some (match d' with
                             | [] => kt ++ lit ": " ++ a
                             | _ :: _ => kt ++ lit ": " ++ a ++ lit ", " ++ b
                             end)
                   | _, _, _ => None
                   end
               end) d with
      | Some t => Some (lit "{" ++ t ++ lit "}")
      | None => None
      end
  end.

(** The reply whose body is the JSON text of [v]. *)
Definition json_reply (v : py) : option reply :=
  match json_text v with
  | Some t => Some {| body := t; loads := Some v |}
  | None => None
  end.

(** A reply whose body is no JSON text. *)
Definition text_reply (t : str) : option reply :=
  Some {| body := t; loads := None |}.

(** A solver that answers the calls with the listed outcomes, in order,
    and whose connection fails afterwards. *)
Definition scripted (l : list (option reply)) (n : nat) : option reply :=
  nth n l None.

Definition iot_up (n : nat) : bool := true.

Definition no_repr (v : py) : str := [].

Definition sample_event (fcnt fport : Z) : Event :=
  {| DevEui := lit "0016C001F0001A2B";
     FCnt := fcnt;
     FPort := fport;
     DataRate := 3;
     Frequency := 868100000;
     Timestamp := lit "2021-03-01T12:00:00Z";
     WirelessDeviceId := lit "7b4e";
     PayloadData := [1; 171] |}.

(** The primary response of the solver around the given result object. *)
Definition solver_result (event : Event) (res : list (str * py)) : py :=
  PDict [ (lit "result",
           PDict [ (deveui_of event, PDict [ (lit "result", PDict res) ]) ]) ].

Definition stream_response (event : Event) (tlv : str) : py :=
  solver_result event
    [ (lit "stream_records", PList [ PList [PInt 0; PStr tlv] ]) ].

Definition position_response (event : Event) (lat lon alt : Z) : py :=
  solver_result event
    [ (lit "position_solution",
       PDict [ (lit "llh", PList [PInt lat; PInt lon; PInt alt]);
               (lit "accuracy", PInt 20);
               (lit "gdop", PInt 2);
               (lit "timestamp", PInt 1614600001) ]) ].

(** The uplink of the examples, on port 199 with frame counter 5. *)
Definition tracker_uplink : Event := sample_event 5 199.

(** The accelerometer record of the examples: tag [09], nine bytes. *)
Definition accelerometer_tlv : str := lit "0909010001000200030004".

(** [v[k1][k2]]. *)
Definition field2 (v : result py) (k1 k2 : str) : exn + py :=
  match v with
  | Ok x => bind_sum (getitem x k1) (fun a => getitem a k2)
  | Raise e => inl e
  end.

(** One invocation on [tracker_uplink] whose primary response carries
    the stream record [tlv] and whose scans get the [scans] replies. *)
Definition run_stream (tlv : str) (scans : list (option reply)) : result py * hstate :=
  lambda_handler
    (scripted (json_reply (stream_response tracker_uplink tlv) :: scans))
    iot_up no_repr tracker_uplink.

(** A primary response that carries one downlink directive, and the
    reply that holds it. *)
Definition directive_response : py :=
  solver_result tracker_uplink
    [ (lit "dnlink",
       PDict [ (lit "port", PInt 0); (lit "payload", PStr (lit "4d616e")) ]) ].

Definition directive_reply : reply :=
  {| body := match json_text directive_response with Some t => t | None => [] end;
     loads := Some directive_response |}.

(** ** Readings and results the decoders are to give *)

(** The dict of [parse_sensors_full] for given field values. *)
Definition sensor_full_reading (version move_history t acc_charge u : Z) : py :=
  PDict
    [ (lit "type", PStr (lit "sensor_full"));
      (lit "version", PInt version);
      (lit "move_history", PInt move_history);
      (lit "temperature_C", PFloat (true_div t 100));
      (lit "accumulated_charge", PInt acc_charge);
      (lit "battLevel", PFloat (true_div (100 * (2400 - acc_charge)) 2400));
      (lit "voltage", PFloat (true_div u 1000)) ].

(** The items a generator yields, and how it ends ([None]: it stops). *)
Fixpoint gen_items {A : Type} (g : gen A) : list A :=
  match g with
  | Stop | Throw _ => []
  | Yield a rest => a :: gen_items rest
  end.

Fixpoint gen_end {A : Type} (g : gen A) : option exn :=
  match g with
  | Stop => None
  | Throw e => Some e
  | Yield _ rest => gen_end rest
  end.

(** What every triple parsed from a string satisfies: a tag of two
    characters, a length from 0 to 255, a value of at most twice as many
    characters. *)
Definition triple_in_bounds (t : triple) : Prop :=
  let '(tag, length, value) := t in
  List.length tag = 2%nat /\ 0 <= length <= 255 /\
  Z.of_nat (List.length value) <= 2 * length.

(** The [accVals] dict of branch [09] for the five unpacked numbers. *)
Definition accVals_of (v0 v1 v2 v3 v4 : Z) : py :=
  PDict
    [ (lit "motArr", PList (map (motion_label v0) [0; 1; 2; 3; 4; 5; 6; 7]));
      (lit "xAcc_mg", PFloat (true_div v1 1000));
      (lit "yAcc_mg", PFloat (true_div v2 1000));
      (lit "zAcc_mg", PFloat (true_div v3 1000));
      (lit "Temp_C", PFloat (true_div v4 100)) ].

(** The object of branch [09], with the entries later branches add. *)
Definition accelerometer_object (event : Event) (entries : dict) : dict :=
  (lit "msgtype", PStr (lit "accelerometer"))
  :: (lit "DevEUI", PStr (DEVEUI_of event)) :: entries.

Definition is_byte (b : Z) : Prop := 0 <= b < 256.

(** The handler state with another [retVal] and another [retAcc]. *)
Definition with_result (rv : list (str * slot)) (acc : option dict) (st : hstate)
  : hstate :=
  {| https_log := https_log st; downlink_log := downlink_log st;
     retVal := rv; retAcc := acc; r := r st |}.

(** The tags [dispatch] knows, in upper case. *)
Definition known_tags : list str :=
  [ lit "0E"; lit "08"; lit "09"; lit "0A"; lit "0B"; lit "0D";
    lit "05"; lit "06"; lit "07" ].

(** What the Wi-Fi branches store for a position solution without a
    ['gdop'] key. *)
Definition wifi_location (event : Event) (lat lon alt acc ts : py) : py :=
  PDict
    [ (lit "msgtype", PStr (lit "wifi"));
      (lit "DevEUI", PStr (DEVEUI_of event));
      (lit "latitude", lat);
      (lit "longitude", lon);
      (lit "altitude", alt);
      (lit "acc", acc);
      (lit "gdop", PInt (-1));
      (lit "timestamp", ts) ].

(** A reply to a Wi-Fi scan that carries a position solution without a
    ['gdop'] key. *)
Definition wifi_solved (event : Event) (ir : reply) (lat lon alt acc ts : py) : Prop :=
  substring_in (lit "result") (body ir) = true /\
  exists v d sol more,
    loads ir = Some v /\
    inner_result v (deveui_of event) = inr (PDict d) /\
    dict_get (lit "position_solution") d = Some (PDict sol) /\
    dict_has (lit "gdop") sol = false /\
    dict_get (lit "llh") sol = Some (PList (lat :: lon :: alt :: more)) /\
    dict_get (lit "accuracy") sol = Some acc /\
    dict_get (lit "timestamp") sol = Some ts.

(** A Wi-Fi record with the request it makes: branch [08] sends the
    whole value, branch [0E] reads a capture time in characters 2 to 9 and
    sends the value from character 10 on. *)
Definition is_wifi_record (event : Event) (tag val : str) (request : py) : Prop :=
  (upper tag = lit "08" /\
   request = scan_message (deveui_of event) (lit "wifi") (lit "01" ++ val)
                          (PFloat (uplink_time event)))
  \/ (upper tag = lit "0E" /\
      exists ts,
        py_int16 (slice 2 10 val) = Some ts /\
        request = scan_message (deveui_of event) (lit "wifi") (lit "01" ++ skipn 10 val)
                    (PInt (if ts =? 0 then Timestamp_epoch event else ts))).

(** A record that makes a request to the solver: Wi-Fi or GNSS. *)
Definition is_scan_record (event : Event) (tag val : str) (request : py) : Prop :=
  is_wifi_record event tag val request
  \/ (is_gnss_tag tag /\
      request = scan_message (deveui_of event) (lit "gnss") val (PFloat (uplink_time event))).

(** The reply whose body is the JSON text of [v], when it has one. *)
Definition reply_of (v : py) : reply :=
  {| body := match json_text v with Some t => t | None => [] end; loads := Some v |}.

(** The handler state once the primary forward has returned: the join
    notification, for a frame counter below 2, and the forward are logged,
    and nothing is stored yet. *)
Definition forwarded (event : Event) : hstate :=
  {| https_log := (if FCnt event <? 2 then [join_message (deveui_of event)] else [])
                  ++ [uplink_message event];
     downlink_log := []; retVal := []; retAcc := None; r := None |}.

(** An item of the result object that the loop over the items passes
    over: its value is no list, or its key is not ['stream_records'], or
    none of the entries of the list is a list. *)
Definition skipped_item (kv : str * py) : bool :=
  match snd kv with
  | PList l =>
      negb (str_eqb (fst kv) (lit "stream_records"))
      || forallb (fun x => match x with PList _ => false | _ => true end) l
  | _ => true
  end.

(** The keys a reference result can have: the four of the final
    statements and those the branches of [dispatch] store under. *)
Definition reference_keys : list str :=
  [ lit "statusCode"; lit "msgtype"; lit "DevEUI"; lit "timestamp";
    lit "wifi_location"; lit "accelerometer"; lit "sensors";
    lit "gnss_location"; lit "gnss_location_05"; lit "gnss_location_06";
    lit "gnss_location_07" ].

(** [retVal] has keys among [K] only, and a computation keeps it so. *)
Definition has_keys (K : list str) (rv : list (str * slot)) : Prop :=
  Forall (fun kv => In (fst kv) K) rv.

Definition keeps_keys (K : list str) {A : Type} (m : M A) : Prop :=
  forall st, has_keys K (retVal st) -> has_keys K (retVal (snd (m st))).

(** A request as the solver gets it: one entry, under the device EUI
    in lower case with dashes. *)
Definition keyed_by (deveui : str) (m : py) : Prop :=
  exists fields, m = PDict [ (deveui, PDict fields) ].

Definition is_dash (c : ascii) : bool := ord c =? 45.

(** ** The records of a primary response *)

(** The triples that the loops over the result object hand to
    [dispatch], in order: for every list [v] under ['stream_records'], for
    every entry [v[i]] that is a list, those of [tlv_parser(v[i][1])]. *)
Definition entry_triples (vi : py) : list triple :=
  match vi with
  | PList _ =>
      match getindex vi 1 with
      | inr pl => gen_items (tlv_parser pl)
      | inl _ => []
      end
  | _ => []
  end.

Definition item_triples (kv : str * py) : list triple :=
  match snd kv with
  | PList l =>
      if str_eqb (fst kv) (lit "stream_records") then flat_map entry_triples l else []
  | _ => []
  end.

Definition stream_triples (res : dict) : list triple := flat_map item_triples res.

(** The stream records can be read to their end: every entry that is a
    list has an element 1, and the generator on it stops without an
    exception. *)
Definition entry_readable (vi : py) : bool :=
  match vi with
  | PList _ =>
      match getindex vi 1 with
      | inr pl =>
          match gen_end (tlv_parser pl) with
          | None => true
          | Some _ => false
          end
      | inl _ => false
      end
  | _ => true
  end.

Definition item_readable (kv : str * py) : bool :=
  match snd kv with
  | PList l =>
      if str_eqb (fst kv) (lit "stream_records") then forallb entry_readable l else true
  | _ => true
  end.

Definition stream_readable (res : dict) : bool := forallb item_readable res.

Definition tag_of (t : triple) : str := fst (fst t).

Definition is_wifi_tag (tag : str) : bool :=
  str_eqb (upper tag) (lit "0E") || str_eqb (upper tag) (lit "08").

(** The Wi-Fi records among some triples: each makes one request. *)
Definition wifi_count (l : list triple) : nat :=
  List.length (filter (fun t => is_wifi_tag (tag_of t)) l).

(** A record whose branch makes no call, with what it needs to return:
    nine bytes for tag [09]; four bytes for [0A] and two for [0B], and
    [retAcc] bound by an accelerometer record before; for [0D] a value the
    decoder of the declared length reads, or a reading stored before; any
    value for a tag that no branch handles.  [acc] and [sensors] tell
    whether [retAcc] is bound and a sensor reading stored, before the
    record and, in the result, after it. *)
Definition local_record (acc sensors : bool) (t : triple) : option (bool * bool) :=
  let '(tag, length, val) := t in
  if str_eqb (upper tag) (lit "09") then
    match bytes_fromhex val with
    | Some bs =>
        match unpack_Bhhhh bs with
        | Some _ => Some (true, sensors)
        | None => None
        end
    | None => None
    end
  else if str_eqb (upper tag) (lit "0A") then
    match bytes_fromhex val with
    | Some bs =>
        match unpack_L bs with
        | Some _ => if acc then Some (acc, sensors) else None
        | None => None
        end
    | None => None
    end
  else if str_eqb (upper tag) (lit "0B") then
    match bytes_fromhex val with
    | Some bs =>
        match unpack_H bs with
        | Some _ => if acc then Some (acc, sensors) else None
        | None => None
        end
    | None => None
    end
  else if str_eqb (upper tag) (lit "0D") then
    if length =? 1 then
      match parse_sensors_basic val with
      | inr _ => Some (acc, true)
      | inl _ => None
      end
    else if length =? 7 then
      match parse_sensors_full val with
      | inr _ => Some (acc, true)
      | inl _ => None
      end
    else if sensors then Some (acc, sensors) else None
  else if is_wifi_tag tag
          || str_eqb (upper tag) (lit "05") || str_eqb (upper tag) (lit "06")
          || str_eqb (upper tag) (lit "07") then None
  else Some (acc, sensors).

Fixpoint local_records (acc sensors : bool) (l : list triple) : option (bool * bool) :=
  match l with
  | [] => Some (acc, sensors)
  | t :: l' =>
      match local_record acc sensors t with
      | Some (acc', sensors') => local_records acc' sensors' l'
      | None => None
      end
  end.

(** A reply to a GNSS scan that carries a position solution with its
    four fields. *)
Definition gnss_answer (event : Event) (ir : reply)
           (lat lon alt acc gdop ts : py) : Prop :=
  substring_in (lit "result") (body ir) = true /\
  exists v d sol more,
    loads ir = Some v /\
    inner_result v (deveui_of event) = inr (PDict d) /\
    dict_get (lit "position_solution") d = Some (PDict sol) /\
    dict_get (lit "llh") sol = Some (PList (lat :: lon :: alt :: more)) /\
    dict_get (lit "accuracy") sol = Some acc /\
    dict_get (lit "gdop") sol = Some gdop /\
    dict_get (lit "timestamp") sol = Some ts.

(** A computation keeps a relation between the state before and the
    state after. *)
Definition frames (R : hstate -> hstate -> Prop) {A : Type} (m : M A) : Prop :=
  forall st, R st (snd (m st)).

(** The entry under a key of [retVal] is left as it is. *)
Definition same_slot (k : str) (st st' : hstate) : Prop :=
  slot_get k (retVal st') = slot_get k (retVal st).

(** What is bound stays bound: [retAcc], and a key of [retVal]. *)
Definition still_bound (k : str) (st st' : hstate) : Prop :=
  (retAcc st <> None -> retAcc st' <> None)
  /\ (slot_get k (retVal st) <> None -> slot_get k (retVal st') <> None).

(** A primary response with a null directive and two stream-record
    entries: an accelerometer record and a GNSS record of tag [06] in the
    first, a GNSS record of tag [07] in the second. *)
Definition two_entries_response : py :=
  solver_result tracker_uplink
    [ (lit "dnlink", PNone);
      (lit "stream_records",
       PList [ PList [PInt 0; PStr (accelerometer_tlv ++ lit "0602AABB")];
               PList [PInt 1; PStr (lit "0703CCDDEE")] ]);
      (lit "position_solution", PNone) ].

(** Text of ASCII characters only, on which [upper] and [lower] are
    [str.upper] and [str.lower]. *)
Definition is_ascii_text (s : str) : bool := forallb (fun c => ord c <? 128) s.

(** * Properties *)

(** ** Strings *)

Lemma str_eqb_refl (a : str) : str_eqb a a = true.
Proof.
  induction a as [|c a IH]; simpl; [reflexivity|].
  now rewrite Ascii.eqb_refl, IH.
Qed.

Lemma str_eqb_true (a b : str) : str_eqb a b = true -> a = b.
Proof.
  revert b; induction a as [|x a IH]; intros [|y b] H; simpl in H;
    try discriminate; [reflexivity|].
  apply andb_true_iff in H as [Hc Hs].
  apply Ascii.eqb_eq in Hc. subst y. f_equal. now apply IH.
Qed.

Lemma str_eqb_false (a b : str) : a <> b -> str_eqb a b = false.
Proof.
  intros Hne. destruct (str_eqb a b) eqn:E; [|reflexivity].
  exfalso. apply Hne. now apply str_eqb_true.
Qed.

(** ** Sensor decoders *)

(** C6, as the code has it.  The full sensor value is seven bytes whose
    first byte holds version and move history as its two nibbles, and
    whose charge is two bytes: on the value [13 09C4 0960 0DAC] the decoder
    returns version 1, move history 3, temperature 25.00, accumulated
    charge 2400, battery level 0.0 and voltage 3.500. *)
Theorem parse_sensors_full_vector :
  parse_sensors_full (lit "1309C409600DAC") =
    inr (PDict
      [ (lit "type", PStr (lit "sensor_full"));
        (lit "version", PInt 1);
        (lit "move_history", PInt 3);
        (lit "temperature_C", PFloat 25);
        (lit "accumulated_charge", PInt 2400);
        (lit "battLevel", PFloat 0);
        (lit "voltage", PFloat (7 # 2)) ]).
Proof. vm_compute. reflexivity. Qed.

(** C6, as the specification writes the vector: on the ten bytes
    [01 03 09C4 00000960 0DAC] the version read is 0, not 1, the
    temperature 7.77 and not 25.00, the charge 50176 and not 2400. *)
Lemma parse_sensors_full_spec_vector :
  parse_sensors_full (lit "010309C4000009600DAC") =
    inr (PDict
      [ (lit "type", PStr (lit "sensor_full"));
        (lit "version", PInt 0);
        (lit "move_history", PInt 1);
        (lit "temperature_C", PFloat (777 # 100));
        (lit "accumulated_charge", PInt 50176);
        (lit "battLevel", PFloat (-5972 # 3));
        (lit "voltage", PFloat (9 # 1000)) ])
  /\ parse_sensors_full (lit "01 03 09C4 00000960 0DAC") =
    inr (PDict
      [ (lit "type", PStr (lit "sensor_full"));
        (lit "version", PInt 0);
        (lit "move_history", PInt 1);
        (lit "temperature_C", PFloat (3 # 100));
        (lit "accumulated_charge", PInt 2500);
        (lit "battLevel", PFloat (-25 # 6));
        (lit "voltage", PFloat 0) ]).
Proof. split; vm_compute; reflexivity. Qed.

(** ** Battery charge, tag [0A] *)

(** C8.  A stream record that holds only the charge record
    [0A 04 00000960] makes the handler raise [UnboundLocalError]: branch
    [0A] writes through [retAcc], which only branch [09] binds.  After an
    accelerometer record the same charge record gives charge 2400 and
    battery level 0.0, and [0A 04 00000000] gives battery level 100.0. *)
Theorem battery_charge_alone_raises :
  fst (run_stream (lit "0A0400000960") []) = Raise UnboundLocalError
  /\ field2 (fst (run_stream (accelerometer_tlv ++ lit "0A0400000960") []))
            (lit "accelerometer") (lit "modemCharge") = inr (PInt 2400)
  /\ field2 (fst (run_stream (accelerometer_tlv ++ lit "0A0400000960") []))
            (lit "accelerometer") (lit "battLevel") = inr (PFloat 0)
  /\ field2 (fst (run_stream (accelerometer_tlv ++ lit "0A0400000000") []))
            (lit "accelerometer") (lit "battLevel") = inr (PFloat 100).
Proof. repeat split; vm_compute; reflexivity. Qed.

(** ** Wrong port *)

(** The invocation on a port other than 199: the result, and the state
    it leaves, with no outbound call. *)
Lemma wrong_port_run (solver : nat -> option reply) (iot : nat -> bool)
      (repr : py -> str) (event : Event) :
  FPort event <> 199 ->
  exists st,
    lambda_handler solver iot repr event =
      (Ok (PDict
             [ (lit "error",
                PStr (lit "Port number 199 expected, receieved: "
                      ++ str_of_int (FPort event)));
               (lit "statusCode", PInt 400);
               (lit "msgtype", PStr (lit "Error"));
               (lit "DevEUI", PStr (DEVEUI_of event));
               (lit "timestamp", PStr (Timestamp event)) ]), st)
    /\ https_log st = [] /\ downlink_log st = [].
Proof.
  intros Hport.
  unfold lambda_handler, lambda_handler_body.
  destruct (FPort event =? 199) eqn:E.
  - apply Z.eqb_eq in E. contradiction.
  - simpl negb. cbv iota. eexists. split; [reflexivity|]. split; reflexivity.
Qed.

(** C4.  An uplink whose port is not 199 is answered with status 400,
    message type ['Error'] and a message naming port 199 and the port
    received; no request is sent to the solver and no downlink is
    emitted. *)
Theorem wrong_port_rejected :
  forall solver iot repr event,
    FPort event <> 199 ->
    exists st,
      lambda_handler solver iot repr event =
        (Ok (PDict
               [ (lit "error",
                  PStr (lit "Port number 199 expected, receieved: "
                        ++ str_of_int (FPort event)));
                 (lit "statusCode", PInt 400);
                 (lit "msgtype", PStr (lit "Error"));
                 (lit "DevEUI", PStr (DEVEUI_of event));
                 (lit "timestamp", PStr (Timestamp event)) ]), st)
      /\ https_log st = [] /\ downlink_log st = [].
Proof.
  intros solver iot repr event Hport.
  now apply wrong_port_run.
Qed.

Lemma wrong_port_rejected_witness :
  exists st,
    lambda_handler (scripted []) iot_up no_repr (sample_event 0 1) =
      (Ok (PDict
             [ (lit "error",
                PStr (lit "Port number 199 expected, receieved: " ++ str_of_int 1));
               (lit "statusCode", PInt 400);
               (lit "msgtype", PStr (lit "Error"));
               (lit "DevEUI", PStr (DEVEUI_of (sample_event 0 1)));
               (lit "timestamp", PStr (Timestamp (sample_event 0 1))) ]), st)
    /\ https_log st = [] /\ downlink_log st = [].
Proof.
  apply (wrong_port_rejected (scripted []) iot_up no_repr (sample_event 0 1)).
  simpl. lia.
Defined.

(** ** Hexadecimal digits *)

Lemma chr_ord (c : ascii) : chr (ord c) = c.
Proof.
  unfold chr, ord. rewrite N2Z.id. apply ascii_N_embedding.
Qed.

Lemma hex_digit_value (c : ascii) :
  is_hex c = true -> exists d, digit_value c = Some d /\ 0 <= d < 16.
Proof.
  unfold is_hex, digit_value.
  destruct ((48 <=? ord c) && (ord c <=? 57)) eqn:E1.
  { intros _. eexists; split; [reflexivity|]. lia. }
  destruct ((65 <=? ord c) && (ord c <=? 70)) eqn:E2.
  { intros _. eexists; split; [reflexivity|]. lia. }
  destruct ((97 <=? ord c) && (ord c <=? 102)) eqn:E3.
  { intros _. eexists; split; [reflexivity|]. lia. }
  discriminate.
Qed.

Lemma hex_not_special (c : ascii) :
  is_hex c = true ->
  is_unicode_space c = false /\ is_underscore c = false /\
  (ord c =? 43) = false /\ (ord c =? 45) = false /\
  (ord c =? 120) = false /\ (ord c =? 88) = false.
Proof.
  unfold is_hex, digit_value, is_unicode_space, is_space, is_underscore.
  destruct ((48 <=? ord c) && (ord c <=? 57)) eqn:E1;
    [intros _; repeat split; lia|].
  destruct ((65 <=? ord c) && (ord c <=? 70)) eqn:E2;
    [intros _; repeat split; lia|].
  destruct ((97 <=? ord c) && (ord c <=? 102)) eqn:E3;
    [intros _; repeat split; lia|].
  discriminate.
Qed.

Lemma nibble_char_lower (c : ascii) (d : Z) :
  digit_value c = Some d -> nibble_char d = lower_char c.
Proof.
  unfold digit_value, nibble_char, lower_char.
  destruct ((48 <=? ord c) && (ord c <=? 57)) eqn:E1.
  { intros [= <-].
    replace (ord c - 48 <? 10) with true by lia.
    replace ((65 <=? ord c) && (ord c <=? 90)) with false by lia.
    replace (48 + (ord c - 48)) with (ord c) by lia. apply chr_ord. }
  destruct ((65 <=? ord c) && (ord c <=? 70)) eqn:E2.
  { intros [= <-].
    replace (ord c - 55 <? 10) with false by lia.
    replace ((65 <=? ord c) && (ord c <=? 90)) with true by lia.
    f_equal. lia. }
  destruct ((97 <=? ord c) && (ord c <=? 102)) eqn:E3.
  { intros [= <-].
    replace (ord c - 87 <? 10) with false by lia.
    replace ((65 <=? ord c) && (ord c <=? 90)) with false by lia.
    replace (87 + (ord c - 87)) with (ord c) by lia. apply chr_ord. }
  discriminate.
Qed.

Lemma all_hex_cons (c : ascii) (s : str) :
  all_hex (c :: s) = true -> is_hex c = true /\ all_hex s = true.
Proof. unfold all_hex. simpl. intros H. now apply andb_true_iff in H. Qed.

(** [int(s, 16)] on one and on two hexadecimal digits. *)
Lemma py_int16_hex1 (a : ascii) :
  is_hex a = true -> py_int16 [a] = Some (hex_number [a]).
Proof.
  intros Ha.
  destruct (hex_digit_value a Ha) as (da & Eda & _).
  destruct (hex_not_special a Ha) as (Sa & Ua & Pa & Ma & _).
  unfold py_int16, hex_number. cbn [lstrip fold_left].
  rewrite Sa, Pa, Ma. rewrite Eda. cbn [scan_digits].
  rewrite Ua, Eda. reflexivity.
Qed.

Lemma py_int16_hex2 (a b : ascii) :
  is_hex a = true -> is_hex b = true ->
  py_int16 [a; b] = Some (hex_number [a; b]).
Proof.
  intros Ha Hb.
  destruct (hex_digit_value a Ha) as (da & Eda & _).
  destruct (hex_digit_value b Hb) as (db & Edb & _).
  destruct (hex_not_special a Ha) as (Sa & Ua & Pa & Ma & _).
  destruct (hex_not_special b Hb) as (_ & Ub & _ & _ & Xb & XXb).
  unfold py_int16, hex_number. cbn [lstrip fold_left].
  rewrite Sa, Pa, Ma, Xb, XXb.
  rewrite andb_false_r. rewrite Eda. cbn [scan_digits].
  rewrite Ua, Eda, Ub, Edb. reflexivity.
Qed.

Lemma hex_number2_range (a b : ascii) :
  is_hex a = true -> is_hex b = true -> 0 <= hex_number [a; b] < 256.
Proof.
  intros Ha Hb.
  destruct (hex_digit_value a Ha) as (da & Eda & Ra).
  destruct (hex_digit_value b Hb) as (db & Edb & Rb).
  unfold hex_number. cbn [fold_left]. rewrite Eda, Edb. lia.
Qed.

(** The byte written back for a two-digit length field is the field in
    lower case. *)
Lemma byte_hex_hex_number (a b : ascii) :
  is_hex a = true -> is_hex b = true ->
  byte_hex (hex_number [a; b]) = lower [a; b].
Proof.
  intros Ha Hb.
  destruct (hex_digit_value a Ha) as (da & Eda & Ra).
  destruct (hex_digit_value b Hb) as (db & Edb & Rb).
  unfold hex_number, byte_hex, lower. cbn [fold_left map]. rewrite Eda, Edb.
  replace ((16 * (16 * 0 + da) + db) / 16) with da
    by (apply (Z.div_unique _ 16 da db); lia).
  replace ((16 * (16 * 0 + da) + db) mod 16) with db
    by (apply (Z.mod_unique _ 16 da db); lia).
  now rewrite (nibble_char_lower a da Eda), (nibble_char_lower b db Edb).
Qed.

(** ** The generator on strings *)

Lemma str_join_chars (s : str) : str_join (chars s) = inr s.
Proof.
  induction s as [|c s IH]; [reflexivity|].
  change (chars (c :: s)) with (PStr [c] :: chars s).
  cbn [str_join]. now rewrite IH.
Qed.

Lemma chars_app (s t : str) : chars (s ++ t) = chars s ++ chars t.
Proof. unfold chars. apply map_app. Qed.

Lemma length_chars (s : str) : List.length (chars s) = List.length s.
Proof. unfold chars. apply length_map. Qed.

Lemma firstn_chars_app (s t : str) :
  firstn (List.length s) (chars (s ++ t)) = chars s.
Proof.
  rewrite chars_app, <- (length_chars s), firstn_app, firstn_all.
  now rewrite Nat.sub_diag, firstn_O, app_nil_r.
Qed.

Lemma skipn_chars_app (s t : str) :
  skipn (List.length s) (chars (s ++ t)) = chars t.
Proof.
  rewrite chars_app, <- (length_chars s), skipn_app, skipn_all.
  now rewrite Nat.sub_diag.
Qed.

Lemma tlv_run_nil (fuel : nat) : tlv_run (S fuel) [] = Stop.
Proof. reflexivity. Qed.

(** One well-formed record at the head of the input is yielded as its
    triple, and the generator goes on with what follows it. *)
Lemma tlv_run_record (fuel : nat) (rec : wire_record) (rest : str) :
  wf_record rec ->
  tlv_run (S fuel) (chars (wire rec ++ rest)) =
    Yield (triple_of rec) (tlv_run fuel (chars rest)).
Proof.
  destruct rec as [[tag lf] value].
  intros (Ht & Hth & Hl & Hlh & Hvh & Hvl).
  destruct tag as [|t0 [|t1 [|? ?]]]; try discriminate Ht.
  destruct lf as [|l0 [|l1 [|? ?]]]; try discriminate Hl.
  apply all_hex_cons in Hlh as [H0 Hlh]. apply all_hex_cons in Hlh as [H1 _].
  pose proof (hex_number2_range l0 l1 H0 H1) as Hr.
  unfold wire, triple_of.
  change (([t0; t1] ++ [l0; l1] ++ value) ++ rest)
    with (t0 :: t1 :: l0 :: l1 :: (value ++ rest)).
  cbn [tlv_run chars map firstn skipn TAG_FIELD_LENGTH LENGTH_FIELD_LENGTH
         str_join app].
  rewrite (py_int16_hex2 l0 l1 H0 H1).
  replace ((hex_number [l0; l1] <? 0) ||
           (sys_maxsize <? hex_number [l0; l1] * 2)) with false
    by (unfold sys_maxsize; symmetry; apply orb_false_iff; split; lia).
  replace (hex_number [l0; l1] * 2) with (2 * hex_number [l0; l1]) by lia.
  rewrite <- Hvl.
  fold (chars (value ++ rest)).
  rewrite firstn_chars_app, skipn_chars_app, str_join_chars.
  reflexivity.
Qed.

Lemma tlv_run_records (recs : list wire_record) :
  Forall wf_record recs ->
  forall (k : nat) (tail : str),
    tlv_run (List.length recs + k) (chars (wire_all recs ++ tail)) =
      yields (map triple_of recs) (tlv_run k (chars tail)).
Proof.
  induction 1 as [|rec recs Hrec _ IH]; intros k tail; [reflexivity|].
  unfold wire_all. simpl flat_map. rewrite <- app_assoc.
  simpl List.length. simpl Nat.add.
  rewrite (tlv_run_record _ rec _ Hrec). simpl. f_equal. apply IH.
Qed.

Lemma wire_length (rec : wire_record) :
  wf_record rec -> (4 <= List.length (wire rec))%nat.
Proof.
  destruct rec as [[tag lf] value]. intros (Ht & _ & Hl & _).
  unfold wire. rewrite !length_app. lia.
Qed.

Lemma wire_all_length (recs : list wire_record) :
  Forall wf_record recs ->
  (4 * List.length recs <= List.length (wire_all recs))%nat.
Proof.
  induction 1 as [|rec recs Hrec _ IH]; [simpl; lia|].
  unfold wire_all in *. simpl flat_map. rewrite length_app.
  pose proof (wire_length rec Hrec). simpl List.length. lia.
Qed.

(** The parser on well-formed records followed by [tail]: the triples
    of the records, then what the generator does on [tail] with the fuel
    left, [k + 1] turns at least when [tail] has [k] characters. *)
Lemma tlv_parser_records (recs : list wire_record) (tail : str) :
  Forall wf_record recs ->
  exists k, (List.length tail < k)%nat /\
    tlv_parser (PStr (wire_all recs ++ tail)) =
      yields (map triple_of recs) (tlv_run k (chars tail)).
Proof.
  intros Hwf.
  pose proof (wire_all_length recs Hwf) as Hlen.
  exists (S (List.length (wire_all recs ++ tail)) - List.length recs)%nat.
  split; [rewrite length_app; lia|].
  unfold tlv_parser, py_iter. rewrite length_chars.
  rewrite <- (tlv_run_records recs Hwf). f_equal.
  rewrite length_app. lia.
Qed.

Lemma str_join_error (items : list py) (e : exn) :
  str_join items = inl e -> e = TypeError.
Proof.
  induction items as [|x items IH]; [discriminate|].
  destruct x; cbn [str_join]; try (intros [= <-]; reflexivity).
  destruct (str_join items) as [e'|t]; [|discriminate].
  intros [= <-]. now apply IH.
Qed.

(** The recursion bound is never met: every turn of the loop that
    yields draws at least one item. *)
Lemma tlv_run_within_fuel (fuel : nat) :
  forall it, (List.length it < fuel)%nat -> within_fuel (tlv_run fuel it).
Proof.
  induction fuel as [|fuel IH]; intros it Hlen; [lia|].
  cbn [tlv_run].
  destruct (str_join (firstn TAG_FIELD_LENGTH it)) as [e|tag] eqn:Etag.
  { apply str_join_error in Etag. subst e. simpl. discriminate. }
  destruct tag as [|t0 t']; [exact I|].
  assert (Hne : it <> []) by (intros ->; discriminate Etag).
  destruct (str_join (firstn LENGTH_FIELD_LENGTH (skipn TAG_FIELD_LENGTH it)))
    as [e|lf] eqn:Elf.
  { apply str_join_error in Elf. subst e. simpl. discriminate. }
  destruct (py_int16 lf) as [len|]; [|simpl; discriminate].
  destruct ((len <? 0) || (sys_maxsize <? len * 2)); [simpl; discriminate|].
  match goal with
  | |- context [str_join ?x] => destruct (str_join x) as [e|value] eqn:Eval
  end.
  { apply str_join_error in Eval. subst e. simpl. discriminate. }
  cbn [within_fuel]. apply IH.
  rewrite !length_skipn. unfold TAG_FIELD_LENGTH, LENGTH_FIELD_LENGTH.
  destruct it; [contradiction|]. simpl List.length in *. lia.
Qed.

Lemma tlv_parser_fuel (x : py) : within_fuel (tlv_parser x).
Proof.
  unfold tlv_parser.
  destruct (py_iter x) as [e|it] eqn:E.
  - destruct x; simpl in E; try discriminate; injection E as <-;
      simpl; discriminate.
  - apply tlv_run_within_fuel. lia.
Qed.

(** Well-formed records, and nothing after them: their triples, then
    the end of the generator. *)
Lemma tlv_parser_wire_all (recs : list wire_record) :
  Forall wf_record recs ->
  tlv_parser (PStr (wire_all recs)) = yields (map triple_of recs) Stop.
Proof.
  intros Hwf.
  destruct (tlv_parser_records recs [] Hwf) as (k & Hk & Hrun).
  rewrite app_nil_r in Hrun. rewrite Hrun.
  destruct k as [|k]; [simpl in Hk; lia|]. reflexivity.
Qed.

(** C1, as the code has it.  For [N] well-formed records the parser
    yields their [N] triples in the order of the input and then stops
    without an error; each triple written back (tag, length as one byte in
    two hexadecimal digits, value) is its record with the length field in
    lower case, hence the record itself when the field was in lower
    case. *)
Theorem tlv_parser_round_trip :
  forall recs : list wire_record,
    Forall wf_record recs ->
    tlv_parser (PStr (wire_all recs)) = yields (map triple_of recs) Stop
    /\ (forall tag lf value,
          In (tag, lf, value) recs ->
          reencode (triple_of (tag, lf, value)) = tag ++ lower lf ++ value)
    /\ (forall tag lf value,
          In (tag, lf, value) recs -> lower lf = lf ->
          reencode (triple_of (tag, lf, value)) = wire (tag, lf, value)).
Proof.
  intros recs Hwf.
  assert (Hback : forall tag lf value,
             In (tag, lf, value) recs ->
             reencode (triple_of (tag, lf, value)) = tag ++ lower lf ++ value).
  { intros tag lf value Hin.
    rewrite Forall_forall in Hwf.
    destruct (Hwf _ Hin) as (_ & _ & Hl & Hlh & _).
    destruct lf as [|l0 [|l1 [|? ?]]]; try discriminate Hl.
    apply all_hex_cons in Hlh as [H0 Hlh]. apply all_hex_cons in Hlh as [H1 _].
    unfold reencode, triple_of. now rewrite byte_hex_hex_number. }
  split; [|split].
  - now apply tlv_parser_wire_all.
  - exact Hback.
  - intros tag lf value Hin Hlow.
    rewrite (Hback _ _ _ Hin), Hlow. reflexivity.
Qed.

Lemma tlv_parser_round_trip_witness :
  tlv_parser (PStr (wire_all [ (lit "0D", lit "01", lit "12");
                               (lit "0b", lit "02", lit "0dac") ])) =
    yields (map triple_of [ (lit "0D", lit "01", lit "12");
                            (lit "0b", lit "02", lit "0dac") ]) Stop.
Proof.
  apply (tlv_parser_round_trip
           [ (lit "0D", lit "01", lit "12"); (lit "0b", lit "02", lit "0dac") ]).
  repeat constructor.
Defined.

(** C1, as the specification states it, fails on a length field with an
    upper-case digit: [000A...] and [000a...] are two well-formed inputs
    with the same triple, so writing the triple back cannot give both. *)
Lemma tlv_round_trip_upper_case_length :
  wf_record (lit "00", lit "0A", lit "00112233445566778899") /\
  wf_record (lit "00", lit "0a", lit "00112233445566778899") /\
  tlv_parser (PStr (lit "000A00112233445566778899")) =
    Yield (lit "00", 10, lit "00112233445566778899") Stop /\
  tlv_parser (PStr (lit "000a00112233445566778899")) =
    Yield (lit "00", 10, lit "00112233445566778899") Stop /\
  reencode (lit "00", 10, lit "00112233445566778899") <>
    lit "000A00112233445566778899".
Proof.
  repeat split; try (vm_compute; reflexivity).
  vm_compute. discriminate.
Qed.

Lemma tlv_run_short_value (k : nat) (tag lf value : str) :
  List.length tag = 2%nat -> List.length lf = 2%nat -> all_hex lf = true ->
  (List.length value < Z.to_nat (2 * hex_number lf))%nat ->
  tlv_run (S (S k)) (chars (tag ++ lf ++ value)) =
    Yield (tag, hex_number lf, value) Stop.
Proof.
  intros Ht Hl Hlh Hv.
  destruct tag as [|t0 [|t1 [|? ?]]]; try discriminate Ht.
  destruct lf as [|l0 [|l1 [|? ?]]]; try discriminate Hl.
  apply all_hex_cons in Hlh as [H0 Hlh]. apply all_hex_cons in Hlh as [H1 _].
  pose proof (hex_number2_range l0 l1 H0 H1) as Hr.
  change ([t0; t1] ++ [l0; l1] ++ value) with (t0 :: t1 :: l0 :: l1 :: value).
  cbn [tlv_run chars map firstn skipn TAG_FIELD_LENGTH LENGTH_FIELD_LENGTH
         str_join app].
  rewrite (py_int16_hex2 l0 l1 H0 H1).
  replace ((hex_number [l0; l1] <? 0) ||
           (sys_maxsize <? hex_number [l0; l1] * 2)) with false
    by (unfold sys_maxsize; symmetry; apply orb_false_iff; split; lia).
  replace (hex_number [l0; l1] * 2) with (2 * hex_number [l0; l1]) by lia.
  fold (chars value).
  rewrite firstn_all2 by (rewrite length_chars; lia).
  rewrite skipn_all2 by (rewrite length_chars; lia).
  rewrite str_join_chars. reflexivity.
Qed.

Lemma tlv_run_one_length_digit (k : nat) (t0 t1 c : ascii) :
  is_hex c = true ->
  tlv_run (S (S k)) (chars [t0; t1; c]) = Yield ([t0; t1], hex_number [c], []) Stop.
Proof.
  intros Hc.
  destruct (hex_digit_value c Hc) as (d & Ed & Rd).
  cbn [tlv_run chars map firstn skipn TAG_FIELD_LENGTH LENGTH_FIELD_LENGTH
         str_join app].
  rewrite (py_int16_hex1 c Hc).
  assert (Hn : hex_number [c] = d)
    by (unfold hex_number; cbn [fold_left]; rewrite Ed; lia).
  rewrite Hn.
  replace ((d <? 0) || (sys_maxsize <? d * 2)) with false
    by (unfold sys_maxsize; symmetry; apply orb_false_iff; split; lia).
  rewrite firstn_nil, skipn_nil. reflexivity.
Qed.

(** C2, as the code has it.  After the triples of the complete records:
    an input that ends inside a tag, or after a tag, raises [ValueError]
    (from [int] on the empty text); an input that ends after one digit of
    the length field yields a triple with that digit as length and an
    empty value, and stops; an input whose last value is shorter than
    declared yields the triple with the short value, and stops. *)
Theorem tlv_parser_truncated :
  forall recs : list wire_record,
    Forall wf_record recs ->
    (forall c,
        is_hex c = true ->
        tlv_parser (PStr (wire_all recs ++ [c])) =
          yields (map triple_of recs) (Throw ValueError))
    /\ (forall t0 t1,
          is_hex t0 = true -> is_hex t1 = true ->
          tlv_parser (PStr (wire_all recs ++ [t0; t1])) =
            yields (map triple_of recs) (Throw ValueError))
    /\ (forall t0 t1 c,
          is_hex t0 = true -> is_hex t1 = true -> is_hex c = true ->
          tlv_parser (PStr (wire_all recs ++ [t0; t1; c])) =
            yields (map triple_of recs)
                   (Yield ([t0; t1], hex_number [c], []) Stop))
    /\ (forall tag lf value,
          List.length tag = 2%nat -> all_hex tag = true ->
          List.length lf = 2%nat -> all_hex lf = true ->
          all_hex value = true ->
          (List.length value < Z.to_nat (2 * hex_number lf))%nat ->
          tlv_parser (PStr (wire_all recs ++ tag ++ lf ++ value)) =
            yields (map triple_of recs)
                   (Yield (tag, hex_number lf, value) Stop)).
Proof.
  intros recs Hwf. repeat split.
  - intros c _.
    destruct (tlv_parser_records recs [c] Hwf) as (k & Hk & ->).
    destruct k as [|k]; [simpl in Hk; lia|]. reflexivity.
  - intros t0 t1 _ _.
    destruct (tlv_parser_records recs [t0; t1] Hwf) as (k & Hk & ->).
    destruct k as [|k]; [simpl in Hk; lia|]. reflexivity.
  - intros t0 t1 c _ _ Hc.
    destruct (tlv_parser_records recs [t0; t1; c] Hwf) as (k & Hk & ->).
    destruct k as [|[|k]]; try (simpl in Hk; lia).
    now rewrite tlv_run_one_length_digit.
  - intros tag lf value Ht _ Hl Hlh _ Hv.
    destruct (tlv_parser_records recs (tag ++ lf ++ value) Hwf) as (k & Hk & ->).
    rewrite !length_app in Hk.
    destruct k as [|[|k]]; try lia.
    now rewrite tlv_run_short_value.
Qed.

Lemma tlv_parser_truncated_witness :
  tlv_parser (PStr (wire_all [ (lit "0D", lit "01", lit "12") ] ++ lit "0B" ++ lit "02" ++ lit "0d")) =
    yields (map triple_of [ (lit "0D", lit "01", lit "12") ])
           (Yield (lit "0B", hex_number (lit "02"), lit "0d") Stop).
Proof.
  apply (tlv_parser_truncated [ (lit "0D", lit "01", lit "12") ]);
    try (vm_compute; reflexivity).
  - repeat constructor.
  - vm_compute. lia.
Defined.

(** C2, as the specification states it, fails: a value shorter than the
    length declares, and a length field cut after one digit, are yielded
    as ordinary triples and the generator stops without an error. *)
Lemma truncated_record_is_yielded :
  tlv_parser (PStr (lit "AB02CD")) = Yield (lit "AB", 2, lit "CD") Stop
  /\ tlv_parser (PStr (lit "AB0")) = Yield (lit "AB", 0, []) Stop.
Proof. split; vm_compute; reflexivity. Qed.

(** ** Tag dispatch *)

Lemma dispatch_by_upper_tag (solver : nat -> option reply) (iot : nat -> bool)
      (event : Event) (tag tag' : str) (length : Z) (val : str) :
  upper tag = upper tag' ->
  dispatch solver iot event (tag, length, val) =
  dispatch solver iot event (tag', length, val).
Proof.
  intros H. unfold dispatch. rewrite H. reflexivity.
Qed.

(** C10.  Two tags that differ only in letter case select the same
    branch and act alike on the handler state: every comparison, and the
    key of a second GNSS solution, is taken from [tag.upper()].  Hence two
    well-formed streams that differ only in the letter case of their tags
    are processed alike, record by record. *)
Theorem dispatch_case_insensitive :
  forall solver iot event,
    (forall tag tag' length val,
        upper tag = upper tag' ->
        dispatch solver iot event (tag, length, val) =
        dispatch solver iot event (tag', length, val))
    /\ (forall recs recs',
          Forall wf_record recs -> Forall wf_record recs' ->
          Forall2 same_but_tag_case recs recs' ->
          for_gen (tlv_parser (PStr (wire_all recs))) (dispatch solver iot event) =
          for_gen (tlv_parser (PStr (wire_all recs'))) (dispatch solver iot event)).
Proof.
  intros solver iot event. split.
  - intros tag tag' length val H. now apply dispatch_by_upper_tag.
  - intros recs recs' Hwf Hwf' Hsame.
    rewrite (tlv_parser_wire_all recs Hwf), (tlv_parser_wire_all recs' Hwf').
    clear Hwf Hwf'.
    induction Hsame as [|[[tag lf] value] [[tag' lf'] value'] recs recs' Hrec _ IH];
      [reflexivity|].
    destruct Hrec as (Htag & <- & <-).
    cbn [map yields for_gen triple_of].
    rewrite (dispatch_by_upper_tag solver iot event tag tag' _ _ Htag).
    now rewrite IH.
Qed.

Lemma dispatch_case_insensitive_witness :
  dispatch (scripted []) iot_up tracker_uplink (lit "0e", 2, lit "00ff") =
  dispatch (scripted []) iot_up tracker_uplink (lit "0E", 2, lit "00ff").
Proof.
  apply (proj1 (dispatch_case_insensitive (scripted []) iot_up tracker_uplink)
           (lit "0e") (lit "0E") 2 (lit "00ff")).
  vm_compute. reflexivity.
Defined.

(** ** Outbound calls only accumulate *)

Lemma bind_ok {A B : Type} (m : M A) (k : A -> M B) (st st' : hstate) (a : A) :
  m st = (Ok a, st') -> bind m k st = k a st'.
Proof. intros H. unfold bind. now rewrite H. Qed.

Lemma bind_raise {A B : Type} (m : M A) (k : A -> M B) (st st' : hstate) (e : exn) :
  m st = (Raise e, st') -> bind m k st = (Raise e, st').
Proof. intros H. unfold bind. now rewrite H. Qed.

(** A computation that ends well went through both halves of a [bind]. *)
Lemma bind_inv {A B : Type} (m : M A) (k : A -> M B) (st st' : hstate) (b : B) :
  bind m k st = (Ok b, st') ->
  exists a st1, m st = (Ok a, st1) /\ k a st1 = (Ok b, st').
Proof.
  unfold bind. destruct (m st) as [[a|e] st1]; [|discriminate].
  intros H. now exists a, st1.
Qed.

Lemma lift_ok {A B : Type} (m : exn + A) (a : A) (k : A -> M B) (st : hstate) :
  m = inr a -> bind (lift m) k st = k a st.
Proof. intros ->. reflexivity. Qed.

Lemma lift_raise {A B : Type} (m : exn + A) (e : exn) (k : A -> M B) (st : hstate) :
  m = inl e -> bind (lift m) k st = (Raise e, st).
Proof. intros ->. reflexivity. Qed.

Lemma lift_inv {A B : Type} (m : exn + A) (k : A -> M B) (st st' : hstate) (b : B) :
  bind (lift m) k st = (Ok b, st') -> exists a, m = inr a /\ k a st = (Ok b, st').
Proof.
  destruct m as [e|a]; [discriminate|]. intros H. now exists a.
Qed.

Section Logs.

Variable Req : py -> Prop.
Variable Dl : downlink_call -> Prop.

Lemma extends_refl (st : hstate) : extends Req Dl st st.
Proof.
  exists [], []. rewrite !app_nil_r. repeat split; constructor.
Qed.

Lemma extends_trans (st1 st2 st3 : hstate) :
  extends Req Dl st1 st2 -> extends Req Dl st2 st3 -> extends Req Dl st1 st3.
Proof.
  intros (a1 & a2 & Ha1 & Ha2 & HP1 & HQ1) (b1 & b2 & Hb1 & Hb2 & HP2 & HQ2).
  exists (a1 ++ b1), (a2 ++ b2).
  rewrite Hb1, Hb2, Ha1, Ha2, !app_assoc.
  repeat split; try reflexivity; apply Forall_app; now split.
Qed.

Lemma extends_same (st st' : hstate) :
  https_log st' = https_log st -> downlink_log st' = downlink_log st ->
  extends Req Dl st st'.
Proof.
  intros H1 H2. exists [], []. rewrite H1, H2, !app_nil_r.
  repeat split; constructor.
Qed.

Lemma grows_ret {A : Type} (a : A) : grows Req Dl (ret a).
Proof. intros st. apply extends_refl. Qed.

Lemma grows_raise {A : Type} (e : exn) : grows Req Dl (@raise A e).
Proof. intros st. apply extends_refl. Qed.

Lemma grows_lift {A : Type} (m : exn + A) : grows Req Dl (lift m).
Proof. destruct m; [apply grows_raise | apply grows_ret]. Qed.

Lemma grows_bind {A B : Type} (m : M A) (k : A -> M B) :
  grows Req Dl m -> (forall a, grows Req Dl (k a)) -> grows Req Dl (bind m k).
Proof.
  intros Hm Hk st. specialize (Hm st). unfold bind.
  destruct (m st) as [[a|e] st1]; simpl in Hm; [|exact Hm].
  eapply extends_trans; [exact Hm | apply Hk].
Qed.

Lemma grows_set_retVal (k : str) (v : slot) : grows Req Dl (set_retVal k v).
Proof. intros st. now apply extends_same. Qed.

Lemma grows_in_retVal (k : str) : grows Req Dl (in_retVal k).
Proof. intros st. now apply extends_same. Qed.

Lemma grows_read_retVal (k : str) : grows Req Dl (read_retVal k).
Proof.
  intros st. unfold read_retVal.
  destruct (slot_get k (retVal st)); now apply extends_same.
Qed.

Lemma grows_bind_retAcc (d : dict) : grows Req Dl (bind_retAcc d).
Proof. intros st. now apply extends_same. Qed.

Lemma grows_set_retAcc (k : str) (v : py) : grows Req Dl (set_retAcc k v).
Proof.
  intros st. unfold set_retAcc.
  destruct (retAcc st); now apply extends_same.
Qed.

Lemma grows_bind_r (v : py) : grows Req Dl (bind_r v).
Proof. intros st. now apply extends_same. Qed.

Lemma grows_read_r : grows Req Dl read_r.
Proof.
  intros st. unfold read_r. destruct (r st); now apply extends_same.
Qed.

Lemma grows_return_retVal : grows Req Dl return_retVal.
Proof. intros st. now apply extends_same. Qed.

Lemma grows_json_loads (ir : reply) : grows Req Dl (json_loads ir).
Proof.
  unfold json_loads. destruct (loads ir); [apply grows_ret | apply grows_raise].
Qed.

Lemma grows_for_each {A : Type} (l : list A) (body : A -> M unit) :
  (forall a, grows Req Dl (body a)) -> grows Req Dl (for_each l body).
Proof.
  intros Hbody. induction l as [|a l IH]; cbn [for_each].
  - apply grows_ret.
  - apply grows_bind; [apply Hbody | intros _; exact IH].
Qed.

Lemma grows_for_gen {A : Type} (g : gen A) (body : A -> M unit) :
  (forall a, grows Req Dl (body a)) -> grows Req Dl (for_gen g body).
Proof.
  intros Hbody. induction g as [| e | a g IH]; cbn [for_gen].
  - apply grows_ret.
  - apply grows_raise.
  - apply grows_bind; [apply Hbody | intros _; exact IH].
Qed.

Variable solver : nat -> option reply.
Variable iot : nat -> bool.

Lemma grows_send_https (m : py) : Req m -> grows Req Dl (send_https solver m).
Proof.
  intros Hm st. unfold send_https.
  assert (E : extends Req Dl st (log_request m st)).
  { exists [m], []. cbn. rewrite app_nil_r. repeat split; repeat constructor.
    exact Hm. }
  destruct (solver (List.length (https_log st))); exact E.
Qed.

Lemma grows_send_downlink (id : str) (mode : Z) (payload : str) (port : Z) :
  Dl {| dl_id := id; dl_transmitMode := mode; dl_payload := payload; dl_port := port |} ->
  grows Req Dl (send_downlink iot id mode payload port).
Proof.
  intros Hc st. unfold send_downlink. cbv zeta.
  match goal with
  | |- extends _ _ _ (snd (if _ then (_, ?s) else _)) =>
      assert (E : extends Req Dl st s)
  end.
  { eexists [], [_]. cbn. rewrite app_nil_r.
    repeat split; repeat constructor. exact Hc. }
  destruct (iot (List.length (downlink_log st))); exact E.
Qed.

Variable event : Event.

(** The requests and downlinks the handler is to be shown to make. *)
Hypothesis scans_allowed :
  forall msgtype payload timestamp,
    msgtype = lit "wifi" \/ msgtype = lit "gnss" ->
    Req (scan_message (deveui_of event) msgtype payload timestamp).

Hypothesis downlinks_allowed :
  forall payload port,
    port = 150 \/ port = 199 ->
    Dl {| dl_id := WirelessDeviceId event; dl_transmitMode := 0;
         dl_payload := payload; dl_port := port |}.

Ltac grows_step :=
  match goal with
  | |- grows _ _ (bind _ _) => apply grows_bind; [|intro]
  | |- grows _ _ (ret _) => apply grows_ret
  | |- grows _ _ (raise _) => apply grows_raise
  | |- grows _ _ (lift _) => apply grows_lift
  | |- grows _ _ (set_retVal _ _) => apply grows_set_retVal
  | |- grows _ _ (in_retVal _) => apply grows_in_retVal
  | |- grows _ _ (read_retVal _) => apply grows_read_retVal
  | |- grows _ _ (bind_retAcc _) => apply grows_bind_retAcc
  | |- grows _ _ (set_retAcc _ _) => apply grows_set_retAcc
  | |- grows _ _ (bind_r _) => apply grows_bind_r
  | |- grows _ _ read_r => apply grows_read_r
  | |- grows _ _ return_retVal => apply grows_return_retVal
  | |- grows _ _ (json_loads _) => apply grows_json_loads
  | |- grows _ _ (send_https _ _) =>
      apply grows_send_https; apply scans_allowed; auto
  | |- grows _ _ (send_downlink _ _ _ _ _) =>
      apply grows_send_downlink; apply downlinks_allowed
  | |- grows _ _ (if ?b then _ else _) => destruct b
  | |- grows _ _ (match ?x with _ => _ end) => destruct x
  end.

Lemma grows_deliver_downlink (x : py) :
  grows Req Dl (deliver_downlink iot (WirelessDeviceId event) x (deveui_of event)).
Proof.
  unfold deliver_downlink. repeat grows_step;
    destruct (py_eq_zero _); auto.
Qed.

Lemma grows_wifi_solution (ir : reply) :
  grows Req Dl (wifi_solution (DEVEUI_of event) (deveui_of event) ir).
Proof.
  unfold wifi_solution. repeat grows_step.
Qed.

Lemma grows_dispatch (tlv : triple) : grows Req Dl (dispatch solver iot event tlv).
Proof.
  destruct tlv as [[tag length] val]. unfold dispatch.
  repeat first [ apply grows_wifi_solution
               | apply grows_deliver_downlink
               | grows_step ].
Qed.

Lemma grows_stream_record (vi : py) : grows Req Dl (stream_record solver iot event vi).
Proof.
  unfold stream_record.
  destruct vi; try apply grows_ret.
  apply grows_bind; [apply grows_lift|]. intros pl.
  apply grows_for_gen. apply grows_dispatch.
Qed.

Lemma grows_result_item (x : str * py) : grows Req Dl (result_item solver iot event x).
Proof.
  destruct x as [k v]. unfold result_item.
  destruct v; try apply grows_ret.
  destruct (str_eqb k (lit "stream_records")); [|apply grows_ret].
  apply grows_for_each. apply grows_stream_record.
Qed.

Variable repr : py -> str.

Lemma grows_process_solver_response (outerResponse : reply) :
  grows Req Dl (process_solver_response solver iot repr event outerResponse).
Proof.
  unfold process_solver_response.
  apply grows_bind; [apply grows_json_loads|]. intros td.
  apply grows_bind; [apply grows_lift|]. intros [|].
  - apply grows_bind; [apply grows_deliver_downlink|]. intros _.
    apply grows_bind; [apply grows_lift|]. intros res.
    apply grows_bind; [apply grows_lift|]. intros items.
    apply grows_bind;
      [apply grows_for_each; apply grows_result_item|]. intros _.
    repeat grows_step.
  - repeat grows_step.
Qed.

End Logs.

(** ** Join notification *)

Lemma send_https_ok (solver : nat -> option reply) (m : py) (st : hstate) (ir : reply) :
  solver (List.length (https_log st)) = Some ir ->
  send_https solver m st = (Ok ir, log_request m st).
Proof. intros H. unfold send_https. now rewrite H. Qed.

Lemma send_https_fails (solver : nat -> option reply) (m : py) (st : hstate) :
  solver (List.length (https_log st)) = None ->
  send_https solver m st = (Raise TransportError, log_request m st).
Proof. intros H. unfold send_https. now rewrite H. Qed.

Lemma scan_message_not_join (deveui : str) (m : py) :
  is_scan_message deveui m -> m <> join_message deveui.
Proof.
  intros (msgtype & payload & timestamp & -> & _). discriminate.
Qed.

(** From the primary forward on, the requests are that forward and then
    scans only. *)
Lemma forward_requests (solver : nat -> option reply) (iot : nat -> bool)
      (repr : py -> str) (event : Event) (st : hstate) :
  exists rest,
    https_log (snd (bind (send_https solver (uplink_message event))
                         (process_solver_response solver iot repr event) st)) =
      https_log st ++ uplink_message event :: rest
    /\ Forall (is_scan_message (deveui_of event)) rest.
Proof.
  unfold bind, send_https.
  destruct (solver (List.length (https_log st))) as [ir|].
  - destruct (grows_process_solver_response
                (is_scan_message (deveui_of event)) (fun _ => True)
                solver iot event
                (fun msgtype payload timestamp H =>
                   ex_intro _ msgtype (ex_intro _ payload (ex_intro _ timestamp
                     (conj eq_refl H))))
                (fun _ _ _ => I) repr ir
                (log_request (uplink_message event) st))
      as (l1 & l2 & H1 & _ & HP & _).
    exists l1. split; [|exact HP].
    rewrite H1. cbn [log_request https_log]. now rewrite <- app_assoc.
  - exists []. split; [reflexivity | constructor].
Qed.

Lemma iso2ts_ok (event : Event) :
  timestamp_ok event = true -> iso2ts (Timestamp event) = inr (uplink_time event).
Proof.
  unfold timestamp_ok, iso2ts, uplink_time, Timestamp_epoch.
  now destruct (strptime (Timestamp event)).
Qed.

Lemma iso2ts_fails (event : Event) :
  timestamp_ok event = false -> iso2ts (Timestamp event) = inl ValueError.
Proof.
  unfold timestamp_ok, iso2ts.
  now destruct (strptime (Timestamp event)).
Qed.

(** The invocation after the join step, from the state that step
    leaves. *)
Lemma forward_step (solver : nat -> option reply) (iot : nat -> bool)
      (repr : py -> str) (event : Event) (st : hstate) :
  (timestamp_ok event = true ->
     (lift (iso2ts (Timestamp event)) ;;;
      outerResponse <- send_https solver (uplink_message event) ;;
      process_solver_response solver iot repr event outerResponse) st =
     (outerResponse <- send_https solver (uplink_message event) ;;
      process_solver_response solver iot repr event outerResponse) st)
  /\ (timestamp_ok event = false ->
        (lift (iso2ts (Timestamp event)) ;;;
         outerResponse <- send_https solver (uplink_message event) ;;
         process_solver_response solver iot repr event outerResponse) st =
        (Raise ValueError, st)).
Proof.
  split; intros H.
  - now rewrite (lift_ok _ _ _ st (iso2ts_ok event H)).
  - now rewrite (lift_raise _ _ _ st (iso2ts_fails event H)).
Qed.

(** C7, as the code has it.  On port 199 a frame counter below 2 (0 or
    1) makes the join notification the first request.  When that call
    returns, whatever it returns, the handler goes on: for a [Timestamp] in
    the format ['%Y-%m-%dT%H:%M:%SZ'] the primary forward is the second
    request and only scans follow; for a [Timestamp] that is not,
    building the forward raises [ValueError], with the join notification
    sent and no forward made.  When the join call raises, the exception
    ends the invocation and nothing else is sent.  A frame counter of 2 or
    more sends no join notification at all: the primary forward is the
    first request, or [ValueError] is raised with nothing sent. *)
Theorem join_notification_by_frame_counter :
  forall solver iot repr event,
    FPort event = 199 ->
    (FCnt event < 2 ->
       (forall ir, solver 0%nat = Some ir ->
          (timestamp_ok event = true ->
           exists rest,
             https_log (snd (lambda_handler solver iot repr event)) =
               join_message (deveui_of event) :: uplink_message event :: rest
             /\ Forall (is_scan_message (deveui_of event)) rest)
          /\ (timestamp_ok event = false ->
              lambda_handler solver iot repr event =
                (Raise ValueError,
                 log_request (join_message (deveui_of event)) initial)))
       /\ (solver 0%nat = None ->
             fst (lambda_handler solver iot repr event) = Raise TransportError
             /\ https_log (snd (lambda_handler solver iot repr event)) =
                  [join_message (deveui_of event)]))
    /\ (2 <= FCnt event ->
          ~ In (join_message (deveui_of event))
               (https_log (snd (lambda_handler solver iot repr event)))
          /\ (timestamp_ok event = true ->
              exists rest,
                https_log (snd (lambda_handler solver iot repr event)) =
                  uplink_message event :: rest
                /\ Forall (is_scan_message (deveui_of event)) rest)
          /\ (timestamp_ok event = false ->
              lambda_handler solver iot repr event = (Raise ValueError, initial))).
Proof.
  intros solver iot repr event Hport.
  unfold lambda_handler, lambda_handler_body.
  replace (FPort event =? 199) with true by (symmetry; apply Z.eqb_eq; exact Hport).
  cbn [negb]. split.
  - intros Hlow.
    replace (FCnt event <? 2) with true by lia.
    split.
    + intros ir Hir.
      rewrite (bind_ok _ _ initial (log_request (join_message (deveui_of event)) initial) tt).
      2:{ rewrite (bind_ok _ _ initial _ ir (send_https_ok solver _ initial ir Hir)).
          reflexivity. }
      destruct (forward_step solver iot repr event
                  (log_request (join_message (deveui_of event)) initial))
        as [Hgood Hbad].
      split.
      * intros Hts. rewrite (Hgood Hts).
        destruct (forward_requests solver iot repr event
                    (log_request (join_message (deveui_of event)) initial))
          as (rest & Hlog & Hscan).
        exists rest. split; [exact Hlog | exact Hscan].
      * intros Hts. exact (Hbad Hts).
    + intros Hnone.
      rewrite (bind_raise _ _ initial
                 (log_request (join_message (deveui_of event)) initial) TransportError).
      2:{ apply bind_raise. now apply send_https_fails. }
      split; reflexivity.
  - intros Hhigh.
    replace (FCnt event <? 2) with false by lia.
    rewrite (bind_ok _ _ initial initial tt eq_refl).
    destruct (forward_step solver iot repr event initial) as [Hgood Hbad].
    destruct (forward_requests solver iot repr event initial)
      as (rest & Hlog & Hscan).
    split; [|split].
    + destruct (timestamp_ok event) eqn:Hts.
      * rewrite (Hgood eq_refl). intros Hin.
        assert (Hin' : In (join_message (deveui_of event))
                          (https_log initial ++ uplink_message event :: rest))
          by (rewrite <- Hlog; exact Hin).
        destruct Hin' as [Hin'|Hin'].
        -- discriminate Hin'.
        -- rewrite Forall_forall in Hscan.
           exact (scan_message_not_join _ _ (Hscan _ Hin') eq_refl).
      * rewrite (Hbad eq_refl). intros [].
    + intros Hts. rewrite (Hgood Hts).
      exists rest. split; [exact Hlog | exact Hscan].
    + intros Hts. exact (Hbad Hts).
Qed.

Lemma join_notification_by_frame_counter_witness :
  exists rest,
    https_log (snd (lambda_handler (scripted [text_reply (lit "ok")]) iot_up no_repr
                                   (sample_event 1 199))) =
      join_message (deveui_of (sample_event 1 199))
      :: uplink_message (sample_event 1 199) :: rest
    /\ Forall (is_scan_message (deveui_of (sample_event 1 199))) rest.
Proof.
  refine (proj1 (proj1 (proj1 (join_notification_by_frame_counter
                                 (scripted [text_reply (lit "ok")]) iot_up no_repr
                                 (sample_event 1 199) eq_refl) _)
                       {| body := lit "ok"; loads := None |} eq_refl) eq_refl).
  simpl. lia.
Defined.

(** C7, as the specification states it, fails where the join
    notification fails by raising: with frame counter 0 and a connection
    that fails on the first call, the invocation ends with that exception
    and the primary forward is never sent. *)
Lemma join_failure_aborts :
  lambda_handler (scripted []) iot_up no_repr (sample_event 0 199) =
    (Raise TransportError,
     log_request (join_message (deveui_of (sample_event 0 199))) initial).
Proof. vm_compute. reflexivity. Qed.

(** ** Downlink directives *)

Ltac grows_local :=
  repeat match goal with
    | |- grows _ _ (bind _ _) => apply grows_bind; [|intro]
    | |- grows _ _ (ret _) => apply grows_ret
    | |- grows _ _ (raise _) => apply grows_raise
    | |- grows _ _ (lift _) => apply grows_lift
    | |- grows _ _ (set_retVal _ _) => apply grows_set_retVal
    | |- grows _ _ (in_retVal _) => apply grows_in_retVal
    | |- grows _ _ (if ?b then _ else _) => destruct b
    | |- grows _ _ (match ?x with _ => _ end) => destruct x
    end.

(** The directive delivered: one call of [send_downlink], with the port
    remapped and the payload in base64. *)
Lemma deliver_downlink_run (iot : nat -> bool) (id : str) (x : py) (deveui : str)
      (d dl : dict) (p : py) (h : str) (bs : list Z) (st : hstate) :
  inner_result x deveui = inr (PDict d) ->
  dict_get (lit "dnlink") d = Some (PDict dl) ->
  dict_get (lit "port") dl = Some p ->
  dict_get (lit "payload") dl = Some (PStr h) ->
  bytes_fromhex h = Some bs ->
  deliver_downlink iot id x deveui st =
    (if iot (List.length (downlink_log st)) then Ok tt else Raise ClientError,
     log_downlink {| dl_id := id; dl_transmitMode := 0;
                     dl_payload := b64encode bs;
                     dl_port := if py_eq_zero p then 150 else 199 |} st).
Proof.
  intros Hres Hdn Hport Hpay Hhex.
  unfold deliver_downlink.
  rewrite (lift_ok _ _ _ st Hres).
  rewrite (lift_ok (py_items (PDict d)) d _ st eq_refl).
  unfold dict_has. rewrite Hdn.
  rewrite (lift_ok (getitem (PDict d) (lit "dnlink")) (PDict dl) _ st)
    by (unfold getitem; now rewrite Hdn).
  rewrite (lift_ok (getitem (PDict dl) (lit "port")) p _ st)
    by (unfold getitem; now rewrite Hport).
  rewrite (lift_ok (getitem (PDict dl) (lit "payload")) (PStr h) _ st)
    by (unfold getitem; now rewrite Hpay).
  rewrite (lift_ok (py_fromhex (PStr h)) bs _ st)
    by (unfold py_fromhex; now rewrite Hhex).
  unfold send_downlink.
  destruct (iot (List.length (downlink_log st))); reflexivity.
Qed.

Lemma gnss_tag_branch (tag : str) :
  is_gnss_tag tag ->
  str_eqb (upper tag) (lit "0E") = false /\
  str_eqb (upper tag) (lit "08") = false /\
  str_eqb (upper tag) (lit "09") = false /\
  str_eqb (upper tag) (lit "0A") = false /\
  str_eqb (upper tag) (lit "0B") = false /\
  str_eqb (upper tag) (lit "0D") = false /\
  str_eqb (upper tag) (lit "05") || str_eqb (upper tag) (lit "06")
    || str_eqb (upper tag) (lit "07") = true.
Proof.
  intros [H|[H|H]]; rewrite H; repeat split; reflexivity.
Qed.

Lemma inner_result_has_result (x : py) (deveui : str) (res : py) :
  inner_result x deveui = inr res -> py_in (lit "result") x = inr true.
Proof.
  unfold inner_result, bind_sum, getitem, py_in, dict_has.
  destruct x; try discriminate.
  destruct (dict_get (lit "result") d); [reflexivity | discriminate].
Qed.

(** C5.  A directive [{port: p, payload: h}] that the solver returns,
    in the primary response or in the response to a GNSS scan, is passed
    to [send_downlink] once, with transmit mode 0, with port 150 when
    [p == 0] and port 199 for every other [p], and with the base64 text of
    the bytes that [h] spells in hexadecimal. *)
Theorem downlink_port_remap :
  forall solver iot repr event x d dl p h bs,
    inner_result x (deveui_of event) = inr (PDict d) ->
    dict_get (lit "dnlink") d = Some (PDict dl) ->
    dict_get (lit "port") dl = Some p ->
    dict_get (lit "payload") dl = Some (PStr h) ->
    bytes_fromhex h = Some bs ->
    let call := {| dl_id := WirelessDeviceId event; dl_transmitMode := 0;
                   dl_payload := b64encode bs;
                   dl_port := if py_eq_zero p then 150 else 199 |} in
    (p = PInt 0 -> dl_port call = 150)
    /\ (forall n, p = PInt n -> n <> 0 -> dl_port call = 199)
    /\ (forall outerResponse st,
          loads outerResponse = Some x ->
          exists rest,
            downlink_log
              (snd (process_solver_response solver iot repr event outerResponse st)) =
              downlink_log st ++ call :: rest)
    /\ (forall tag length val ir st,
          is_gnss_tag tag ->
          solver (List.length (https_log st)) = Some ir ->
          substring_in (lit "result") (body ir) = true ->
          loads ir = Some x ->
          downlink_log (snd (dispatch solver iot event (tag, length, val) st)) =
            downlink_log st ++ [call]).
Proof.
  intros solver iot repr event x d dl p h bs Hres Hdn Hport Hpay Hhex call.
  split; [intros ->; reflexivity|].
  split.
  { intros n -> Hn. cbn. destruct (Z.eqb_spec n 0); [contradiction | reflexivity]. }
  split.
  - intros outerResponse st Hloads.
    unfold process_solver_response, json_loads. rewrite Hloads.
    rewrite (bind_ok _ _ st st x eq_refl).
    rewrite (lift_ok _ true _ st (inner_result_has_result _ _ _ Hres)).
    unfold bind at 1.
    rewrite (deliver_downlink_run iot (WirelessDeviceId event) x (deveui_of event)
               d dl p h bs st Hres Hdn Hport Hpay Hhex).
    fold call.
    destruct (iot (List.length (downlink_log st))).
    + match goal with
      | |- context [snd (?k (log_downlink call st))] =>
          assert (G : grows (fun _ => True) (fun _ => True) k)
      end.
      { apply grows_bind; [apply grows_lift|]. intros res.
        apply grows_bind; [apply grows_lift|]. intros items.
        apply grows_bind.
        - apply grows_for_each. intros a.
          apply grows_result_item; intros; exact I.
        - intros _. grows_local; apply grows_return_retVal. }
      destruct (G (log_downlink call st)) as (l1 & l2 & _ & H2 & _).
      exists l2. rewrite H2. cbn [log_downlink downlink_log].
      now rewrite <- app_assoc.
    + exists []. reflexivity.
  - intros tag length val ir st Htag Hsolver Hsub Hloads.
    destruct (gnss_tag_branch tag Htag) as (E1 & E2 & E3 & E4 & E5 & E6 & E7).
    unfold dispatch. rewrite E1, E2, E3, E4, E5, E6, E7.
    rewrite (bind_ok _ _ st _ ir (send_https_ok solver _ st ir Hsolver)).
    rewrite Hsub. unfold json_loads. rewrite Hloads.
    rewrite (bind_ok _ _ _ _ x eq_refl).
    rewrite (bind_ok (bind_r x) _ _ _ tt eq_refl).
    unfold bind at 1.
    rewrite (deliver_downlink_run iot (WirelessDeviceId event) x (deveui_of event)
               d dl p h bs _ Hres Hdn Hport Hpay Hhex).
    fold call.
    match goal with
    | |- context [log_downlink call ?s] => set (st1 := s)
    end.
    destruct (iot (List.length (downlink_log st1))); [|reflexivity].
    match goal with
    | |- context [snd (?k (log_downlink call st1))] =>
        assert (G : grows (fun _ => True) (fun _ => False) k)
    end.
    { grows_local. }
    destruct (G (log_downlink call st1)) as (l1 & l2 & _ & H2 & _ & HQ).
    destruct l2 as [|c l2]; [|now inversion HQ].
    rewrite H2, app_nil_r. reflexivity.
Qed.

Lemma downlink_port_remap_witness :
  exists rest,
    downlink_log
      (snd (process_solver_response (scripted []) iot_up no_repr tracker_uplink
                                    directive_reply initial)) =
      downlink_log initial ++
        {| dl_id := WirelessDeviceId tracker_uplink; dl_transmitMode := 0;
           dl_payload := b64encode [77; 97; 110];
           dl_port := if py_eq_zero (PInt 0) then 150 else 199 |} :: rest.
Proof.
  refine (proj1 (proj2 (proj2
            (downlink_port_remap (scripted []) iot_up no_repr tracker_uplink
               directive_response
               [ (lit "dnlink",
                  PDict [ (lit "port", PInt 0); (lit "payload", PStr (lit "4d616e")) ]) ]
               [ (lit "port", PInt 0); (lit "payload", PStr (lit "4d616e")) ]
               (PInt 0) (lit "4d616e") [77; 97; 110]
               eq_refl eq_refl eq_refl eq_refl eq_refl)))
            directive_reply initial eq_refl).
Defined.

(** Every downlink of an invocation goes to the device of the uplink,
    with transmit mode 0 and on port 150 or 199. *)
Lemma handler_downlinks_remapped (solver : nat -> option reply) (iot : nat -> bool)
      (repr : py -> str) (event : Event) :
  Forall (is_remapped_downlink (WirelessDeviceId event))
         (downlink_log (snd (lambda_handler solver iot repr event))).
Proof.
  assert (G : grows (fun _ => True) (is_remapped_downlink (WirelessDeviceId event))
                    (lambda_handler_body solver iot repr event)).
  { unfold lambda_handler_body.
    destruct (negb (FPort event =? 199)).
    - grows_local; apply grows_return_retVal.
    - apply grows_bind.
      + destruct (FCnt event <? 2); [|apply grows_ret].
        apply grows_bind; [now apply grows_send_https | intros _; apply grows_ret].
      + intros _. apply grows_bind; [apply grows_lift|]. intros _.
        apply grows_bind; [now apply grows_send_https|].
        intros ir. apply grows_process_solver_response.
        * intros; exact I.
        * intros payload port Hport. repeat split; assumption. }
  destruct (G initial) as (l1 & l2 & _ & H2 & _ & HQ).
  unfold lambda_handler. rewrite H2. exact HQ.
Qed.

(** ** GNSS solutions *)

Lemma slot_get_set_same (k : str) (v : slot) (d : list (str * slot)) :
  slot_get k (slot_set k v d) = Some v.
Proof.
  induction d as [|[k' v'] d IH]; cbn [slot_set slot_get].
  - now rewrite str_eqb_refl.
  - destruct (str_eqb k k') eqn:E; cbn [slot_get].
    + now rewrite str_eqb_refl.
    + now rewrite E.
Qed.

Lemma slot_get_set_other (k k' : str) (v : slot) (d : list (str * slot)) :
  str_eqb k k' = false ->
  slot_get k (slot_set k' v d) = slot_get k d.
Proof.
  intros Hne. induction d as [|[k0 v0] d IH]; cbn [slot_set slot_get].
  - now rewrite Hne.
  - destruct (str_eqb k' k0) eqn:E; cbn [slot_get].
    + apply str_eqb_true in E. subst k0. now rewrite Hne.
    + destruct (str_eqb k k0); [reflexivity | exact IH].
Qed.

Lemma returned_get (k : str) (st : hstate) (v : py) :
  slot_get k (retVal st) = Some (Own v) ->
  dict_get k (returned_dict st) = Some v.
Proof.
  intros H. unfold returned_dict.
  induction (retVal st) as [|[k' s] l IH]; [discriminate|].
  cbn [slot_get] in H. cbn [map dict_get fst snd].
  destruct (str_eqb k k').
  - injection H as ->. reflexivity.
  - now apply IH.
Qed.

Lemma inner_result_solver_result (event : Event) (res : list (str * py)) :
  inner_result (solver_result event res) (deveui_of event) = inr (PDict res).
Proof.
  unfold inner_result, solver_result, bind_sum, getitem.
  cbn [dict_get]. change (str_eqb (lit "result") (lit "result")) with true.
  cbv iota. cbn [dict_get]. now rewrite str_eqb_refl.
Qed.

(** A directive that is absent, null or well formed is delivered
    without an exception when the downlink transport is up. *)
Lemma deliver_downlink_ok (iot : nat -> bool) (id : str) (x : py) (deveui : str)
      (d : dict) (st : hstate) :
  (forall n, iot n = true) ->
  inner_result x deveui = inr (PDict d) ->
  directive_deliverable d ->
  exists st',
    deliver_downlink iot id x deveui st = (Ok tt, st') /\
    https_log st' = https_log st /\ retVal st' = retVal st.
Proof.
  intros Hup Hres [Hdn|[Hdn|(dl & p & h & bs & Hdn & Hport & Hpay & Hhex)]].
  - exists st. split; [|split; reflexivity].
    unfold deliver_downlink.
    rewrite (lift_ok _ _ _ st Hres).
    rewrite (lift_ok (py_items (PDict d)) d _ st eq_refl).
    unfold dict_has. now rewrite Hdn.
  - exists st. split; [|split; reflexivity].
    unfold deliver_downlink.
    rewrite (lift_ok _ _ _ st Hres).
    rewrite (lift_ok (py_items (PDict d)) d _ st eq_refl).
    unfold dict_has. rewrite Hdn.
    rewrite (lift_ok (getitem (PDict d) (lit "dnlink")) PNone _ st)
      by (unfold getitem; now rewrite Hdn).
    reflexivity.
  - eexists. split; [|split].
    + rewrite (deliver_downlink_run iot id x deveui d dl p h bs st
                 Hres Hdn Hport Hpay Hhex).
      rewrite Hup. reflexivity.
    + reflexivity.
    + reflexivity.
Qed.

(** Branch [05]/[06]/[07] on a scan that the solver resolves: the scan
    is sent, and the solution is stored under ['gnss_location'], or under
    ['gnss_location_<TAG>'] when that key is taken. *)
Lemma dispatch_gnss_solved (solver : nat -> option reply) (iot : nat -> bool)
      (event : Event) (tag : str) (length : Z) (val : str) (ir : reply)
      (lat lon alt acc gdop ts : py) (st : hstate) :
  is_gnss_tag tag ->
  (forall n, iot n = true) ->
  solver (List.length (https_log st)) = Some ir ->
  gnss_solved event ir lat lon alt acc gdop ts ->
  exists st',
    dispatch solver iot event (tag, length, val) st = (Ok tt, st') /\
    https_log st' =
      https_log st ++
        [scan_message (deveui_of event) (lit "gnss") val (PFloat (uplink_time event))] /\
    retVal st' =
      slot_set (lit "statusCode") (Own (PInt 200))
        (slot_set (match slot_get (lit "gnss_location") (retVal st) with
                   | Some _ => lit "gnss_location_" ++ upper tag
                   | None => lit "gnss_location"
                   end)
                  (Own (gnss_location event val lat lon alt acc gdop ts))
                  (retVal st)).
Proof.
  intros Htag Hup Hsolver
    (Hsub & v & d & sol & more & Hloads & Hres & Hdn & Hpos & Hllh & Hacc & Hgdop & Hts).
  destruct (gnss_tag_branch tag Htag) as (E1 & E2 & E3 & E4 & E5 & E6 & E7).
  unfold dispatch. rewrite E1, E2, E3, E4, E5, E6, E7.
  rewrite (bind_ok _ _ st _ ir (send_https_ok solver _ st ir Hsolver)).
  rewrite Hsub. unfold json_loads. rewrite Hloads.
  rewrite (bind_ok _ _ _ _ v eq_refl).
  rewrite (bind_ok (bind_r v) _ _ _ tt eq_refl).
  match goal with
  | |- context [bind (deliver_downlink _ _ _ _) _ ?s] => set (st1 := s)
  end.
  destruct (deliver_downlink_ok iot (WirelessDeviceId event) v (deveui_of event)
              d st1 Hup Hres Hdn) as (st2 & Hrun & Hlog2 & Hret2).
  rewrite (bind_ok _ _ st1 st2 tt Hrun).
  rewrite (lift_ok _ _ _ st2 Hres).
  rewrite (lift_ok (getitem (PDict d) (lit "position_solution")) (PDict sol) _ st2)
    by (unfold getitem; now rewrite Hpos).
  rewrite (lift_ok _ lat _ st2)
    by (unfold bind_sum, getitem; now rewrite Hllh).
  rewrite (lift_ok _ lon _ st2)
    by (unfold bind_sum, getitem; now rewrite Hllh).
  rewrite (lift_ok _ alt _ st2)
    by (unfold bind_sum, getitem; now rewrite Hllh).
  rewrite (lift_ok _ acc _ st2) by (unfold getitem; now rewrite Hacc).
  rewrite (lift_ok _ gdop _ st2) by (unfold getitem; now rewrite Hgdop).
  rewrite (lift_ok _ ts _ st2) by (unfold getitem; now rewrite Hts).
  rewrite (bind_ok (in_retVal (lit "gnss_location")) _ st2 st2 _ eq_refl).
  eexists. split; [reflexivity|].
  cbn [snd set_retVal bind https_log retVal].
  rewrite Hlog2, Hret2. subst st1. cbn [log_request https_log retVal].
  split; [reflexivity|].
  destruct (slot_get (lit "gnss_location") (retVal st)); reflexivity.
Qed.

(** ** Results and exceptions *)



(** * Further properties of the decoders and of the handler *)

(** ** Hexadecimal fields of any width *)

Lemma scan_digits_hex (s : str) :
  all_hex s = true ->
  forall acc,
    scan_digits acc false s =
      Some (fold_left (fun a c => 16 * a + match digit_value c with
                                          | Some d => d
                                          | None => 0
                                          end) s acc, []).
Proof.
  induction s as [|c s IH]; intros Hs acc; [reflexivity|].
  apply all_hex_cons in Hs as [Hc Hs].
  destruct (hex_digit_value c Hc) as (d & Ed & _).
  destruct (hex_not_special c Hc) as (_ & Uc & _).
  cbn [scan_digits fold_left]. rewrite Uc, Ed. now apply IH.
Qed.

(** [int(s, 16)] on a non-empty text of hexadecimal digits is the number
    the text denotes. *)
Lemma py_int16_hex (s : str) :
  s <> [] -> all_hex s = true -> py_int16 s = Some (hex_number s).
Proof.
  intros Hne Hs. destruct s as [|c r]; [contradiction|].
  pose proof (scan_digits_hex (c :: r) Hs 0) as Hscan.
  apply all_hex_cons in Hs as [Hc Hr].
  destruct (hex_digit_value c Hc) as (d & Ed & _).
  destruct (hex_not_special c Hc) as (Sc & _ & Pc & Mc & _).
  unfold py_int16. cbn [lstrip]. rewrite Sc, Pc, Mc.
  destruct r as [|x r0].
  - rewrite Ed, Hscan. reflexivity.
  - apply all_hex_cons in Hr as [Hx _].
    destruct (hex_not_special x Hx) as (_ & _ & _ & _ & Xx & XXx).
    rewrite Xx, XXx, andb_false_r. rewrite Ed, Hscan. reflexivity.
Qed.

Lemma hex_fold_range (s : str) :
  all_hex s = true ->
  forall acc, 0 <= acc ->
    acc * 16 ^ Z.of_nat (List.length s) <=
      fold_left (fun a c => 16 * a + match digit_value c with
                                     | Some d => d
                                     | None => 0
                                     end) s acc
      < (acc + 1) * 16 ^ Z.of_nat (List.length s).
Proof.
  induction s as [|c s IH]; intros Hs acc Hacc.
  - cbn. lia.
  - apply all_hex_cons in Hs as [Hc Hs].
    destruct (hex_digit_value c Hc) as (d & Ed & Rd).
    cbn [fold_left List.length]. rewrite Ed.
    specialize (IH Hs (16 * acc + d) ltac:(lia)).
    rewrite Nat2Z.inj_succ, Z.pow_succ_r by lia.
    assert (0 < 16 ^ Z.of_nat (List.length s)) by (apply Z.pow_pos_nonneg; lia).
    nia.
Qed.

Lemma hex_number_range (s : str) :
  all_hex s = true -> 0 <= hex_number s < 16 ^ Z.of_nat (List.length s).
Proof.
  intros Hs. pose proof (hex_fold_range s Hs 0 ltac:(lia)) as H.
  unfold hex_number. lia.
Qed.

Lemma int16_or_raise_error (s : str) (e : exn) :
  int16_or_raise s = inl e -> e = ValueError.
Proof.
  unfold int16_or_raise. destruct (py_int16 s); [discriminate|].
  now intros [= <-].
Qed.

Lemma int16_or_raise_hex (s : str) :
  s <> [] -> all_hex s = true -> int16_or_raise s = inr (hex_number s).
Proof.
  intros Hne Hs. unfold int16_or_raise. now rewrite py_int16_hex.
Qed.

(** ** [parse_sensors_basic] and [parse_sensors_full] *)

(** X1.  The short sensor packet: the first two characters of the value
    are read as two hexadecimal nibbles, version then move history, and
    what follows them is not looked at; a value of fewer than two
    characters raises [ValueError]. *)
Theorem parse_sensors_basic_nibbles :
  (forall a b rest,
      is_hex a = true -> is_hex b = true ->
      parse_sensors_basic (a :: b :: rest) =
        inr (PDict [ (lit "type", PStr (lit "sensor_basic"));
                     (lit "version", PInt (hex_number [a]));
                     (lit "move_history", PInt (hex_number [b])) ])
      /\ 0 <= hex_number [a] < 16 /\ 0 <= hex_number [b] < 16)
  /\ (forall data,
        (List.length data < 2)%nat -> parse_sensors_basic data = inl ValueError).
Proof.
  split.
  - intros a b rest Ha Hb.
    assert (Hsa : all_hex [a] = true) by (unfold all_hex; cbn; now rewrite Ha).
    assert (Hsb : all_hex [b] = true) by (unfold all_hex; cbn; now rewrite Hb).
    split; [|split; [exact (hex_number_range [a] Hsa) | exact (hex_number_range [b] Hsb)]].
    unfold parse_sensors_basic, slice. cbn [firstn skipn Nat.sub].
    rewrite (int16_or_raise_hex [a]) by (discriminate || assumption).
    cbn [bind_sum].
    rewrite (int16_or_raise_hex [b]) by (discriminate || assumption).
    reflexivity.
  - intros data Hlen. unfold parse_sensors_basic, slice.
    destruct data as [|a [|b data]]; cbn [List.length] in Hlen; try lia.
    + reflexivity.
    + cbn [firstn skipn Nat.sub].
      destruct (int16_or_raise [a]) as [e|z] eqn:E.
      * apply int16_or_raise_error in E. now subst e.
      * reflexivity.
Qed.

Lemma parse_sensors_basic_nibbles_witness :
  parse_sensors_basic (lit "1f") =
    inr (PDict [ (lit "type", PStr (lit "sensor_basic"));
                 (lit "version", PInt (hex_number (lit "1")));
                 (lit "move_history", PInt (hex_number (lit "f"))) ]).
Proof.
  apply (proj1 parse_sensors_basic_nibbles "1"%char "f"%char []); reflexivity.
Defined.

Lemma all_hex_one (c : ascii) : is_hex c = true -> all_hex [c] = true.
Proof. intros H. unfold all_hex. cbn. now rewrite H. Qed.

Lemma true_div_sign (a b : Z) :
  0 < b -> ((true_div a b < 0)%Q <-> a < 0) /\ ((true_div a b <= inject_Z 100)%Q <-> a <= 100 * b).
Proof.
  intros Hb. unfold true_div.
  assert (E : (Qred (inject_Z a / inject_Z b) == a # Z.to_pos b)%Q).
  { rewrite Qred_correct. unfold Qeq, Qdiv, Qmult, Qinv, inject_Z.
    destruct b as [|p|p]; try lia. cbn. lia. }
  split.
  - rewrite E. unfold Qlt. cbn. lia.
  - rewrite E. unfold Qle, inject_Z. cbn [Qnum Qden].
    rewrite Z2Pos.id by lia. lia.
Qed.

(** X2.  The full sensor packet: of the first fourteen hexadecimal
    characters of the value, the first two are version and move history,
    then come temperature, accumulated charge and voltage, four characters
    each, read as unsigned numbers; later characters are not looked at.
    Version and move history are below 16, the charge below 65536; the
    battery level is at most 100 and is negative exactly when the charge
    exceeds 2400: it is not clamped. *)
Theorem parse_sensors_full_fields :
  forall v m t c u rest,
    is_hex v = true -> is_hex m = true ->
    List.length t = 4%nat -> all_hex t = true ->
    List.length c = 4%nat -> all_hex c = true ->
    List.length u = 4%nat -> all_hex u = true ->
    parse_sensors_full (v :: m :: t ++ c ++ u ++ rest) =
      inr (sensor_full_reading (hex_number [v]) (hex_number [m])
             (hex_number t) (hex_number c) (hex_number u))
    /\ 0 <= hex_number [v] < 16 /\ 0 <= hex_number [m] < 16
    /\ 0 <= hex_number t < 65536 /\ 0 <= hex_number c < 65536
    /\ 0 <= hex_number u < 65536
    /\ ((true_div (100 * (2400 - hex_number c)) 2400 < 0)%Q <-> 2400 < hex_number c)
    /\ (true_div (100 * (2400 - hex_number c)) 2400 <= inject_Z 100)%Q.
Proof.
  intros v m t c u rest Hv Hm Lt Ht Lc Hc Lu Hu.
  pose proof (hex_number_range [v] (all_hex_one v Hv)) as Rv.
  pose proof (hex_number_range [m] (all_hex_one m Hm)) as Rm.
  pose proof (hex_number_range t Ht) as Rt. rewrite Lt in Rt.
  pose proof (hex_number_range c Hc) as Rc. rewrite Lc in Rc.
  pose proof (hex_number_range u Hu) as Ru. rewrite Lu in Ru.
  change (16 ^ Z.of_nat (List.length [v])) with 16 in Rv.
  change (16 ^ Z.of_nat (List.length [m])) with 16 in Rm.
  change (16 ^ Z.of_nat 4) with 65536 in *.
  destruct (true_div_sign (100 * (2400 - hex_number c)) 2400 ltac:(lia)) as [Hneg Hmax].
  repeat split; try lia.
  - destruct t as [|t0 [|t1 [|t2 [|t3 [|? ?]]]]]; try discriminate Lt.
    destruct c as [|c0 [|c1 [|c2 [|c3 [|? ?]]]]]; try discriminate Lc.
    destruct u as [|u0 [|u1 [|u2 [|u3 [|? ?]]]]]; try discriminate Lu.
    unfold parse_sensors_full, slice. cbn [firstn skipn Nat.sub app].
    rewrite (int16_or_raise_hex [v]) by (discriminate || now apply all_hex_one).
    rewrite (int16_or_raise_hex [m]) by (discriminate || now apply all_hex_one).
    rewrite (int16_or_raise_hex [t0; t1; t2; t3]) by (discriminate || assumption).
    rewrite (int16_or_raise_hex [c0; c1; c2; c3]) by (discriminate || assumption).
    rewrite (int16_or_raise_hex [u0; u1; u2; u3]) by (discriminate || assumption).
    reflexivity.
  - intros H. apply Hneg in H. lia.
  - intros H. apply Hneg. lia.
  - apply Hmax. lia.
Qed.

Lemma parse_sensors_full_fields_witness :
  parse_sensors_full (lit "1309C4FFFF0DAC") =
    inr (sensor_full_reading (hex_number (lit "1")) (hex_number (lit "3"))
           (hex_number (lit "09C4")) (hex_number (lit "FFFF")) (hex_number (lit "0DAC"))).
Proof.
  apply (parse_sensors_full_fields "1"%char "3"%char (lit "09C4") (lit "FFFF")
           (lit "0DAC") []); reflexivity.
Defined.

Lemma parse_sensors_full_short_data :
  (forall data e, parse_sensors_full data = inl e -> e = ValueError)
  /\ (forall data,
        (List.length data <= 10)%nat -> parse_sensors_full data = inl ValueError).
Proof.
  assert (Honly : forall data e, parse_sensors_full data = inl e -> e = ValueError).
  { intros data e. unfold parse_sensors_full, bind_sum.
    repeat match goal with
           | |- context [int16_or_raise ?s] =>
               let E := fresh "E" in
               destruct (int16_or_raise s) as [?e|?z] eqn:E;
               [apply int16_or_raise_error in E; subst; now intros [= <-]|]
           end.
    discriminate. }
  split; [exact Honly|].
  intros data Hlen.
  destruct (parse_sensors_full data) as [e|v] eqn:E.
  - now rewrite (Honly data e E).
  - exfalso. revert E. unfold parse_sensors_full, bind_sum.
    assert (S14 : slice 10 14 data = []).
    { unfold slice. rewrite skipn_all2 by exact Hlen. apply firstn_nil. }
    rewrite S14.
    repeat match goal with
           | |- context [int16_or_raise (slice ?a ?b data)] =>
               destruct (int16_or_raise (slice a b data)); [discriminate|]
           end.
    discriminate.
Qed.

(** X3.  [parse_sensors_full] raises nothing but [ValueError], and it
    raises it on every value of ten characters or fewer, whose voltage
    field is empty. *)
Theorem parse_sensors_full_short_value :
  (forall data e, parse_sensors_full data = inl e -> e = ValueError)
  /\ (forall data,
        (List.length data <= 10)%nat -> parse_sensors_full data = inl ValueError).
Proof. exact parse_sensors_full_short_data. Qed.

Lemma parse_sensors_full_short_value_witness :
  parse_sensors_full (lit "1309C40960") = inl ValueError.
Proof.
  apply (proj2 parse_sensors_full_short_value (lit "1309C40960")).
  vm_compute. lia.
Defined.

(** ** [tlv_parser] on any string *)

Lemma firstn_chars (n : nat) (s : str) : firstn n (chars s) = chars (firstn n s).
Proof. unfold chars. apply firstn_map. Qed.

Lemma skipn_chars (n : nat) (s : str) : skipn n (chars s) = chars (skipn n s).
Proof. unfold chars. apply skipn_map. Qed.

(** One turn of the loop on a string, in terms of the string. *)
Lemma tlv_run_chars (fuel : nat) (s : str) :
  tlv_run (S fuel) (chars s) =
    match firstn 2 s with
    | [] => Stop
    | t0 :: t' =>
        match py_int16 (firstn 2 (skipn 2 s)) with
        | None => Throw ValueError
        | Some length =>
            if (length <? 0) || (sys_maxsize <? length * 2) then Throw ValueError
            else Yield (t0 :: t', length,
                        firstn (Z.to_nat (length * 2)) (skipn 2 (skipn 2 s)))
                       (tlv_run fuel
                          (chars (skipn (Z.to_nat (length * 2)) (skipn 2 (skipn 2 s)))))
        end
    end.
Proof.
  cbn [tlv_run]. unfold TAG_FIELD_LENGTH, LENGTH_FIELD_LENGTH.
  rewrite firstn_chars, str_join_chars.
  destruct (firstn 2 s) as [|t0 t']; [reflexivity|].
  rewrite skipn_chars, firstn_chars, str_join_chars.
  destruct (py_int16 (firstn 2 (skipn 2 s))) as [len|]; [|reflexivity].
  destruct ((len <? 0) || (sys_maxsize <? len * 2)); [reflexivity|].
  now rewrite !skipn_chars, firstn_chars, str_join_chars.
Qed.

Lemma lstrip_length (s : str) : (List.length (lstrip s) <= List.length s)%nat.
Proof.
  induction s as [|c s IH]; cbn [lstrip List.length]; [lia|].
  destruct (is_unicode_space c); cbn [List.length]; lia.
Qed.

Lemma scan_digits_bound (s : str) :
  forall acc p v rest,
    0 <= acc ->
    scan_digits acc p s = Some (v, rest) ->
    0 <= v < (acc + 1) * 16 ^ Z.of_nat (List.length s).
Proof.
  induction s as [|c s IH]; intros acc p v rest Hacc H.
  - cbn in H. destruct p; [discriminate|]. injection H as <- _. cbn. lia.
  - cbn [scan_digits] in H. cbn [List.length].
    rewrite Nat2Z.inj_succ, Z.pow_succ_r by lia.
    assert (Hpow : 0 < 16 ^ Z.of_nat (List.length s)) by (apply Z.pow_pos_nonneg; lia).
    destruct (is_underscore c).
    + destruct p; [discriminate|].
      specialize (IH acc true v rest Hacc H). nia.
    + destruct (digit_value c) as [d|] eqn:Ed.
      * assert (Rd : 0 <= d < 16).
        { assert (Hc : is_hex c = true) by (unfold is_hex; now rewrite Ed).
          destruct (hex_digit_value c Hc) as (d' & Ed' & Rd').
          rewrite Ed in Ed'. now injection Ed' as <-. }
        specialize (IH (16 * acc + d) false v rest ltac:(lia) H). nia.
      * destruct p; [discriminate|]. injection H as <- _. nia.
Qed.

(** [int(s, 16)] is below [16 ^ len(s)] in absolute value. *)
Lemma py_int16_bound (s : str) (n : Z) :
  py_int16 s = Some n -> - 16 ^ Z.of_nat (List.length s) < n < 16 ^ Z.of_nat (List.length s).
Proof.
  unfold py_int16.
  pose proof (lstrip_length s) as L1.
  set (s1 := lstrip s) in *.
  set (signed := match s1 with
                 | c :: r => if ord c =? 43 then (false, r)
                             else if ord c =? 45 then (true, r) else (false, s1)
                 | [] => (false, s1)
                 end).
  assert (L2 : (List.length (snd signed) <= List.length s1)%nat).
  { unfold signed. destruct s1 as [|c r]; [cbn; lia|].
    destruct (ord c =? 43); [cbn; lia|]. destruct (ord c =? 45); cbn; lia. }
  destruct signed as [neg s2]. cbn [snd] in L2.
  set (s3 := match s2 with
             | z :: x :: r =>
                 if (ord z =? 48) && ((ord x =? 120) || (ord x =? 88))
                 then match r with
                      | u :: r' => if is_underscore u then r' else r
                      | [] => r
                      end
                 else s2
             | _ => s2
             end).
  assert (L3 : (List.length s3 <= List.length s2)%nat).
  { unfold s3. destruct s2 as [|z [|x r]]; try lia.
    destruct ((ord z =? 48) && ((ord x =? 120) || (ord x =? 88))); [|lia].
    destruct r as [|u r']; cbn [List.length]; [lia|].
    destruct (is_underscore u); cbn [List.length]; lia. }
  clearbody s3.
  destruct s3 as [|c r3] eqn:E3; [discriminate|].
  destruct (digit_value c); [|discriminate].
  destruct (scan_digits 0 false (c :: r3)) as [[v rest]|] eqn:Escan; [|discriminate].
  destruct (lstrip rest); [|discriminate].
  intros [= <-].
  pose proof (scan_digits_bound (c :: r3) 0 false v rest ltac:(lia) Escan) as Hv.
  assert (Hmono : 16 ^ Z.of_nat (List.length (c :: r3)) <= 16 ^ Z.of_nat (List.length s))
    by (apply Z.pow_le_mono_r; lia).
  destruct neg; lia.
Qed.

Lemma firstn_two_length (s : str) (t0 : ascii) (t' : str) :
  firstn 2 (skipn 2 s) <> [] -> firstn 2 s = t0 :: t' ->
  List.length (t0 :: t') = 2%nat /\ (3 <= List.length s)%nat.
Proof.
  intros Hlf Htag.
  destruct s as [|a [|b [|c s]]]; cbn in *; try contradiction.
  injection Htag as <- <-. cbn. lia.
Qed.

(** The triples of a string, one turn of fuel at a time. *)
Lemma tlv_run_chars_bounds (fuel : nat) :
  forall s,
    Forall triple_in_bounds (gen_items (tlv_run fuel (chars s)))
    /\ (3 * List.length (gen_items (tlv_run fuel (chars s))) <= List.length s)%nat
    /\ (gen_end (tlv_run fuel (chars s)) = None \/
        gen_end (tlv_run fuel (chars s)) = Some ValueError \/
        gen_end (tlv_run fuel (chars s)) = Some FuelExhausted).
Proof.
  induction fuel as [|fuel IH]; intros s.
  - cbn. repeat split; [constructor | lia | auto].
  - rewrite tlv_run_chars.
    destruct (firstn 2 s) as [|t0 t'] eqn:Etag.
    { cbn. repeat split; [constructor | lia | auto]. }
    destruct (py_int16 (firstn 2 (skipn 2 s))) as [len|] eqn:Elen.
    2:{ cbn. repeat split; [constructor | lia | auto]. }
    destruct ((len <? 0) || (sys_maxsize <? len * 2)) eqn:Erange.
    { cbn. repeat split; [constructor | lia | auto]. }
    apply orb_false_iff in Erange as [Hpos _].
    assert (Hlf : firstn 2 (skipn 2 s) <> []) by (intros E; rewrite E in Elen; discriminate).
    destruct (firstn_two_length s t0 t' Hlf Etag) as [Ltag Ls].
    pose proof (py_int16_bound _ _ Elen) as Hb.
    assert (L2 : (List.length (firstn 2 (skipn 2 s)) <= 2)%nat) by apply firstn_le_length.
    assert (Hmono : 16 ^ Z.of_nat (List.length (firstn 2 (skipn 2 s))) <= 16 ^ 2)
      by (apply Z.pow_le_mono_r; lia).
    change (16 ^ 2) with 256 in Hmono.
    destruct (IH (skipn (Z.to_nat (len * 2)) (skipn 2 (skipn 2 s)))) as (IH1 & IH2 & IH3).
    cbn [gen_items gen_end List.length].
    repeat split.
    + constructor; [|exact IH1].
      unfold triple_in_bounds. split; [exact Ltag|]. split; [lia|].
      pose proof (firstn_le_length (Z.to_nat (len * 2)) (skipn 2 (skipn 2 s))). lia.
    + rewrite !length_skipn in IH2. lia.
    + exact IH3.
Qed.

(** X4.  On every string the generator terminates, by stopping or by
    raising [ValueError] and nothing else; each triple it yields has a tag
    of two characters, a length from 0 to 255 and a value of at most twice
    that many characters; and a string of [n] characters yields at most
    [n / 3] triples. *)
Theorem tlv_parser_string_bounds :
  forall s : str,
    Forall triple_in_bounds (gen_items (tlv_parser (PStr s)))
    /\ (3 * List.length (gen_items (tlv_parser (PStr s))) <= List.length s)%nat
    /\ (gen_end (tlv_parser (PStr s)) = None \/
        gen_end (tlv_parser (PStr s)) = Some ValueError).
Proof.
  intros s.
  pose proof (tlv_parser_fuel (PStr s)) as Hfuel.
  unfold tlv_parser, py_iter in *.
  destruct (tlv_run_chars_bounds (S (List.length (chars s))) s) as (H1 & H2 & H3).
  split; [exact H1|]. split; [exact H2|].
  destruct H3 as [H3|[H3|H3]]; auto.
  exfalso. revert Hfuel H3.
  generalize (tlv_run (S (List.length (chars s))) (chars s)).
  induction g as [| e | a g IH]; cbn.
  - discriminate.
  - intros Hne [= ->]. now apply Hne.
  - exact IH.
Qed.

Lemma two_char_length_in_range (lf : str) (n : Z) :
  List.length lf = 2%nat -> py_int16 lf = Some n ->
  (n <? 0) || (sys_maxsize <? n * 2) = (n <? 0).
Proof.
  intros Hl Hn. pose proof (py_int16_bound lf n Hn) as Hb. rewrite Hl in Hb.
  change (16 ^ Z.of_nat 2) with 256 in Hb.
  replace (sys_maxsize <? n * 2) with false
    by (unfold sys_maxsize; symmetry; apply Z.ltb_ge; lia).
  apply orb_false_r.
Qed.

Lemma tlv_parser_bad_length :
  forall recs tag lf rest,
    Forall wf_record recs ->
    List.length tag = 2%nat -> List.length lf = 2%nat ->
    match py_int16 lf with Some n => n < 0 | None => True end ->
    tlv_parser (PStr (wire_all recs ++ tag ++ lf ++ rest)) =
      yields (map triple_of recs) (Throw ValueError).
Proof.
  intros recs tag lf rest Hwf Ht Hl Hbad.
  destruct (tlv_parser_records recs (tag ++ lf ++ rest) Hwf) as (k & Hk & ->).
  f_equal.
  destruct k as [|k]; [simpl in Hk; lia|].
  rewrite tlv_run_chars.
  destruct tag as [|t0 [|t1 [|? ?]]]; try discriminate Ht.
  destruct lf as [|l0 [|l1 [|? ?]]]; try discriminate Hl.
  cbn [app firstn skipn].
  destruct (py_int16 [l0; l1]) as [n|] eqn:En; [|reflexivity].
  rewrite (two_char_length_in_range [l0; l1] n eq_refl En).
  now replace (n <? 0) with true by lia.
Qed.

(** X5.  After the triples of the complete records, a record whose
    length field is not a number for [int(.., 16)], or is a negative one,
    makes the generator raise [ValueError]; the record is not yielded. *)
Theorem tlv_parser_bad_length_field :
  forall recs tag lf rest,
    Forall wf_record recs ->
    List.length tag = 2%nat -> List.length lf = 2%nat ->
    match py_int16 lf with Some n => n < 0 | None => True end ->
    tlv_parser (PStr (wire_all recs ++ tag ++ lf ++ rest)) =
      yields (map triple_of recs) (Throw ValueError).
Proof. exact tlv_parser_bad_length. Qed.

Lemma tlv_parser_bad_length_field_witness :
  tlv_parser (PStr (wire_all [ (lit "0D", lit "01", lit "12") ]
                    ++ lit "0A" ++ lit "-1" ++ lit "00000960")) =
    yields (map triple_of [ (lit "0D", lit "01", lit "12") ]) (Throw ValueError).
Proof.
  apply (tlv_parser_bad_length_field
           [ (lit "0D", lit "01", lit "12") ] (lit "0A") (lit "-1") (lit "00000960")).
  - repeat constructor.
  - reflexivity.
  - reflexivity.
  - vm_compute. reflexivity.
Defined.

(** X6.  The length field is whatever [int(.., 16)] accepts in two
    characters, not only two hexadecimal digits: a sign, white space or a
    single digit give a length as well (['+1'], [' 2'], ['3 ']), and the
    record is yielded with that length when the value has twice as many
    characters. *)
Theorem tlv_parser_lenient_length_field :
  forall recs tag lf value n,
    Forall wf_record recs ->
    List.length tag = 2%nat -> List.length lf = 2%nat ->
    py_int16 lf = Some n -> 0 <= n ->
    List.length value = Z.to_nat (2 * n) ->
    tlv_parser (PStr (wire_all recs ++ tag ++ lf ++ value)) =
      yields (map triple_of recs) (Yield (tag, n, value) Stop).
Proof.
  intros recs tag lf value n Hwf Ht Hl Hn Hpos Hv.
  destruct (tlv_parser_records recs (tag ++ lf ++ value) Hwf) as (k & Hk & ->).
  f_equal.
  rewrite !length_app in Hk.
  destruct k as [|[|k]]; try lia.
  rewrite tlv_run_chars.
  destruct tag as [|t0 [|t1 [|? ?]]]; try discriminate Ht.
  destruct lf as [|l0 [|l1 [|? ?]]]; try discriminate Hl.
  cbn [app firstn skipn]. rewrite Hn.
  rewrite (two_char_length_in_range [l0; l1] n eq_refl Hn).
  replace (n <? 0) with false by lia.
  replace (n * 2) with (2 * n) by lia. rewrite <- Hv.
  rewrite firstn_all, skipn_all. reflexivity.
Qed.

Lemma tlv_parser_lenient_length_field_witness :
  tlv_parser (PStr (wire_all [] ++ lit "0B" ++ lit "+2" ++ lit "0dac")) =
    yields (map triple_of []) (Yield (lit "0B", 2, lit "0dac") Stop).
Proof.
  apply (tlv_parser_lenient_length_field [] (lit "0B") (lit "+2") (lit "0dac") 2).
  - constructor.
  - reflexivity.
  - reflexivity.
  - vm_compute. reflexivity.
  - lia.
  - reflexivity.
Defined.

(** ** The branches of [dispatch] *)

Ltac pick_branch H :=
  unfold dispatch; rewrite H;
  repeat match goal with
         | |- context [str_eqb (lit ?a) (lit ?b)] =>
             let v := eval vm_compute in (str_eqb (lit a) (lit b)) in
             change (str_eqb (lit a) (lit b)) with v
         end;
  cbn [orb]; cbv iota.

Lemma bytes_fromhex_bytes_upto (n : nat) :
  forall s bs,
    (List.length s <= n)%nat -> bytes_fromhex s = Some bs -> Forall is_byte bs.
Proof.
  induction n as [|n IH]; intros s bs Hlen H.
  - destruct s; [|cbn in Hlen; lia]. injection H as <-. constructor.
  - destruct s as [|c s]; [injection H as <-; constructor|].
    cbn [bytes_fromhex] in H. cbn [List.length] in Hlen.
    destruct (is_space c).
    + apply (IH s); [lia | exact H].
    + destruct (digit_value c) as [top|] eqn:Etop; [|discriminate].
      destruct s as [|d s']; [discriminate|].
      destruct (digit_value d) as [bot|] eqn:Ebot; [|discriminate].
      destruct (bytes_fromhex s') as [bs'|] eqn:E'; [|discriminate].
      injection H as <-.
      assert (Rt : 0 <= top < 16).
      { assert (Hc : is_hex c = true) by (unfold is_hex; now rewrite Etop).
        destruct (hex_digit_value c Hc) as (x & Ex & Rx).
        rewrite Etop in Ex. now injection Ex as <-. }
      assert (Rb : 0 <= bot < 16).
      { assert (Hc : is_hex d = true) by (unfold is_hex; now rewrite Ebot).
        destruct (hex_digit_value d Hc) as (x & Ex & Rx).
        rewrite Ebot in Ex. now injection Ex as <-. }
      constructor; [change (is_byte (16 * top + bot)); unfold is_byte; lia|].
      apply (IH s'); [cbn [List.length] in Hlen; lia | exact E'].
Qed.

Lemma bytes_fromhex_bytes (s : str) (bs : list Z) :
  bytes_fromhex s = Some bs -> Forall is_byte bs.
Proof. apply (bytes_fromhex_bytes_upto (List.length s)). lia. Qed.

Lemma to_signed16_range (hi lo : Z) :
  is_byte hi -> is_byte lo -> -32768 <= to_signed16 (hi * 256 + lo) <= 32767.
Proof.
  unfold is_byte, to_signed16. intros Hhi Hlo.
  destruct (hi * 256 + lo <? 32768) eqn:E; lia.
Qed.

Lemma fromhex_ok {B : Type} (val : str) (bs : list Z) (k : list Z -> M B) (st : hstate) :
  bytes_fromhex val = Some bs -> bind (lift (py_fromhex (PStr val))) k st = k bs st.
Proof. intros H. apply lift_ok. unfold py_fromhex. now rewrite H. Qed.

Lemma dispatch_accelerometer_run (solver : nat -> option reply) (iot : nat -> bool)
      (event : Event) (tag : str) (length : Z) (val : str) (bs : list Z)
      (v0 v1 v2 v3 v4 : Z) (st : hstate) :
  upper tag = lit "09" ->
  bytes_fromhex val = Some bs ->
  unpack_Bhhhh bs = Some (v0, v1, v2, v3, v4) ->
  dispatch solver iot event (tag, length, val) st =
    (Ok tt,
     with_result
       (slot_set (lit "statusCode") (Own (PInt 200))
          (slot_set (lit "accelerometer") RetAccObject (retVal st)))
       (Some (accelerometer_object event
                [ (lit "accVals", accVals_of v0 v1 v2 v3 v4) ]))
       st).
Proof.
  intros Htag Hhex Hunpack.
  pick_branch Htag.
  rewrite (bind_ok (bind_retAcc _) _ st _ tt eq_refl).
  rewrite (fromhex_ok val bs _ _ Hhex). rewrite Hunpack.
  reflexivity.
Qed.

(** X7.  Branch [09] on a value of nine bytes: the fresh accelerometer
    object, with its [accVals], is bound to [retAcc] and stored under
    ['accelerometer'], the status code becomes 200 and nothing is sent; the
    first byte is the motion mask, and the three axes and the temperature
    are signed 16-bit numbers, from -32768 to 32767 before scaling.  The
    declared length of the record plays no part. *)
Theorem dispatch_accelerometer :
  forall solver iot event tag length val bs v0 v1 v2 v3 v4 st,
    upper tag = lit "09" ->
    bytes_fromhex val = Some bs ->
    unpack_Bhhhh bs = Some (v0, v1, v2, v3, v4) ->
    dispatch solver iot event (tag, length, val) st =
      (Ok tt,
       with_result
         (slot_set (lit "statusCode") (Own (PInt 200))
            (slot_set (lit "accelerometer") RetAccObject (retVal st)))
         (Some (accelerometer_object event
                  [ (lit "accVals", accVals_of v0 v1 v2 v3 v4) ]))
         st)
    /\ is_byte v0
    /\ -32768 <= v1 <= 32767 /\ -32768 <= v2 <= 32767
    /\ -32768 <= v3 <= 32767 /\ -32768 <= v4 <= 32767.
Proof.
  intros solver iot event tag length val bs v0 v1 v2 v3 v4 st Htag Hhex Hunpack.
  split.
  - now apply (dispatch_accelerometer_run solver iot event tag length val bs).
  - pose proof (bytes_fromhex_bytes val bs Hhex) as Hbytes.
    destruct bs as [|b0 [|x1 [|x0 [|y1 [|y0 [|z1 [|z0 [|t1 [|t0 [|? ?]]]]]]]]]];
      try discriminate Hunpack.
    cbn [unpack_Bhhhh] in Hunpack. injection Hunpack as <- <- <- <- <-.
    repeat match goal with
           | H : Forall _ (_ :: _) |- _ => inversion H; subst; clear H
           end.
    repeat split; try (apply to_signed16_range; assumption); try assumption;
      match goal with H : is_byte b0 |- _ => apply H end.
Qed.

Lemma dispatch_accelerometer_witness :
  dispatch (scripted []) iot_up tracker_uplink (lit "09", 9, lit "01FFFF000200030004") initial =
    (Ok tt,
     with_result
       (slot_set (lit "statusCode") (Own (PInt 200))
          (slot_set (lit "accelerometer") RetAccObject (retVal initial)))
       (Some (accelerometer_object tracker_uplink
                [ (lit "accVals", accVals_of 1 (-1) 2 3 4) ]))
       initial).
Proof.
  apply (dispatch_accelerometer (scripted []) iot_up tracker_uplink (lit "09") 9
           (lit "01FFFF000200030004") [1; 255; 255; 0; 2; 0; 3; 0; 4]
           1 (-1) 2 3 4 initial); reflexivity.
Defined.

Lemma returned_get_retAcc (k : str) (st : hstate) (d : dict) :
  slot_get k (retVal st) = Some RetAccObject -> retAcc st = Some d ->
  dict_get k (returned_dict st) = Some (PDict d).
Proof.
  intros H Hacc. unfold returned_dict. rewrite Hacc.
  induction (retVal st) as [|[k' s] l IH]; [discriminate|].
  cbn [slot_get] in H. cbn [map dict_get fst snd].
  destruct (str_eqb k k').
  - injection H as ->. reflexivity.
  - now apply IH.
Qed.

(** Branch [0A] when [retAcc] is bound. *)
Lemma dispatch_charge_bound (solver : nat -> option reply) (iot : nat -> bool)
      (event : Event) (tag : str) (length : Z) (val : str) (bs : list Z) (c : Z)
      (d : dict) (st : hstate) :
  upper tag = lit "0A" ->
  bytes_fromhex val = Some bs -> unpack_L bs = Some c ->
  retAcc st = Some d ->
  dispatch solver iot event (tag, length, val) st =
    (Ok tt,
     with_result
       (slot_set (lit "statusCode") (Own (PInt 200)) (retVal st))
       (Some (dict_set (lit "battLevel")
                (PFloat (true_div (100 * (2400 - c)) 2400))
                (dict_set (lit "modemCharge") (PInt c) d)))
       st).
Proof.
  intros Htag Hhex Hunpack Hacc.
  pick_branch Htag.
  rewrite (fromhex_ok val bs _ _ Hhex). rewrite Hunpack.
  unfold bind, set_retAcc, set_retVal. cbn [retAcc]. rewrite Hacc.
  reflexivity.
Qed.

(** Branch [0B] when [retAcc] is bound. *)
Lemma dispatch_voltage_bound (solver : nat -> option reply) (iot : nat -> bool)
      (event : Event) (tag : str) (length : Z) (val : str) (bs : list Z) (u : Z)
      (d : dict) (st : hstate) :
  upper tag = lit "0B" ->
  bytes_fromhex val = Some bs -> unpack_H bs = Some u ->
  retAcc st = Some d ->
  dispatch solver iot event (tag, length, val) st =
    (Ok tt,
     with_result
       (slot_set (lit "statusCode") (Own (PInt 200)) (retVal st))
       (Some (dict_set (lit "modemVolt") (PFloat (true_div u 1000)) d))
       st).
Proof.
  intros Htag Hhex Hunpack Hacc.
  pick_branch Htag.
  rewrite (fromhex_ok val bs _ _ Hhex). rewrite Hunpack.
  unfold bind, set_retAcc, set_retVal. rewrite Hacc.
  reflexivity.
Qed.

(** X8.  A stream of an accelerometer record, a charge record and a
    voltage record: the charge, the battery level [100*(2400-c)/2400] and
    the voltage are written into the object that ['accelerometer'] already
    holds, so the aggregate returned shows them inside the accelerometer
    reading; nothing is sent to the solver or to the device. *)
Theorem accelerometer_collects_battery :
  forall solver iot event t9 l9 val9 tA lA valA tB lB valB
         bs9 v0 v1 v2 v3 v4 bsA c bsB u st,
    wf_record (t9, l9, val9) -> wf_record (tA, lA, valA) -> wf_record (tB, lB, valB) ->
    upper t9 = lit "09" -> upper tA = lit "0A" -> upper tB = lit "0B" ->
    bytes_fromhex val9 = Some bs9 -> unpack_Bhhhh bs9 = Some (v0, v1, v2, v3, v4) ->
    bytes_fromhex valA = Some bsA -> unpack_L bsA = Some c ->
    bytes_fromhex valB = Some bsB -> unpack_H bsB = Some u ->
    exists st',
      for_gen (tlv_parser (PStr (wire_all [ (t9, l9, val9); (tA, lA, valA); (tB, lB, valB) ])))
              (dispatch solver iot event) st = (Ok tt, st')
      /\ dict_get (lit "accelerometer") (returned_dict st') =
           Some (PDict (accelerometer_object event
                   [ (lit "accVals", accVals_of v0 v1 v2 v3 v4);
                     (lit "modemCharge", PInt c);
                     (lit "battLevel", PFloat (true_div (100 * (2400 - c)) 2400));
                     (lit "modemVolt", PFloat (true_div u 1000)) ]))
      /\ https_log st' = https_log st /\ downlink_log st' = downlink_log st.
Proof.
  intros solver iot event t9 l9 val9 tA lA valA tB lB valB
         bs9 v0 v1 v2 v3 v4 bsA c bsB u st
         Hwf9 HwfA HwfB H9 HA HB Hhex9 Hun9 HhexA HunA HhexB HunB.
  rewrite (tlv_parser_wire_all _
             (Forall_cons _ Hwf9 (Forall_cons _ HwfA (Forall_cons _ HwfB (Forall_nil _))))).
  cbn [map yields for_gen triple_of].
  rewrite (bind_ok _ _ _ _ tt
             (dispatch_accelerometer_run solver iot event t9 (hex_number l9) val9
                bs9 v0 v1 v2 v3 v4 st H9 Hhex9 Hun9)).
  match goal with
  | |- context [with_result ?rv (Some ?d) st] =>
      rewrite (bind_ok _ _ _ _ tt
                 (dispatch_charge_bound solver iot event tA (hex_number lA) valA bsA c
                    d (with_result rv (Some d) st) HA HhexA HunA eq_refl))
  end.
  match goal with
  | |- context [bind (dispatch _ _ _ (tB, _, _)) _ (with_result ?rv (Some ?d) ?s)] =>
      rewrite (bind_ok _ _ _ _ tt
                 (dispatch_voltage_bound solver iot event tB (hex_number lB) valB bsB u
                    d (with_result rv (Some d) s) HB HhexB HunB eq_refl))
  end.
  eexists. split; [reflexivity|]. split; [|split; reflexivity].
  apply returned_get_retAcc; [|reflexivity].
  cbn [with_result retVal].
  rewrite (slot_get_set_other _ (lit "statusCode")) by reflexivity.
  rewrite (slot_get_set_other _ (lit "statusCode")) by reflexivity.
  rewrite (slot_get_set_other _ (lit "statusCode")) by reflexivity.
  apply slot_get_set_same.
Qed.

Lemma accelerometer_collects_battery_witness :
  exists st',
    for_gen (tlv_parser (PStr (wire_all [ (lit "09", lit "09", lit "010001000200030004");
                                          (lit "0a", lit "04", lit "00000960");
                                          (lit "0B", lit "02", lit "0DAC") ])))
            (dispatch (scripted []) iot_up tracker_uplink) initial = (Ok tt, st')
    /\ dict_get (lit "accelerometer") (returned_dict st') =
         Some (PDict (accelerometer_object tracker_uplink
                 [ (lit "accVals", accVals_of 1 1 2 3 4);
                   (lit "modemCharge", PInt 2400);
                   (lit "battLevel", PFloat (true_div (100 * (2400 - 2400)) 2400));
                   (lit "modemVolt", PFloat (true_div 3500 1000)) ]))
    /\ https_log st' = https_log initial /\ downlink_log st' = downlink_log initial.
Proof.
  apply (accelerometer_collects_battery (scripted []) iot_up tracker_uplink
           (lit "09") (lit "09") (lit "010001000200030004")
           (lit "0a") (lit "04") (lit "00000960")
           (lit "0B") (lit "02") (lit "0DAC")
           [1; 0; 1; 0; 2; 0; 3; 0; 4] 1 1 2 3 4 [0; 0; 9; 96] 2400 [13; 172] 3500 initial);
    try reflexivity; repeat split; vm_compute; reflexivity.
Defined.

(** X9.  Branches [0A] and [0B] write through [retAcc], which only
    branch [09] binds: when no accelerometer record came before, a charge
    record of four bytes and a voltage record of two bytes raise
    [UnboundLocalError], and leave the state as it was. *)
Theorem battery_without_accelerometer :
  forall solver iot event tag length val bs st,
    retAcc st = None ->
    bytes_fromhex val = Some bs ->
    (upper tag = lit "0A" /\ List.length bs = 4%nat) \/
    (upper tag = lit "0B" /\ List.length bs = 2%nat) ->
    dispatch solver iot event (tag, length, val) st = (Raise UnboundLocalError, st).
Proof.
  intros solver iot event tag length val bs st Hacc Hhex [[Htag Hlen]|[Htag Hlen]].
  - destruct bs as [|b3 [|b2 [|b1 [|b0 [|? ?]]]]]; try discriminate Hlen.
    pick_branch Htag.
    rewrite (fromhex_ok val _ _ _ Hhex). cbn [unpack_L].
    unfold bind, set_retAcc. now rewrite Hacc.
  - destruct bs as [|b1 [|b0 [|? ?]]]; try discriminate Hlen.
    pick_branch Htag.
    rewrite (fromhex_ok val _ _ _ Hhex). cbn [unpack_H].
    unfold bind, set_retAcc. now rewrite Hacc.
Qed.

Lemma battery_without_accelerometer_witness :
  dispatch (scripted []) iot_up tracker_uplink (lit "0b", 2, lit "0DAC") initial =
    (Raise UnboundLocalError, initial).
Proof.
  apply (battery_without_accelerometer (scripted []) iot_up tracker_uplink
           (lit "0b") 2 (lit "0DAC") [13; 172] initial).
  - reflexivity.
  - reflexivity.
  - right. split; reflexivity.
Defined.

(** X10.  The three [struct.unpack] branches check the size of the
    value, not the declared length: a value that is hexadecimal text but
    not nine bytes for tag [09], four for [0A], two for [0B] raises
    [struct.error], and a value that is no hexadecimal text raises
    [ValueError], whatever the state. *)
Theorem unpack_branches_reject :
  forall solver iot event tag length val st,
    (upper tag = lit "09" \/ upper tag = lit "0A" \/ upper tag = lit "0B") ->
    (bytes_fromhex val = None ->
     fst (dispatch solver iot event (tag, length, val) st) = Raise ValueError)
    /\ (forall bs,
          bytes_fromhex val = Some bs ->
          (upper tag = lit "09" -> List.length bs <> 9%nat) ->
          (upper tag = lit "0A" -> List.length bs <> 4%nat) ->
          (upper tag = lit "0B" -> List.length bs <> 2%nat) ->
          fst (dispatch solver iot event (tag, length, val) st) = Raise StructError).
Proof.
  intros solver iot event tag length val st Htag. split.
  - intros Hhex.
    assert (Hraise : forall (B : Type) (k : list Z -> M B) s,
               bind (lift (py_fromhex (PStr val))) k s = (Raise ValueError, s)).
    { intros B k s. unfold py_fromhex. now rewrite Hhex. }
    destruct Htag as [Htag|[Htag|Htag]]; pick_branch Htag.
    + rewrite (bind_ok (bind_retAcc _) _ st _ tt eq_refl). now rewrite Hraise.
    + now rewrite Hraise.
    + now rewrite Hraise.
  - intros bs Hhex H9 HA HB.
    destruct Htag as [Htag|[Htag|Htag]].
    + specialize (H9 Htag). pick_branch Htag.
      rewrite (bind_ok (bind_retAcc _) _ st _ tt eq_refl).
      rewrite (fromhex_ok val bs _ _ Hhex).
      destruct bs as [|b0 [|x1 [|x0 [|y1 [|y0 [|z1 [|z0 [|t1 [|t0 [|? ?]]]]]]]]]];
        try reflexivity.
      now contradiction H9.
    + specialize (HA Htag). pick_branch Htag.
      rewrite (fromhex_ok val bs _ _ Hhex).
      destruct bs as [|b3 [|b2 [|b1 [|b0 [|? ?]]]]]; try reflexivity.
      now contradiction HA.
    + specialize (HB Htag). pick_branch Htag.
      rewrite (fromhex_ok val bs _ _ Hhex).
      destruct bs as [|b1 [|b0 [|? ?]]]; try reflexivity.
      now contradiction HB.
Qed.

Lemma unpack_branches_reject_witness :
  fst (dispatch (scripted []) iot_up tracker_uplink (lit "0A", 4, lit "0960") initial) =
    Raise StructError.
Proof.
  apply (proj2 (unpack_branches_reject (scripted []) iot_up tracker_uplink
                  (lit "0A") 4 (lit "0960") initial (or_intror (or_introl eq_refl)))
           [9; 96]).
  - reflexivity.
  - intros H. vm_compute in H. discriminate H.
  - intros _. vm_compute. discriminate.
  - intros H. vm_compute in H. discriminate H.
Defined.

(** X11.  A record whose tag, in upper case, is none of [0E], [08],
    [09], [0A], [0B], [0D], [05], [06], [07] is passed over: nothing is
    raised, sent or stored, and the status code is not set. *)
Theorem dispatch_unknown_tag :
  forall solver iot event tag length val st,
    ~ In (upper tag) known_tags ->
    dispatch solver iot event (tag, length, val) st = (Ok tt, st).
Proof.
  intros solver iot event tag length val st Hunknown.
  assert (Hne : forall k, In k known_tags -> str_eqb (upper tag) k = false).
  { intros k Hk. apply str_eqb_false. intros E. apply Hunknown. now rewrite E. }
  unfold dispatch.
  rewrite !Hne by (unfold known_tags; cbn [In]; tauto).
  reflexivity.
Qed.

Lemma dispatch_unknown_tag_witness :
  dispatch (scripted []) iot_up tracker_uplink (lit "FF", 1, lit "00") initial =
    (Ok tt, initial).
Proof.
  apply (dispatch_unknown_tag (scripted []) iot_up tracker_uplink (lit "FF") 1 (lit "00")
           initial).
  vm_compute. intuition discriminate.
Defined.

(** X12.  A sensor record (tag [0D]) whose declared length is neither 1
    nor 7 decodes nothing.  When an earlier record stored a sensor reading,
    that reading is kept and the status code is set to 200; when none did,
    the branch raises [KeyError] on reading [retVal['sensors']]. *)
Theorem sensor_record_other_length :
  forall solver iot event tag length val st,
    upper tag = lit "0D" -> length <> 1 -> length <> 7 ->
    (slot_get (lit "sensors") (retVal st) = None ->
       dispatch solver iot event (tag, length, val) st = (Raise KeyError, st))
    /\ (forall s,
          slot_get (lit "sensors") (retVal st) = Some s ->
          dispatch solver iot event (tag, length, val) st =
            (Ok tt,
             with_result (slot_set (lit "statusCode") (Own (PInt 200)) (retVal st))
                         (retAcc st) st)
          /\ slot_get (lit "sensors")
               (slot_set (lit "statusCode") (Own (PInt 200)) (retVal st)) = Some s).
Proof.
  intros solver iot event tag length val st Htag H1 H7.
  assert (E1 : (length =? 1) = false) by lia.
  assert (E7 : (length =? 7) = false) by lia.
  split.
  - intros Hnone. pick_branch Htag. rewrite E1, E7.
    unfold bind, ret, read_retVal. now rewrite Hnone.
  - intros s Hsome. split.
    + pick_branch Htag. rewrite E1, E7.
      unfold bind, ret, read_retVal. rewrite Hsome. reflexivity.
    + rewrite slot_get_set_other by reflexivity. exact Hsome.
Qed.

Lemma sensor_record_other_length_witness :
  dispatch (scripted []) iot_up tracker_uplink (lit "0D", 2, lit "1234") initial =
    (Raise KeyError, initial).
Proof.
  apply (proj1 (sensor_record_other_length (scripted []) iot_up tracker_uplink
                  (lit "0D") 2 (lit "1234") initial eq_refl
                  ltac:(lia) ltac:(lia))).
  reflexivity.
Defined.

(** X13.  The declared length of a sensor record chooses the decoder.
    With declared length 7, a value of fourteen hexadecimal characters is
    stored under ['sensors'], in place of any earlier reading, and a value
    of ten characters or fewer (what a truncated stream leaves) raises
    [ValueError] with nothing stored. *)
Theorem sensor_record_full :
  forall solver iot event tag val st,
    upper tag = lit "0D" ->
    (forall reading,
        parse_sensors_full val = inr reading ->
        dispatch solver iot event (tag, 7, val) st =
          (Ok tt,
           with_result
             (slot_set (lit "statusCode") (Own (PInt 200))
                (slot_set (lit "sensors") (Own reading) (retVal st)))
             (retAcc st) st)
        /\ slot_get (lit "sensors")
             (slot_set (lit "statusCode") (Own (PInt 200))
                (slot_set (lit "sensors") (Own reading) (retVal st))) =
           Some (Own reading))
    /\ ((List.length val <= 10)%nat ->
        dispatch solver iot event (tag, 7, val) st = (Raise ValueError, st)).
Proof.
  intros solver iot event tag val st Htag. split.
  - intros reading Hparse. split.
    + pick_branch Htag. change (7 =? 1) with false. change (7 =? 7) with true.
      cbv iota. rewrite Hparse.
      unfold bind, lift, ret, set_retVal, read_retVal. cbn [retVal].
      rewrite (slot_get_set_same (lit "sensors")). reflexivity.
    + rewrite slot_get_set_other by reflexivity. apply slot_get_set_same.
  - intros Hshort. pick_branch Htag.
    change (7 =? 1) with false. change (7 =? 7) with true. cbv iota.
    rewrite (proj2 parse_sensors_full_short_data val Hshort). reflexivity.
Qed.

Lemma sensor_record_full_witness :
  dispatch (scripted []) iot_up tracker_uplink (lit "0d", 7, lit "1309C4") initial =
    (Raise ValueError, initial).
Proof.
  apply (proj2 (sensor_record_full (scripted []) iot_up tracker_uplink
                  (lit "0d") (lit "1309C4") initial eq_refl)).
  vm_compute. lia.
Defined.

(** ** Scans *)

Lemma extends_quiet (st st' : hstate) :
  extends (fun _ => False) (fun _ => False) st st' ->
  https_log st' = https_log st /\ downlink_log st' = downlink_log st.
Proof.
  intros (l1 & l2 & H1 & H2 & F1 & F2).
  destruct l1 as [|a l1]; [|now inversion F1].
  destruct l2 as [|c l2]; [|now inversion F2].
  now rewrite H1, H2, !app_nil_r.
Qed.

Lemma extends_no_request (Dl : downlink_call -> Prop) (st st' : hstate) :
  extends (fun _ => False) Dl st st' -> https_log st' = https_log st.
Proof.
  intros (l1 & l2 & H1 & _ & F1 & _).
  destruct l1 as [|a l1]; [|now inversion F1].
  now rewrite H1, app_nil_r.
Qed.

Ltac grows_quiet :=
  repeat match goal with
    | |- grows _ _ (bind _ _) => apply grows_bind; [|intro]
    | |- grows _ _ (ret _) => apply grows_ret
    | |- grows _ _ (raise _) => apply grows_raise
    | |- grows _ _ (lift _) => apply grows_lift
    | |- grows _ _ (set_retVal _ _) => apply grows_set_retVal
    | |- grows _ _ (in_retVal _) => apply grows_in_retVal
    | |- grows _ _ (read_retVal _) => apply grows_read_retVal
    | |- grows _ _ (bind_r _) => apply grows_bind_r
    | |- grows _ _ read_r => apply grows_read_r
    | |- grows _ _ (json_loads _) => apply grows_json_loads
    | |- grows _ _ (wifi_solution _ _ _) => apply grows_wifi_solution
    | |- grows _ _ (deliver_downlink _ _ _ _) =>
        apply grows_deliver_downlink; intros; exact I
    | |- grows _ _ (if ?b then _ else _) => destruct b
    | |- grows _ _ (match ?x with _ => _ end) => destruct x
    end.

(** A scan record runs as its request followed by statements that make
    no further request. *)
Lemma dispatch_scan_record (solver : nat -> option reply) (iot : nat -> bool)
      (event : Event) (tag : str) (length : Z) (val : str) (request : py) :
  is_scan_record event tag val request ->
  exists k : reply -> M unit,
    (forall st, dispatch solver iot event (tag, length, val) st =
                bind (send_https solver request) k st)
    /\ (forall ir, grows (fun _ => False) (fun _ => True) (k ir)).
Proof.
  intros [[[Htag ->]|[Htag (ts & Hts & ->)]]|[Htag ->]].
  - eexists. split.
    + intros st. pick_branch Htag. reflexivity.
    + intros ir. cbv beta. grows_quiet.
  - eexists. split.
    + intros st. pick_branch Htag.
      rewrite (lift_ok _ ts _ st) by (unfold int16_or_raise; now rewrite Hts).
      reflexivity.
    + intros ir. cbv beta. grows_quiet.
  - destruct (gnss_tag_branch tag Htag) as (E1 & E2 & E3 & E4 & E5 & E6 & E7).
    eexists. split.
    + intros st. unfold dispatch. rewrite E1, E2, E3, E4, E5, E6, E7. reflexivity.
    + intros ir. cbv beta. grows_quiet.
Qed.

(** X14.  A Wi-Fi or GNSS record makes exactly one request to the
    solver, whatever the reply and whether or not the call returns: for tag
    [08] the value behind ["01"] with the time of the uplink, for tag [0E]
    the value from character 10 on behind ["01"] with the capture time read
    in characters 2 to 9 (the time of the uplink when that is 0), for tags
    [05], [06], [07] the value itself.  A [0E] value whose characters 2 to
    9 are no hexadecimal number raises [ValueError] before any request. *)
Theorem scan_record_request :
  forall solver iot event tag length val st,
    (forall request,
        is_scan_record event tag val request ->
        https_log (snd (dispatch solver iot event (tag, length, val) st)) =
          https_log st ++ [request])
    /\ (upper tag = lit "0E" -> py_int16 (slice 2 10 val) = None ->
        dispatch solver iot event (tag, length, val) st = (Raise ValueError, st)).
Proof.
  intros solver iot event tag length val st. split.
  - intros request Hscan.
    destruct (dispatch_scan_record solver iot event tag length val request Hscan)
      as (k & Hrun & Hk).
    rewrite Hrun. unfold bind, send_https.
    destruct (solver (List.length (https_log st))) as [ir|]; [|reflexivity].
    now rewrite (extends_no_request _ _ _ (Hk ir (log_request request st))).
  - intros Htag Hts. pick_branch Htag.
    unfold int16_or_raise. rewrite Hts. reflexivity.
Qed.

Lemma scan_record_request_witness :
  https_log (snd (dispatch (scripted []) iot_up tracker_uplink
                    (lit "0e", 7, lit "0100000000a1b2") initial)) =
    https_log initial
    ++ [scan_message (deveui_of tracker_uplink) (lit "wifi") (lit "01" ++ lit "a1b2")
          (PInt (Timestamp_epoch tracker_uplink))].
Proof.
  apply (proj1 (scan_record_request (scripted []) iot_up tracker_uplink
                  (lit "0e") 7 (lit "0100000000a1b2") initial)).
  left. right. split; [reflexivity|].
  exists 0. split; reflexivity.
Defined.

(** X15.  When the reply to a scan does not contain the text [result],
    the branches [0E], [05], [06] and [07] go on with nothing stored.
    Branch [08] then formats the local [r], which only an earlier scan with
    a reply that did contain [result] has bound: without one it raises
    [UnboundLocalError]. *)
Theorem scan_reply_without_result :
  forall solver iot event tag length val request ir st,
    is_scan_record event tag val request ->
    solver (List.length (https_log st)) = Some ir ->
    substring_in (lit "result") (body ir) = false ->
    dispatch solver iot event (tag, length, val) st =
      (if str_eqb (upper tag) (lit "08")
       then match r st with
            | None => Raise UnboundLocalError
            | Some _ => Ok tt
            end
       else Ok tt,
       log_request request st).
Proof.
  intros solver iot event tag length val request ir st Hscan Hsolver Hsub.
  destruct Hscan as [[[Htag ->]|[Htag (ts & Hts & ->)]]|[Htag ->]].
  - pick_branch Htag.
    rewrite (bind_ok _ _ st _ ir (send_https_ok solver _ st ir Hsolver)).
    rewrite Hsub. unfold bind, read_r, ret. cbn [log_request r].
    destruct (r st); reflexivity.
  - pick_branch Htag.
    rewrite (lift_ok _ ts _ st) by (unfold int16_or_raise; now rewrite Hts).
    rewrite (bind_ok _ _ st _ ir (send_https_ok solver _ st ir Hsolver)).
    rewrite Hsub. reflexivity.
  - destruct (gnss_tag_branch tag Htag) as (E1 & E2 & E3 & E4 & E5 & E6 & E7).
    unfold dispatch. rewrite E1, E2, E3, E4, E5, E6, E7.
    rewrite (bind_ok _ _ st _ ir (send_https_ok solver _ st ir Hsolver)).
    rewrite Hsub. reflexivity.
Qed.

Lemma scan_reply_without_result_witness :
  dispatch (scripted [text_reply (lit "busy")]) iot_up tracker_uplink
           (lit "08", 2, lit "a1b2") initial =
    (Raise UnboundLocalError,
     log_request (scan_message (deveui_of tracker_uplink) (lit "wifi")
                    (lit "01" ++ lit "a1b2") (PFloat (uplink_time tracker_uplink)))
                 initial).
Proof.
  apply (scan_reply_without_result (scripted [text_reply (lit "busy")]) iot_up
           tracker_uplink (lit "08") 2 (lit "a1b2") _
           {| body := lit "busy"; loads := None |} initial).
  - left. left. split; reflexivity.
  - reflexivity.
  - reflexivity.
Defined.

(** A Wi-Fi record whose reply contains [result] goes on with the
    statements under the test, after its request. *)
Lemma dispatch_wifi_reply (solver : nat -> option reply) (iot : nat -> bool)
      (event : Event) (tag : str) (length : Z) (val : str) (request : py)
      (ir : reply) (st : hstate) :
  is_wifi_record event tag val request ->
  solver (List.length (https_log st)) = Some ir ->
  substring_in (lit "result") (body ir) = true ->
  dispatch solver iot event (tag, length, val) st =
    wifi_solution (DEVEUI_of event) (deveui_of event) ir (log_request request st).
Proof.
  intros [[Htag ->]|[Htag (ts & Hts & ->)]] Hsolver Hsub.
  - pick_branch Htag.
    rewrite (bind_ok _ _ st _ ir (send_https_ok solver _ st ir Hsolver)).
    now rewrite Hsub.
  - pick_branch Htag.
    rewrite (lift_ok _ ts _ st) by (unfold int16_or_raise; now rewrite Hts).
    rewrite (bind_ok _ _ st _ ir (send_https_ok solver _ st ir Hsolver)).
    now rewrite Hsub.
Qed.

Lemma wifi_solution_reaches (DEVEUI deveui : str) (ir : reply) (v res w : py)
      (st : hstate) :
  loads ir = Some v ->
  inner_result v deveui = inr res ->
  getitem res (lit "position_solution") = inr w ->
  exists st1 k,
    wifi_solution DEVEUI deveui ir st =
      match w with
      | PNone => (Ok tt, st1)
      | _ => k st1
      end
    /\ https_log st1 = https_log st /\ downlink_log st1 = downlink_log st
    /\ retVal st1 = retVal st
    /\ k = (has_gdop <- lift (py_in (lit "gdop") w) ;;
            gdop <- (if has_gdop
                     then lift (bind_sum (getitem w (lit "llh"))
                                         (fun l => getitem l (lit "gdop")))
                     else ret (PInt (-1))) ;;
            lat <- lift (bind_sum (getitem w (lit "llh")) (fun l => getindex l 0)) ;;
            lon <- lift (bind_sum (getitem w (lit "llh")) (fun l => getindex l 1)) ;;
            alt <- lift (bind_sum (getitem w (lit "llh")) (fun l => getindex l 2)) ;;
            acc <- lift (getitem w (lit "accuracy")) ;;
            ts <- lift (getitem w (lit "timestamp")) ;;
            set_retVal (lit "wifi_location")
              (Own (PDict
                      [ (lit "msgtype", PStr (lit "wifi"));
                        (lit "DevEUI", PStr DEVEUI);
                        (lit "latitude", lat);
                        (lit "longitude", lon);
                        (lit "altitude", alt);
                        (lit "acc", acc);
                        (lit "gdop", gdop);
                        (lit "timestamp", ts) ])) ;;;
            set_retVal (lit "statusCode") (Own (PInt 200))).
Proof.
  intros Hloads Hres Hw.
  eexists (snd (bind_r v st)), _.
  split; [|repeat split; reflexivity].
  unfold wifi_solution, json_loads. rewrite Hloads.
  rewrite (bind_ok _ _ st st v eq_refl).
  rewrite (bind_ok (bind_r v) _ st _ tt eq_refl).
  rewrite (lift_ok _ res _ _ Hres).
  rewrite (lift_ok _ w _ _ Hw).
  destruct w; reflexivity.
Qed.

(** X16.  A Wi-Fi position solution that has a ['gdop'] entry is never
    stored: reading [wifi_response['llh']['gdop']] or, when [llh] is a dict
    that has it, [wifi_response['llh'][0]] raises [KeyError] or
    [TypeError], after the request and with [retVal] as it was. *)
Theorem wifi_solution_with_gdop_raises :
  forall solver iot event tag length val request ir v res w st,
    is_wifi_record event tag val request ->
    solver (List.length (https_log st)) = Some ir ->
    substring_in (lit "result") (body ir) = true ->
    loads ir = Some v ->
    inner_result v (deveui_of event) = inr res ->
    getitem res (lit "position_solution") = inr w ->
    py_in (lit "gdop") w = inr true ->
    exists e st',
      dispatch solver iot event (tag, length, val) st = (Raise e, st')
      /\ (e = KeyError \/ e = TypeError)
      /\ https_log st' = https_log st ++ [request]
      /\ downlink_log st' = downlink_log st
      /\ retVal st' = retVal st.
Proof.
  intros solver iot event tag length val request ir v res w st
         Hwifi Hsolver Hsub Hloads Hres Hw Hgdop.
  rewrite (dispatch_wifi_reply solver iot event tag length val request ir st
             Hwifi Hsolver Hsub).
  destruct (wifi_solution_reaches (DEVEUI_of event) (deveui_of event) ir v res w
              (log_request request st) Hloads Hres Hw)
    as (st1 & k & -> & L1 & L2 & L3 & ->).
  assert (Hout : forall e, (e = KeyError \/ e = TypeError) ->
            exists e' st', (@Raise unit e, st1) = (Raise e', st')
              /\ (e' = KeyError \/ e' = TypeError)
              /\ https_log st' = https_log st ++ [request]
              /\ downlink_log st' = downlink_log st
              /\ retVal st' = retVal st).
  { intros e He. exists e, st1. repeat split; assumption. }
  destruct w as [| | | | s | l | d]; try discriminate Hgdop.
  - rewrite (lift_ok _ true _ st1 Hgdop). apply Hout. now right.
  - rewrite (lift_ok _ true _ st1 Hgdop). apply Hout. now right.
  - rewrite (lift_ok _ true _ st1 Hgdop).
    unfold getitem at 1. 
    destruct (dict_get (lit "llh") d) as [llh|] eqn:Ellh.
    2:{ apply Hout. now left. }
    destruct llh as [| | | | s | l | dl]; try (apply Hout; now right).
    cbn [bind_sum getitem].
    destruct (dict_get (lit "gdop") dl) as [g|]; [|apply Hout; now left].
    unfold bind at 1. cbn [lift ret].
    unfold bind at 1. rewrite Ellh. cbn [bind_sum getindex lift raise].
    apply Hout. now left.
Qed.

Lemma wifi_solution_with_gdop_raises_witness :
  exists e st',
    dispatch (scripted [Some (reply_of (position_response tracker_uplink 1 2 3))])
             iot_up tracker_uplink (lit "08", 2, lit "a1b2") initial = (Raise e, st')
    /\ (e = KeyError \/ e = TypeError)
    /\ https_log st' =
         https_log initial
         ++ [scan_message (deveui_of tracker_uplink) (lit "wifi")
               (lit "01" ++ lit "a1b2") (PFloat (uplink_time tracker_uplink))]
    /\ downlink_log st' = downlink_log initial
    /\ retVal st' = retVal initial.
Proof.
  apply (wifi_solution_with_gdop_raises
           (scripted [Some (reply_of (position_response tracker_uplink 1 2 3))])
           iot_up tracker_uplink (lit "08") 2 (lit "a1b2") _
           (reply_of (position_response tracker_uplink 1 2 3))
           (position_response tracker_uplink 1 2 3)
           (PDict [ (lit "position_solution",
                     PDict [ (lit "llh", PList [PInt 1; PInt 2; PInt 3]);
                             (lit "accuracy", PInt 20);
                             (lit "gdop", PInt 2);
                             (lit "timestamp", PInt 1614600001) ]) ])
           (PDict [ (lit "llh", PList [PInt 1; PInt 2; PInt 3]);
                    (lit "accuracy", PInt 20);
                    (lit "gdop", PInt 2);
                    (lit "timestamp", PInt 1614600001) ])
           initial).
  - left. split; reflexivity.
  - reflexivity.
  - vm_compute. reflexivity.
  - reflexivity.
  - reflexivity.
  - reflexivity.
  - reflexivity.
Defined.

(** X17.  A Wi-Fi position solution without a ['gdop'] entry is stored
    under ['wifi_location'] with [gdop] set to -1 and the status code set
    to 200, in place of any Wi-Fi location stored before, and no downlink
    is sent; a null solution stores nothing. *)
Theorem wifi_solution_stored :
  forall solver iot event tag length val request ir st,
    is_wifi_record event tag val request ->
    solver (List.length (https_log st)) = Some ir ->
    (forall lat lon alt acc ts,
        wifi_solved event ir lat lon alt acc ts ->
        exists st',
          dispatch solver iot event (tag, length, val) st = (Ok tt, st')
          /\ downlink_log st' = downlink_log st
          /\ retVal st' =
               slot_set (lit "statusCode") (Own (PInt 200))
                 (slot_set (lit "wifi_location")
                    (Own (wifi_location event lat lon alt acc ts)) (retVal st))
          /\ slot_get (lit "wifi_location") (retVal st') =
               Some (Own (wifi_location event lat lon alt acc ts)))
    /\ (forall v res,
          substring_in (lit "result") (body ir) = true ->
          loads ir = Some v ->
          inner_result v (deveui_of event) = inr res ->
          getitem res (lit "position_solution") = inr PNone ->
          exists st',
            dispatch solver iot event (tag, length, val) st = (Ok tt, st')
            /\ downlink_log st' = downlink_log st
            /\ retVal st' = retVal st).
Proof.
  intros solver iot event tag length val request ir st Hwifi Hsolver. split.
  - intros lat lon alt acc ts
           (Hsub & v & d & sol & more & Hloads & Hres & Hsol & Hgdop & Hllh & Hacc & Hts).
    rewrite (dispatch_wifi_reply solver iot event tag length val request ir st
               Hwifi Hsolver Hsub).
    assert (Hw : getitem (PDict d) (lit "position_solution") = inr (PDict sol))
      by (unfold getitem; now rewrite Hsol).
    destruct (wifi_solution_reaches (DEVEUI_of event) (deveui_of event) ir v
                (PDict d) (PDict sol) (log_request request st) Hloads Hres Hw)
      as (st1 & k & -> & L1 & L2 & L3 & ->).
    rewrite (lift_ok (py_in (lit "gdop") (PDict sol)) false _ st1)
      by (unfold py_in; now rewrite Hgdop).
    rewrite (bind_ok _ _ st1 st1 (PInt (-1)) eq_refl).
    rewrite (lift_ok _ lat _ st1) by (unfold getitem; now rewrite Hllh).
    rewrite (lift_ok _ lon _ st1) by (unfold getitem; now rewrite Hllh).
    rewrite (lift_ok _ alt _ st1) by (unfold getitem; now rewrite Hllh).
    rewrite (lift_ok _ acc _ st1) by (unfold getitem; now rewrite Hacc).
    rewrite (lift_ok _ ts _ st1) by (unfold getitem; now rewrite Hts).
    eexists. split; [reflexivity|].
    cbn [set_retVal downlink_log retVal fst snd]. rewrite L3.
    split; [exact L2|]. split; [reflexivity|].
    rewrite slot_get_set_other by reflexivity. apply slot_get_set_same.
  - intros v res Hsub Hloads Hres Hw.
    rewrite (dispatch_wifi_reply solver iot event tag length val request ir st
               Hwifi Hsolver Hsub).
    destruct (wifi_solution_reaches (DEVEUI_of event) (deveui_of event) ir v
                res PNone (log_request request st) Hloads Hres Hw)
      as (st1 & k & -> & L1 & L2 & L3 & _).
    exists st1. repeat split; assumption.
Qed.

Lemma wifi_solution_stored_witness :
  exists st',
    dispatch (scripted [Some (reply_of (solver_result tracker_uplink
                                         [ (lit "position_solution",
                                            PDict [ (lit "llh", PList [PInt 1; PInt 2; PInt 3]);
                                                    (lit "accuracy", PInt 20);
                                                    (lit "timestamp", PInt 7) ]) ]))])
             iot_up tracker_uplink (lit "08", 2, lit "a1b2") initial = (Ok tt, st')
    /\ downlink_log st' = downlink_log initial
    /\ retVal st' =
         slot_set (lit "statusCode") (Own (PInt 200))
           (slot_set (lit "wifi_location")
              (Own (wifi_location tracker_uplink (PInt 1) (PInt 2) (PInt 3) (PInt 20)
                      (PInt 7)))
              (retVal initial))
    /\ slot_get (lit "wifi_location") (retVal st') =
         Some (Own (wifi_location tracker_uplink (PInt 1) (PInt 2) (PInt 3) (PInt 20)
                      (PInt 7))).
Proof.
  apply (proj1 (wifi_solution_stored _ iot_up tracker_uplink (lit "08") 2 (lit "a1b2")
           (scan_message (deveui_of tracker_uplink) (lit "wifi")
              (lit "01" ++ lit "a1b2") (PFloat (uplink_time tracker_uplink)))
           (reply_of (solver_result tracker_uplink
                        [ (lit "position_solution",
                           PDict [ (lit "llh", PList [PInt 1; PInt 2; PInt 3]);
                                   (lit "accuracy", PInt 20);
                                   (lit "timestamp", PInt 7) ]) ]))
           initial
           (or_introl (conj eq_refl eq_refl)) eq_refl)).
  split; [vm_compute; reflexivity|].
  eexists _, _, _, _. repeat split; reflexivity.
Defined.

(** X18.  The reply to a scan is tested as text: any reply that
    contains the characters [result] is parsed and indexed.  When it is no
    JSON text the record raises [JSONDecodeError]; when it is JSON without
    a ['result'] key (an error message that has the word, say) the record
    raises the exception of [x['result']], [KeyError] for a dict.  In both
    cases the request has been made, and nothing is stored or sent down. *)
Theorem scan_reply_tested_as_text :
  forall solver iot event tag length val request ir st,
    is_scan_record event tag val request ->
    solver (List.length (https_log st)) = Some ir ->
    substring_in (lit "result") (body ir) = true ->
    (loads ir = None ->
       dispatch solver iot event (tag, length, val) st =
         (Raise JSONDecodeError, log_request request st))
    /\ (forall v e,
          loads ir = Some v -> getitem v (lit "result") = inl e ->
          exists st',
            dispatch solver iot event (tag, length, val) st = (Raise e, st')
            /\ https_log st' = https_log st ++ [request]
            /\ downlink_log st' = downlink_log st
            /\ retVal st' = retVal st).
Proof.
  intros solver iot event tag length val request ir st Hscan Hsolver Hsub.
  assert (Hinner : forall v e deveui, getitem v (lit "result") = inl e ->
                                      inner_result v deveui = inl e).
  { intros v e deveui H. unfold inner_result. now rewrite H. }
  destruct Hscan as [Hwifi|[Htag ->]].
  - rewrite (dispatch_wifi_reply solver iot event tag length val request ir st
               Hwifi Hsolver Hsub).
    unfold wifi_solution, json_loads. split.
    + intros ->. reflexivity.
    + intros v e -> He.
      rewrite (bind_ok _ _ _ _ v eq_refl).
      rewrite (bind_ok (bind_r v) _ _ _ tt eq_refl).
      rewrite (Hinner v e _ He).
      eexists. split; [reflexivity|]. repeat split; reflexivity.
  - destruct (gnss_tag_branch tag Htag) as (E1 & E2 & E3 & E4 & E5 & E6 & E7).
    unfold dispatch. rewrite E1, E2, E3, E4, E5, E6, E7.
    rewrite (bind_ok _ _ st _ ir (send_https_ok solver _ st ir Hsolver)).
    rewrite Hsub. unfold json_loads. split.
    + intros ->. reflexivity.
    + intros v e -> He.
      rewrite (bind_ok _ _ _ _ v eq_refl).
      rewrite (bind_ok (bind_r v) _ _ _ tt eq_refl).
      unfold deliver_downlink. rewrite (Hinner v e _ He).
      eexists. split; [reflexivity|]. repeat split; reflexivity.
Qed.

Lemma scan_reply_tested_as_text_witness :
  exists st',
    dispatch (scripted [Some (reply_of (PDict [ (lit "error", PStr (lit "no result")) ]))])
             iot_up tracker_uplink (lit "06", 2, lit "a1b2") initial =
      (Raise KeyError, st')
    /\ https_log st' =
         https_log initial
         ++ [scan_message (deveui_of tracker_uplink) (lit "gnss") (lit "a1b2")
               (PFloat (uplink_time tracker_uplink))]
    /\ downlink_log st' = downlink_log initial
    /\ retVal st' = retVal initial.
Proof.
  apply (proj2 (scan_reply_tested_as_text _ iot_up tracker_uplink (lit "06") 2
                  (lit "a1b2") _
                  (reply_of (PDict [ (lit "error", PStr (lit "no result")) ]))
                  initial
                  (or_intror (conj (or_intror (or_introl eq_refl)) eq_refl))
                  eq_refl ltac:(vm_compute; reflexivity))
               (PDict [ (lit "error", PStr (lit "no result")) ]) KeyError).
  - reflexivity.
  - reflexivity.
Defined.

(** ** Downlink directives *)

(** X19.  The downlink directive of a result object: when it is absent
    or null nothing is sent; when it is an object without ['port'] or
    without ['payload'] the delivery raises [KeyError], when its payload is
    no hexadecimal text [ValueError], and when it is neither null nor an
    object [TypeError].  In each of these cases no downlink is sent. *)
Theorem directive_absent_or_malformed :
  forall iot id x deveui d st,
    inner_result x deveui = inr (PDict d) ->
    ((dict_get (lit "dnlink") d = None \/ dict_get (lit "dnlink") d = Some PNone) ->
       deliver_downlink iot id x deveui st = (Ok tt, st))
    /\ (forall dl,
          dict_get (lit "dnlink") d = Some (PDict dl) ->
          (dict_get (lit "port") dl = None \/ dict_get (lit "payload") dl = None) ->
          deliver_downlink iot id x deveui st = (Raise KeyError, st))
    /\ (forall dl p h,
          dict_get (lit "dnlink") d = Some (PDict dl) ->
          dict_get (lit "port") dl = Some p ->
          dict_get (lit "payload") dl = Some (PStr h) ->
          bytes_fromhex h = None ->
          deliver_downlink iot id x deveui st = (Raise ValueError, st))
    /\ (forall w,
          dict_get (lit "dnlink") d = Some w ->
          w <> PNone -> (forall dl, w <> PDict dl) ->
          deliver_downlink iot id x deveui st = (Raise TypeError, st)).
Proof.
  intros iot id x deveui d st Hres.
  assert (Hrun : forall w,
             dict_get (lit "dnlink") d = Some w ->
             deliver_downlink iot id x deveui st =
               match w with
               | PNone => (Ok tt, st)
               | _ =>
                   (p <- lift (getitem w (lit "port")) ;;
                    h <- lift (getitem w (lit "payload")) ;;
                    bs <- lift (py_fromhex h) ;;
                    send_downlink iot id 0 (b64encode bs)
                                  (if py_eq_zero p then 150 else 199)) st
               end).
  { intros w Hw. unfold deliver_downlink.
    rewrite (lift_ok _ _ _ st Hres).
    rewrite (lift_ok (py_items (PDict d)) d _ st eq_refl).
    unfold dict_has. rewrite Hw.
    rewrite (lift_ok (getitem (PDict d) (lit "dnlink")) w _ st)
      by (unfold getitem; now rewrite Hw).
    destruct w; reflexivity. }
  repeat split.
  - intros [Hnone|Hnull].
    + unfold deliver_downlink.
      rewrite (lift_ok _ _ _ st Hres).
      rewrite (lift_ok (py_items (PDict d)) d _ st eq_refl).
      unfold dict_has. now rewrite Hnone.
    + now rewrite (Hrun PNone Hnull).
  - intros dl Hdl Hmissing. rewrite (Hrun (PDict dl) Hdl).
    unfold getitem.
    destruct (dict_get (lit "port") dl) as [p|] eqn:Ep; [|reflexivity].
    destruct Hmissing as [Hm|Hm]; [discriminate|].
    rewrite (lift_ok _ p _ st eq_refl). now rewrite Hm.
  - intros dl p h Hdl Hp Hh Hhex. rewrite (Hrun (PDict dl) Hdl).
    rewrite (lift_ok _ p _ st) by (unfold getitem; now rewrite Hp).
    rewrite (lift_ok _ (PStr h) _ st) by (unfold getitem; now rewrite Hh).
    unfold py_fromhex. now rewrite Hhex.
  - intros w Hw Hnull Hobj. rewrite (Hrun w Hw).
    destruct w; try reflexivity; [contradiction | now destruct (Hobj d0)].
Qed.

Lemma directive_absent_or_malformed_witness :
  deliver_downlink iot_up (lit "7b4e")
    (solver_result tracker_uplink
       [ (lit "dnlink",
          PDict [ (lit "port", PInt 2); (lit "payload", PStr (lit "4d6")) ]) ])
    (deveui_of tracker_uplink) initial =
    (Raise ValueError, initial).
Proof.
  apply (proj1 (proj2 (proj2
           (directive_absent_or_malformed iot_up (lit "7b4e")
              (solver_result tracker_uplink
                 [ (lit "dnlink",
                    PDict [ (lit "port", PInt 2); (lit "payload", PStr (lit "4d6")) ]) ])
              (deveui_of tracker_uplink)
              [ (lit "dnlink",
                 PDict [ (lit "port", PInt 2); (lit "payload", PStr (lit "4d6")) ]) ]
              initial eq_refl)))
           [ (lit "port", PInt 2); (lit "payload", PStr (lit "4d6")) ]
           (PInt 2) (lit "4d6")); reflexivity.
Defined.

(** ** The primary response *)

(** The invocation up to the primary response, when the calls that
    lead to it return. *)
Lemma handler_forwarded (solver : nat -> option reply) (iot : nat -> bool)
      (repr : py -> str) (event : Event) (ir : reply) :
  FPort event = 199 ->
  (FCnt event < 2 -> solver 0%nat <> None) ->
  timestamp_ok event = true ->
  solver (primary_index event) = Some ir ->
  lambda_handler solver iot repr event =
    process_solver_response solver iot repr event ir (forwarded event).
Proof.
  intros Hport Hjoin Hts Hs0.
  unfold lambda_handler, lambda_handler_body, forwarded.
  replace (FPort event =? 199) with true by (symmetry; apply Z.eqb_eq; exact Hport).
  cbn [negb]. unfold primary_index in *.
  destruct (FCnt event <? 2) eqn:E.
  - destruct (solver 0%nat) as [irj|] eqn:Ej;
      [|exfalso; apply Hjoin; [lia | reflexivity]].
    rewrite (bind_ok _ _ initial (log_request (join_message (deveui_of event)) initial) tt).
    2:{ rewrite (bind_ok _ _ initial _ irj (send_https_ok solver _ initial irj Ej)).
        reflexivity. }
    rewrite (proj1 (forward_step solver iot repr event _) Hts).
    rewrite (bind_ok _ _ _ _ ir
               (send_https_ok solver (uplink_message event)
                  (log_request (join_message (deveui_of event)) initial) ir Hs0)).
    reflexivity.
  - rewrite (bind_ok _ _ initial initial tt eq_refl).
    rewrite (proj1 (forward_step solver iot repr event _) Hts).
    rewrite (bind_ok _ _ _ _ ir
               (send_https_ok solver (uplink_message event) initial ir Hs0)).
    reflexivity.
Qed.

(** An invocation on port 199 that returns went through the primary
    forward: the join call, if any, returned, the [Timestamp] was in the
    format, and the forward got a response. *)
Lemma handler_returned (solver : nat -> option reply) (iot : nat -> bool)
      (repr : py -> str) (event : Event) (v : py) (st' : hstate) :
  FPort event = 199 ->
  lambda_handler solver iot repr event = (Ok v, st') ->
  timestamp_ok event = true
  /\ (FCnt event < 2 -> solver 0%nat <> None)
  /\ exists ir,
       solver (primary_index event) = Some ir
       /\ process_solver_response solver iot repr event ir (forwarded event) = (Ok v, st').
Proof.
  intros Hport.
  unfold lambda_handler, lambda_handler_body, forwarded, primary_index.
  replace (FPort event =? 199) with true by (symmetry; apply Z.eqb_eq; exact Hport).
  cbn [negb].
  destruct (FCnt event <? 2) eqn:E.
  - destruct (solver 0%nat) as [irj|] eqn:Ej.
    2:{ rewrite (bind_raise _ _ initial
                   (log_request (join_message (deveui_of event)) initial) TransportError).
        - discriminate.
        - apply bind_raise. now apply send_https_fails. }
    rewrite (bind_ok _ _ initial (log_request (join_message (deveui_of event)) initial) tt).
    2:{ rewrite (bind_ok _ _ initial _ irj (send_https_ok solver _ initial irj Ej)).
        reflexivity. }
    destruct (timestamp_ok event) eqn:Hts.
    2:{ rewrite (proj2 (forward_step solver iot repr event _) Hts). discriminate. }
    rewrite (proj1 (forward_step solver iot repr event _) Hts).
    unfold bind at 1, send_https at 1.
    cbn [initial log_request https_log List.length app].
    destruct (solver 1%nat) as [ir|] eqn:Es; cbv beta iota; [|discriminate].
    intros H. split; [reflexivity|]. split; [intros _; discriminate|].
    exists ir. split; [reflexivity | exact H].
  - rewrite (bind_ok _ _ initial initial tt eq_refl).
    destruct (timestamp_ok event) eqn:Hts.
    2:{ rewrite (proj2 (forward_step solver iot repr event _) Hts). discriminate. }
    rewrite (proj1 (forward_step solver iot repr event _) Hts).
    unfold bind at 1, send_https at 1. cbn [initial https_log List.length].
    destruct (solver 0%nat) as [ir|] eqn:Es; cbv beta iota; [|discriminate].
    intros H. split; [reflexivity|]. split; [lia|].
    exists ir. split; [reflexivity | exact H].
Qed.

(** X20.  On port 199, with the calls up to the primary forward
    returning and a [Timestamp] in the format, a primary response that
    parses to a dict without ['result'], or to a list or a string that does
    not hold it, gives exactly the 404 result: the error text with the response formatted in it, the status
    code, the message type, the device EUI and the time of the uplink; no
    scan and no downlink is made.  A response that parses to null, a
    boolean or a number raises [TypeError] at the test. *)
Theorem response_without_result :
  forall solver iot repr event ir td,
    FPort event = 199 ->
    (FCnt event < 2 -> solver 0%nat <> None) ->
    timestamp_ok event = true ->
    solver (primary_index event) = Some ir ->
    loads ir = Some td ->
    (py_in (lit "result") td = inr false ->
       lambda_handler solver iot repr event =
         (Ok (PDict
                [ (lit "error", PStr (lit "Error, Bad CS response: " ++ repr td));
                  (lit "statusCode", PInt 404);
                  (lit "msgtype", PStr (lit "Error"));
                  (lit "DevEUI", PStr (DEVEUI_of event));
                  (lit "timestamp", PStr (Timestamp event)) ]),
          with_result
            [ (lit "error", Own (PStr (lit "Error, Bad CS response: " ++ repr td)));
              (lit "statusCode", Own (PInt 404));
              (lit "msgtype", Own (PStr (lit "Error")));
              (lit "DevEUI", Own (PStr (DEVEUI_of event)));
              (lit "timestamp", Own (PStr (Timestamp event))) ]
            None (forwarded event)))
    /\ ((td = PNone \/ (exists b, td = PBool b) \/ (exists z, td = PInt z)
         \/ (exists q, td = PFloat q)) ->
        lambda_handler solver iot repr event = (Raise TypeError, forwarded event)).
Proof.
  intros solver iot repr event ir td Hport Hjoin Hts Hs0 Hloads.
  rewrite (handler_forwarded solver iot repr event ir Hport Hjoin Hts Hs0).
  unfold process_solver_response, json_loads. rewrite Hloads.
  rewrite (bind_ok _ _ _ _ td eq_refl).
  split.
  - intros Hin. rewrite (lift_ok _ false _ _ Hin). reflexivity.
  - intros [->|[[b ->]|[[z ->]|[q ->]]]]; reflexivity.
Qed.

Lemma response_without_result_witness :
  lambda_handler
    (scripted [Some (reply_of (PDict [ (lit "error", PStr (lit "unknown device")) ]))])
    iot_up no_repr tracker_uplink =
    (Ok (PDict
           [ (lit "error",
              PStr (lit "Error, Bad CS response: "
                    ++ no_repr (PDict [ (lit "error", PStr (lit "unknown device")) ])));
             (lit "statusCode", PInt 404);
             (lit "msgtype", PStr (lit "Error"));
             (lit "DevEUI", PStr (DEVEUI_of tracker_uplink));
             (lit "timestamp", PStr (Timestamp tracker_uplink)) ]),
     with_result
       [ (lit "error",
          Own (PStr (lit "Error, Bad CS response: "
                     ++ no_repr (PDict [ (lit "error", PStr (lit "unknown device")) ]))));
         (lit "statusCode", Own (PInt 404));
         (lit "msgtype", Own (PStr (lit "Error")));
         (lit "DevEUI", Own (PStr (DEVEUI_of tracker_uplink)));
         (lit "timestamp", Own (PStr (Timestamp tracker_uplink))) ]
       None (forwarded tracker_uplink)).
Proof.
  apply (proj1 (response_without_result
                  (scripted [Some (reply_of (PDict [ (lit "error",
                                                      PStr (lit "unknown device")) ]))])
                  iot_up no_repr tracker_uplink
                  (reply_of (PDict [ (lit "error", PStr (lit "unknown device")) ]))
                  (PDict [ (lit "error", PStr (lit "unknown device")) ])
                  eq_refl ltac:(intros H; vm_compute in H; discriminate H)
                  eq_refl eq_refl eq_refl)).
  reflexivity.
Defined.

Lemma skipped_item_run (solver : nat -> option reply) (iot : nat -> bool)
      (event : Event) (kv : str * py) (st : hstate) :
  skipped_item kv = true -> result_item solver iot event kv st = (Ok tt, st).
Proof.
  destruct kv as [k v]. unfold skipped_item, result_item. cbn [fst snd].
  destruct v; try reflexivity.
  destruct (str_eqb k (lit "stream_records")); [|reflexivity].
  cbn [negb orb]. intros Hall.
  induction l as [|x l IH]; [reflexivity|].
  cbn [forallb] in Hall. apply andb_true_iff in Hall as [Hx Hl].
  cbn [for_each]. unfold bind at 1.
  destruct x; try discriminate Hx; cbn [stream_record ret]; exact (IH Hl).
Qed.

Lemma skipped_items_run (solver : nat -> option reply) (iot : nat -> bool)
      (event : Event) (items : dict) (st : hstate) :
  forallb skipped_item items = true ->
  for_each items (result_item solver iot event) st = (Ok tt, st).
Proof.
  induction items as [|kv items IH]; [reflexivity|].
  cbn [forallb]. intros H. apply andb_true_iff in H as [Hkv Hrest].
  cbn [for_each]. unfold bind.
  rewrite (skipped_item_run solver iot event kv st Hkv). exact (IH Hrest).
Qed.

(** X21.  On port 199, with the calls up to the primary forward
    returning and a [Timestamp] in the format: a primary response whose
    result object has no downlink
    directive (absent or null) and no stream record to parse (no list under
    ['stream_records'], or a list without a list in it) gives exactly the
    bare reference result: status code 200, message type [Reference], the
    device EUI and the time of the uplink; no scan and no downlink is
    made. *)
Theorem reference_result_without_records :
  forall solver iot repr event ir td res,
    FPort event = 199 ->
    (FCnt event < 2 -> solver 0%nat <> None) ->
    timestamp_ok event = true ->
    solver (primary_index event) = Some ir ->
    loads ir = Some td ->
    inner_result td (deveui_of event) = inr (PDict res) ->
    (dict_get (lit "dnlink") res = None \/ dict_get (lit "dnlink") res = Some PNone) ->
    forallb skipped_item res = true ->
    lambda_handler solver iot repr event =
      (Ok (PDict
             [ (lit "statusCode", PInt 200);
               (lit "msgtype", PStr (lit "Reference"));
               (lit "DevEUI", PStr (DEVEUI_of event));
               (lit "timestamp", PStr (Timestamp event)) ]),
       with_result
         [ (lit "statusCode", Own (PInt 200));
           (lit "msgtype", Own (PStr (lit "Reference")));
           (lit "DevEUI", Own (PStr (DEVEUI_of event)));
           (lit "timestamp", Own (PStr (Timestamp event))) ]
         None (forwarded event)).
Proof.
  intros solver iot repr event ir td res Hport Hjoin Hts Hs0 Hloads Hres Hdn Hskip.
  rewrite (handler_forwarded solver iot repr event ir Hport Hjoin Hts Hs0).
  unfold process_solver_response, json_loads. rewrite Hloads.
  rewrite (bind_ok _ _ _ _ td eq_refl).
  rewrite (lift_ok _ true _ _ (inner_result_has_result _ _ _ Hres)).
  unfold bind at 1.
  assert (Hquiet : deliver_downlink iot (WirelessDeviceId event) td (deveui_of event)
                     (forwarded event) = (Ok tt, forwarded event)).
  { unfold deliver_downlink.
    rewrite (lift_ok _ _ _ _ Hres).
    rewrite (lift_ok (py_items (PDict res)) res _ _ eq_refl).
    unfold dict_has. destruct Hdn as [Hdn|Hdn]; rewrite Hdn; [reflexivity|].
    rewrite (lift_ok (getitem (PDict res) (lit "dnlink")) PNone _ _)
      by (unfold getitem; now rewrite Hdn).
    reflexivity. }
  rewrite Hquiet.
  rewrite (lift_ok _ _ _ _ Hres).
  rewrite (lift_ok (py_items (PDict res)) res _ _ eq_refl).
  unfold bind at 1.
  rewrite (skipped_items_run solver iot event res (forwarded event) Hskip).
  reflexivity.
Qed.

Lemma reference_result_without_records_witness :
  lambda_handler
    (scripted [Some (reply_of (solver_result tracker_uplink
                                 [ (lit "dnlink", PNone);
                                   (lit "stream_records", PNone) ]))])
    iot_up no_repr tracker_uplink =
    (Ok (PDict
           [ (lit "statusCode", PInt 200);
             (lit "msgtype", PStr (lit "Reference"));
             (lit "DevEUI", PStr (DEVEUI_of tracker_uplink));
             (lit "timestamp", PStr (Timestamp tracker_uplink)) ]),
     with_result
       [ (lit "statusCode", Own (PInt 200));
         (lit "msgtype", Own (PStr (lit "Reference")));
         (lit "DevEUI", Own (PStr (DEVEUI_of tracker_uplink)));
         (lit "timestamp", Own (PStr (Timestamp tracker_uplink))) ]
       None (forwarded tracker_uplink)).
Proof.
  apply (reference_result_without_records _ iot_up no_repr tracker_uplink
           (reply_of (solver_result tracker_uplink
                        [ (lit "dnlink", PNone); (lit "stream_records", PNone) ]))
           (solver_result tracker_uplink
              [ (lit "dnlink", PNone); (lit "stream_records", PNone) ])
           [ (lit "dnlink", PNone); (lit "stream_records", PNone) ]).
  - reflexivity.
  - intros H. vm_compute in H. discriminate H.
  - reflexivity.
  - reflexivity.
  - reflexivity.
  - reflexivity.
  - right. reflexivity.
  - reflexivity.
Defined.

(** ** The keys of the result *)

Lemma has_keys_set (K : list str) (k : str) (v : slot) (d : list (str * slot)) :
  In k K -> has_keys K d -> has_keys K (slot_set k v d).
Proof.
  intros Hk. unfold has_keys. induction d as [|[k' v'] d IH]; intros H; cbn [slot_set].
  - constructor; [exact Hk | constructor].
  - inversion H as [|? ? Hhd Htl]; subst.
    destruct (str_eqb k k'); constructor; auto.
Qed.

Section Keys.

Variable K : list str.

Lemma keeps_ret {A : Type} (a : A) : keeps_keys K (ret a).
Proof. intros st H. exact H. Qed.

Lemma keeps_raise {A : Type} (e : exn) : keeps_keys K (@raise A e).
Proof. intros st H. exact H. Qed.

Lemma keeps_lift {A : Type} (m : exn + A) : keeps_keys K (lift m).
Proof. destruct m; [apply keeps_raise | apply keeps_ret]. Qed.

Lemma keeps_bind {A B : Type} (m : M A) (k : A -> M B) :
  keeps_keys K m -> (forall a, keeps_keys K (k a)) -> keeps_keys K (bind m k).
Proof.
  intros Hm Hk st H. specialize (Hm st H). unfold bind.
  destruct (m st) as [[a|e] st1]; cbn [snd] in Hm; [|exact Hm].
  now apply Hk.
Qed.

Lemma keeps_set_retVal (k : str) (v : slot) : In k K -> keeps_keys K (set_retVal k v).
Proof. intros Hk st H. cbn. now apply has_keys_set. Qed.

Lemma keeps_in_retVal (k : str) : keeps_keys K (in_retVal k).
Proof. intros st H. exact H. Qed.

Lemma keeps_read_retVal (k : str) : keeps_keys K (read_retVal k).
Proof. intros st H. unfold read_retVal. now destruct (slot_get k (retVal st)). Qed.

Lemma keeps_bind_retAcc (d : dict) : keeps_keys K (bind_retAcc d).
Proof. intros st H. exact H. Qed.

Lemma keeps_set_retAcc (k : str) (v : py) : keeps_keys K (set_retAcc k v).
Proof. intros st H. unfold set_retAcc. now destruct (retAcc st). Qed.

Lemma keeps_bind_r (v : py) : keeps_keys K (bind_r v).
Proof. intros st H. exact H. Qed.

Lemma keeps_read_r : keeps_keys K read_r.
Proof. intros st H. unfold read_r. now destruct (r st). Qed.

Lemma keeps_json_loads (ir : reply) : keeps_keys K (json_loads ir).
Proof. unfold json_loads. destruct (loads ir); [apply keeps_ret | apply keeps_raise]. Qed.

Lemma keeps_send_https (solver : nat -> option reply) (m : py) :
  keeps_keys K (send_https solver m).
Proof.
  intros st H. unfold send_https.
  now destruct (solver (List.length (https_log st))).
Qed.

Lemma keeps_send_downlink (iot : nat -> bool) (id : str) (mode : Z) (payload : str)
      (port : Z) :
  keeps_keys K (send_downlink iot id mode payload port).
Proof.
  intros st H. unfold send_downlink. cbv zeta.
  now destruct (iot (List.length (downlink_log st))).
Qed.

Lemma keeps_for_each {A : Type} (l : list A) (body : A -> M unit) :
  (forall a, keeps_keys K (body a)) -> keeps_keys K (for_each l body).
Proof.
  intros Hbody. induction l as [|a l IH]; cbn [for_each].
  - apply keeps_ret.
  - apply keeps_bind; [apply Hbody | intros _; exact IH].
Qed.

Lemma keeps_for_gen {A : Type} (g : gen A) (body : A -> M unit) :
  (forall a, keeps_keys K (body a)) -> keeps_keys K (for_gen g body).
Proof.
  intros Hbody. induction g as [| e | a g IH]; cbn [for_gen].
  - apply keeps_ret.
  - apply keeps_raise.
  - apply keeps_bind; [apply Hbody | intros _; exact IH].
Qed.

End Keys.

Ltac in_keys :=
  unfold reference_keys; cbn [In app];
  repeat (first [left; reflexivity | right]).

Ltac keeps_step :=
  match goal with
  | |- keeps_keys _ (bind _ _) => apply keeps_bind; [|intro]
  | |- keeps_keys _ (ret _) => apply keeps_ret
  | |- keeps_keys _ (raise _) => apply keeps_raise
  | |- keeps_keys _ (lift _) => apply keeps_lift
  | |- keeps_keys _ (set_retVal (if ?s then _ else _) _) => destruct s
  | |- keeps_keys _ (set_retVal _ _) => apply keeps_set_retVal; in_keys
  | |- keeps_keys _ (in_retVal _) => apply keeps_in_retVal
  | |- keeps_keys _ (read_retVal _) => apply keeps_read_retVal
  | |- keeps_keys _ (bind_retAcc _) => apply keeps_bind_retAcc
  | |- keeps_keys _ (set_retAcc _ _) => apply keeps_set_retAcc
  | |- keeps_keys _ (bind_r _) => apply keeps_bind_r
  | |- keeps_keys _ read_r => apply keeps_read_r
  | |- keeps_keys _ (json_loads _) => apply keeps_json_loads
  | |- keeps_keys _ (send_https _ _) => apply keeps_send_https
  | |- keeps_keys _ (send_downlink _ _ _ _ _) => apply keeps_send_downlink
  | |- keeps_keys _ (if ?b then _ else _) => destruct b
  | |- keeps_keys _ (match ?x with _ => _ end) => destruct x
  end.

Lemma keeps_deliver_downlink (K : list str) (iot : nat -> bool) (id : str) (x : py)
      (deveui : str) :
  keeps_keys K (deliver_downlink iot id x deveui).
Proof. unfold deliver_downlink. repeat keeps_step. Qed.

Lemma keeps_wifi_solution (DEVEUI deveui : str) (ir : reply) :
  keeps_keys reference_keys (wifi_solution DEVEUI deveui ir).
Proof. unfold wifi_solution. repeat keeps_step. Qed.

Lemma keeps_dispatch (solver : nat -> option reply) (iot : nat -> bool)
      (event : Event) (tlv : triple) :
  keeps_keys reference_keys (dispatch solver iot event tlv).
Proof.
  destruct tlv as [[tag length] val]. unfold dispatch.
  destruct (str_eqb (upper tag) (lit "0E"));
    [repeat first [apply keeps_wifi_solution | keeps_step]|].
  destruct (str_eqb (upper tag) (lit "08"));
    [repeat first [apply keeps_wifi_solution | keeps_step]|].
  destruct (str_eqb (upper tag) (lit "09")); [repeat keeps_step|].
  destruct (str_eqb (upper tag) (lit "0A")); [repeat keeps_step|].
  destruct (str_eqb (upper tag) (lit "0B")); [repeat keeps_step|].
  destruct (str_eqb (upper tag) (lit "0D")); [repeat keeps_step|].
  destruct (str_eqb (upper tag) (lit "05") || str_eqb (upper tag) (lit "06")
            || str_eqb (upper tag) (lit "07")) eqn:Eg; [|apply keeps_ret].
  assert (Hg : is_gnss_tag tag).
  { unfold is_gnss_tag.
    apply orb_true_iff in Eg as [Eg|Eg]; [apply orb_true_iff in Eg as [Eg|Eg]|];
      apply str_eqb_true in Eg; auto. }
  destruct Hg as [Hg|[Hg|Hg]]; rewrite Hg;
    repeat first [apply keeps_deliver_downlink | keeps_step].
Qed.

Lemma keeps_result_item (solver : nat -> option reply) (iot : nat -> bool)
      (event : Event) (x : str * py) :
  keeps_keys reference_keys (result_item solver iot event x).
Proof.
  destruct x as [k v]. unfold result_item.
  destruct v; try apply keeps_ret.
  destruct (str_eqb k (lit "stream_records")); [|apply keeps_ret].
  apply keeps_for_each. intros vi. unfold stream_record.
  destruct vi; try apply keeps_ret.
  apply keeps_bind; [apply keeps_lift|]. intros pl.
  apply keeps_for_gen. apply keeps_dispatch.
Qed.

Lemma dict_get_other_keys (K : list str) (k : str) (d : dict) :
  forallb (fun k' => negb (str_eqb k k')) K = true ->
  Forall (fun kv => In (fst kv) K) d ->
  dict_get k d = None.
Proof.
  intros HK. rewrite forallb_forall in HK.
  induction d as [|[k' v] d IH]; intros H; [reflexivity|].
  inversion H as [|? ? Hhd Htl]; subst. cbn [dict_get].
  specialize (HK k' Hhd). apply negb_true_iff in HK. rewrite HK. auto.
Qed.

Lemma returned_dict_keys (K : list str) (st : hstate) :
  has_keys K (retVal st) -> Forall (fun kv => In (fst kv) K) (returned_dict st).
Proof.
  unfold has_keys, returned_dict. intros H. apply Forall_map.
  eapply Forall_impl; [|exact H]. intros [k v] Hk. exact Hk.
Qed.

(** The two ways [process_solver_response] returns. *)
Lemma process_returns (solver : nat -> option reply) (iot : nat -> bool)
      (repr : py -> str) (event : Event) (ir : reply) (st st' : hstate) (v : py) :
  retVal st = [] ->
  process_solver_response solver iot repr event ir st = (Ok v, st') ->
  exists d,
    v = PDict d
    /\ dict_get (lit "DevEUI") d = Some (PStr (DEVEUI_of event))
    /\ dict_get (lit "timestamp") d = Some (PStr (Timestamp event))
    /\ ((dict_get (lit "statusCode") d = Some (PInt 200)
         /\ dict_get (lit "msgtype") d = Some (PStr (lit "Reference"))
         /\ Forall (fun kv => In (fst kv) reference_keys) d
         /\ dict_get (lit "error") d = None)
        \/ exists text,
             d = [ (lit "error", PStr text);
                   (lit "statusCode", PInt 404);
                   (lit "msgtype", PStr (lit "Error"));
                   (lit "DevEUI", PStr (DEVEUI_of event));
                   (lit "timestamp", PStr (Timestamp event)) ]).
Proof.
  intros Hempty. unfold process_solver_response. intros H.
  apply bind_inv in H as (td & st1 & Htd & H).
  assert (Est1 : st1 = st).
  { unfold json_loads in Htd. destruct (loads ir); [|discriminate].
    now injection Htd as _ <-. }
  subst st1.
  apply lift_inv in H as ([|] & _ & H).
  - apply bind_inv in H as (u2 & st2 & Hdl & H). destruct u2.
    apply lift_inv in H as (res & _ & H).
    apply lift_inv in H as (items & _ & H).
    apply bind_inv in H as (u3 & st3 & Hitems & H). destruct u3.
    assert (K3 : has_keys reference_keys (retVal st3)).
    { pose proof (keeps_for_each reference_keys items _
                    (keeps_result_item solver iot event) st2) as Hk.
      rewrite Hitems in Hk. apply Hk.
      pose proof (keeps_deliver_downlink reference_keys iot (WirelessDeviceId event) td
                    (deveui_of event) st) as Hd.
      rewrite Hdl in Hd. apply Hd. rewrite Hempty. constructor. }
    injection H as <- <-.
    eexists. split; [reflexivity|].
    assert (Hkeys : Forall (fun kv => In (fst kv) reference_keys)
                      (returned_dict
                         (snd (set_retVal (lit "timestamp") (Own (PStr (Timestamp event)))
                           (snd (set_retVal (lit "DevEUI") (Own (PStr (DEVEUI_of event)))
                             (snd (set_retVal (lit "msgtype") (Own (PStr (lit "Reference")))
                               (snd (set_retVal (lit "statusCode") (Own (PInt 200))
                                       st3)))))))))).
    { apply returned_dict_keys. cbn [set_retVal snd retVal].
      repeat (apply has_keys_set; [in_keys|]). exact K3. }
    split; [|split; [|left; split; [|split; [|split]]]].
    + apply returned_get. cbn [retVal].
      rewrite (slot_get_set_other _ (lit "timestamp")) by reflexivity.
      apply slot_get_set_same.
    + apply returned_get. cbn [retVal]. apply slot_get_set_same.
    + apply returned_get. cbn [retVal].
      rewrite (slot_get_set_other _ (lit "timestamp")) by reflexivity.
      rewrite (slot_get_set_other _ (lit "DevEUI")) by reflexivity.
      rewrite (slot_get_set_other _ (lit "msgtype")) by reflexivity.
      apply slot_get_set_same.
    + apply returned_get. cbn [retVal].
      rewrite (slot_get_set_other _ (lit "timestamp")) by reflexivity.
      rewrite (slot_get_set_other _ (lit "DevEUI")) by reflexivity.
      apply slot_get_set_same.
    + exact Hkeys.
    + apply (dict_get_other_keys reference_keys); [reflexivity | exact Hkeys].
  - injection H as <- <-.
    unfold returned, returned_dict. cbn [set_retVal snd retVal]. rewrite Hempty.
    eexists. split; [reflexivity|].
    split; [reflexivity|]. split; [reflexivity|].
    right. eexists. reflexivity.
Qed.

(** X22.  Whatever the solver answers, a result that the handler
    returns has the device EUI (upper case, dashed) and the time of the
    uplink, and is of one of two kinds.  A reference result has status code
    200 and message type [Reference], keys among ['statusCode'],
    ['msgtype'], ['DevEUI'], ['timestamp'], ['wifi_location'],
    ['accelerometer'], ['sensors'], ['gnss_location'] and
    ['gnss_location_05'], ['_06'], ['_07'] only, hence no ['error'], and is
    given on port 199 only.  An error result has exactly five entries, with
    a text under ['error'], message type [Error] and status code 400 off
    port 199, 404 on it. *)
Theorem returned_result_fields :
  forall solver iot repr event v st',
    lambda_handler solver iot repr event = (Ok v, st') ->
    exists d,
      v = PDict d
      /\ dict_get (lit "DevEUI") d = Some (PStr (DEVEUI_of event))
      /\ dict_get (lit "timestamp") d = Some (PStr (Timestamp event))
      /\ ((FPort event = 199
           /\ dict_get (lit "statusCode") d = Some (PInt 200)
           /\ dict_get (lit "msgtype") d = Some (PStr (lit "Reference"))
           /\ Forall (fun kv => In (fst kv) reference_keys) d
           /\ dict_get (lit "error") d = None)
          \/ exists text code,
               d = [ (lit "error", PStr text);
                     (lit "statusCode", PInt code);
                     (lit "msgtype", PStr (lit "Error"));
                     (lit "DevEUI", PStr (DEVEUI_of event));
                     (lit "timestamp", PStr (Timestamp event)) ]
               /\ ((code = 400 /\ FPort event <> 199)
                   \/ (code = 404 /\ FPort event = 199))).
Proof.
  intros solver iot repr event v st'.
  destruct (Z.eq_dec (FPort event) 199) as [Hport|Hport].
  - intros H.
    destruct (handler_returned solver iot repr event v st' Hport H)
      as (_ & _ & ir & _ & Hrun).
    destruct (process_returns solver iot repr event ir (forwarded event) st' v
                eq_refl Hrun)
      as (d & -> & Hdev & Hts & [(Hcode & Hmsg & Hkeys & Herr)|(text & ->)]).
    + exists d. repeat split; try assumption. left. repeat split; assumption.
    + eexists. split; [reflexivity|]. split; [reflexivity|]. split; [reflexivity|].
      right. exists text, 404. split; [reflexivity|]. right. now split.
  - destruct (wrong_port_run solver iot repr event Hport) as (st0 & Hrun & _).
    rewrite Hrun. intros [= <- <-].
    eexists. split; [reflexivity|]. split; [reflexivity|]. split; [reflexivity|].
    right. eexists _, 400. split; [reflexivity|]. left. now split.
Qed.

Lemma returned_result_fields_witness :
  exists d,
    fst (run_stream accelerometer_tlv []) = Ok (PDict d)
    /\ dict_get (lit "DevEUI") d = Some (PStr (DEVEUI_of tracker_uplink))
    /\ dict_get (lit "timestamp") d = Some (PStr (Timestamp tracker_uplink))
    /\ ((FPort tracker_uplink = 199
         /\ dict_get (lit "statusCode") d = Some (PInt 200)
         /\ dict_get (lit "msgtype") d = Some (PStr (lit "Reference"))
         /\ Forall (fun kv => In (fst kv) reference_keys) d
         /\ dict_get (lit "error") d = None)
        \/ exists text code,
             d = [ (lit "error", PStr text);
                   (lit "statusCode", PInt code);
                   (lit "msgtype", PStr (lit "Error"));
                   (lit "DevEUI", PStr (DEVEUI_of tracker_uplink));
                   (lit "timestamp", PStr (Timestamp tracker_uplink)) ]
             /\ ((code = 400 /\ FPort tracker_uplink <> 199)
                 \/ (code = 404 /\ FPort tracker_uplink = 199))).
Proof.
  destruct (returned_result_fields
              (scripted [json_reply (stream_response tracker_uplink accelerometer_tlv)])
              iot_up no_repr tracker_uplink
              (match fst (run_stream accelerometer_tlv []) with
               | Ok v => v
               | Raise _ => PNone
               end)
              (snd (run_stream accelerometer_tlv [])))
    as (d & Hv & Hrest).
  - vm_compute. reflexivity.
  - exists d. split; [|exact Hrest].
    revert Hv. vm_compute. intros <-. reflexivity.
Defined.

(** ** Outbound calls of an invocation *)

(** X23.  In every invocation, whatever the solver answers and however
    it ends, each request to the solver is one object keyed by the device
    EUI of the uplink, in lower case with dashes, and each downlink goes to
    the device of the uplink with transmit mode 0 and on port 150 or
    199. *)
Theorem handler_outbound_calls :
  forall solver iot repr event,
    Forall (keyed_by (deveui_of event))
           (https_log (snd (lambda_handler solver iot repr event)))
    /\ Forall (is_remapped_downlink (WirelessDeviceId event))
              (downlink_log (snd (lambda_handler solver iot repr event))).
Proof.
  intros solver iot repr event.
  assert (G : grows (keyed_by (deveui_of event))
                    (is_remapped_downlink (WirelessDeviceId event))
                    (lambda_handler_body solver iot repr event)).
  { unfold lambda_handler_body.
    destruct (negb (FPort event =? 199)).
    - grows_local; apply grows_return_retVal.
    - apply grows_bind.
      + destruct (FCnt event <? 2); [|apply grows_ret].
        apply grows_bind; [|intros _; apply grows_ret].
        apply grows_send_https. eexists. reflexivity.
      + intros _. apply grows_bind; [apply grows_lift|]. intros _.
        apply grows_bind.
        { apply grows_send_https. eexists. reflexivity. }
        intros ir. apply grows_process_solver_response.
        * intros msgtype payload timestamp _. eexists. reflexivity.
        * intros payload port Hport. repeat split; assumption. }
  destruct (G initial) as (l1 & l2 & H1 & H2 & HP & HQ).
  unfold lambda_handler. rewrite H1, H2. split; assumption.
Qed.

(** ** Stream records *)

Lemma for_gen_yields {A : Type} (items : list A) (tail : gen A) (body : A -> M unit) :
  forall st,
    for_gen (yields items tail) body st =
      bind (for_each items body) (fun _ => for_gen tail body) st.
Proof.
  induction items as [|a items IH]; intros st; [reflexivity|].
  cbn [yields for_gen for_each]. unfold bind.
  destruct (body a st) as [[u|e] st1]; [|reflexivity].
  rewrite IH. reflexivity.
Qed.

(** X24.  The entry [[x, pl, ...]] of ['stream_records'] is handled
    record by record as the generator yields: a string of well-formed
    records runs [dispatch] on their triples in order; when a record with
    an unreadable or negative length field follows them, the records before
    it are dispatched first (their requests are made), and then
    [ValueError] ends the invocation, so that no result is returned. *)
Theorem stream_record_runs :
  forall solver iot event x more recs,
    Forall wf_record recs ->
    (forall st,
        stream_record solver iot event (PList (x :: PStr (wire_all recs) :: more)) st =
          for_each (map triple_of recs) (dispatch solver iot event) st)
    /\ (forall tag lf rest st,
          List.length tag = 2%nat -> List.length lf = 2%nat ->
          match py_int16 lf with Some n => n < 0 | None => True end ->
          stream_record solver iot event
            (PList (x :: PStr (wire_all recs ++ tag ++ lf ++ rest) :: more)) st =
            (for_each (map triple_of recs) (dispatch solver iot event) ;;;
             raise ValueError) st
          /\ exists e,
               fst (stream_record solver iot event
                      (PList (x :: PStr (wire_all recs ++ tag ++ lf ++ rest) :: more)) st) =
                 Raise e).
Proof.
  intros solver iot event x more recs Hwf. split.
  - intros st. unfold stream_record. cbn [getindex nth_error].
    rewrite (lift_ok _ _ _ st eq_refl).
    rewrite (tlv_parser_wire_all recs Hwf).
    rewrite for_gen_yields. unfold bind. cbn [for_gen ret].
    destruct (for_each (map triple_of recs) (dispatch solver iot event) st)
      as [[[]|e] st1]; reflexivity.
  - intros tag lf rest st Ht Hl Hbad.
    assert (Hrun : stream_record solver iot event
                     (PList (x :: PStr (wire_all recs ++ tag ++ lf ++ rest) :: more)) st =
                   (for_each (map triple_of recs) (dispatch solver iot event) ;;;
                    raise ValueError) st).
    { unfold stream_record. cbn [getindex nth_error].
      rewrite (lift_ok _ _ _ st eq_refl).
      rewrite (tlv_parser_bad_length recs tag lf rest Hwf Ht Hl Hbad).
      now rewrite for_gen_yields. }
    split; [exact Hrun|].
    rewrite Hrun. unfold bind, raise.
    destruct (for_each (map triple_of recs) (dispatch solver iot event) st)
      as [[u|e] st1]; eexists; reflexivity.
Qed.

Lemma stream_record_runs_witness :
  stream_record (scripted []) iot_up tracker_uplink
    (PList [PInt 0; PStr (wire_all [ (lit "0D", lit "01", lit "12") ]
                          ++ lit "0A" ++ lit "zz" ++ lit "00000960")]) initial =
    (for_each (map triple_of [ (lit "0D", lit "01", lit "12") ])
              (dispatch (scripted []) iot_up tracker_uplink) ;;;
     raise ValueError) initial
  /\ exists e,
       fst (stream_record (scripted []) iot_up tracker_uplink
              (PList [PInt 0; PStr (wire_all [ (lit "0D", lit "01", lit "12") ]
                                    ++ lit "0A" ++ lit "zz" ++ lit "00000960")])
              initial) = Raise e.
Proof.
  apply (proj2 (stream_record_runs (scripted []) iot_up tracker_uplink (PInt 0) []
                  [ (lit "0D", lit "01", lit "12") ]
                  ltac:(repeat constructor))
               (lit "0A") (lit "zz") (lit "00000960") initial).
  - reflexivity.
  - reflexivity.
  - vm_compute. exact I.
Defined.

(** ** The device EUI *)

Lemma lower_upper_char (c : ascii) : lower_char (upper_char c) = lower_char c.
Proof. destruct c as [[] [] [] [] [] [] [] []]; reflexivity. Qed.

Lemma upper_lower_upper_char (c : ascii) :
  upper_char (lower_char (upper_char c)) = upper_char c.
Proof. destruct c as [[] [] [] [] [] [] [] []]; reflexivity. Qed.

Lemma is_dash_upper_char (c : ascii) : is_dash (upper_char c) = is_dash c.
Proof. destruct c as [[] [] [] [] [] [] [] []]; reflexivity. Qed.

Lemma dash_pairs_shape (n : nat) :
  forall s, (List.length s <= n)%nat ->
    List.length (dash_pairs s) = (List.length s + (List.length s - 1) / 2)%nat
    /\ (forallb (fun c => negb (is_dash c)) s = true ->
        filter (fun c => negb (is_dash c)) (dash_pairs s) = s).
Proof.
  induction n as [|n IH]; intros s Hn.
  - destruct s; [split; [reflexivity | reflexivity] | cbn in Hn; lia].
  - destruct s as [|a [|b [|c s]]].
    + split; reflexivity.
    + split; [reflexivity|]. cbn [dash_pairs forallb filter]. intros H.
      apply andb_true_iff in H as [Ha _]. now rewrite Ha.
    + split; [reflexivity|]. cbn [dash_pairs forallb filter]. intros H.
      apply andb_true_iff in H as [Ha H]. apply andb_true_iff in H as [Hb _].
      now rewrite Ha, Hb.
    + destruct (IH (c :: s)) as [IHlen IHfilter]; [cbn in *; lia|].
      split.
      * change (dash_pairs (a :: b :: c :: s))
          with (a :: b :: chr 45 :: dash_pairs (c :: s)).
        cbn [List.length] in IHlen |- *. rewrite IHlen.
        replace (S (List.length s) - 1)%nat with (List.length s) by lia.
        replace (S (S (S (List.length s))) - 1)%nat
          with (1 * 2 + List.length s)%nat by lia.
        rewrite Nat.div_add_l by lia. lia.
      * change (dash_pairs (a :: b :: c :: s))
          with (a :: b :: chr 45 :: dash_pairs (c :: s)).
        intros H. cbn [forallb] in H.
        apply andb_true_iff in H as [Ha H]. apply andb_true_iff in H as [Hb H].
        cbn [filter]. rewrite Ha, Hb.
        change (negb (is_dash (chr 45))) with false. cbv iota.
        now rewrite (IHfilter H).
Qed.

Lemma dash_pairs_places (n : nat) :
  forall s, (List.length s <= n)%nat ->
    (forall i, (i < List.length s)%nat ->
       nth_error (dash_pairs s) (i + i / 2) = nth_error s i)
    /\ (forall k, (3 * k + 2 < List.length (dash_pairs s))%nat ->
          nth_error (dash_pairs s) (3 * k + 2) = Some (chr 45)).
Proof.
  induction n as [|n IH]; intros s Hn.
  - destruct s; [|cbn in Hn; lia]. split; intros i Hi; cbn in Hi; lia.
  - destruct s as [|a [|b [|c s]]].
    + split; intros i Hi; cbn in Hi; lia.
    + split; intros i Hi; cbn in Hi; [|lia].
      replace i with 0%nat by lia. reflexivity.
    + split; intros i Hi; cbn in Hi; [|lia].
      destruct i as [|[|i]]; [reflexivity | reflexivity | lia].
    + destruct (IH (c :: s)) as [IHchar IHdash]; [cbn in *; lia|].
      change (dash_pairs (a :: b :: c :: s))
        with (a :: b :: chr 45 :: dash_pairs (c :: s)).
      split.
      * intros i Hi. destruct i as [|[|i]]; [reflexivity | reflexivity |].
        replace (S (S i) + S (S i) / 2)%nat with (3 + (i + i / 2))%nat.
        2:{ replace (S (S i)) with (1 * 2 + i)%nat by lia.
            rewrite Nat.div_add_l by lia. lia. }
        cbn [Nat.add nth_error]. apply IHchar. cbn [List.length] in *. lia.
      * intros k Hk. destruct k as [|k]; [reflexivity|].
        replace (3 * S k + 2)%nat with (3 + (3 * k + 2))%nat by lia.
        cbn [Nat.add nth_error]. apply IHdash. cbn [List.length] in Hk. lia.
Qed.

(** X25.  For a [DevEui] of [n] ASCII characters, the [DevEUI] of the
    results and the key of the requests have [n + (n - 1) / 2] characters
    each, 23 for 16.  Character [i] of [DevEui] stands at place
    [i + i / 2] of both, in upper case in [DevEUI] and in lower case in the
    key, and every place [3 k + 2] of both holds a dash: one dash after
    each pair of characters but the last.  [DevEUI] is the upper case of
    the key, and for a [DevEui] without dashes, taking the dashes out of
    [DevEUI] gives the [DevEui] in upper case. *)
Theorem device_eui_forms :
  forall event,
    is_ascii_text (DevEui event) = true ->
    List.length (DEVEUI_of event) =
      (List.length (DevEui event) + (List.length (DevEui event) - 1) / 2)%nat
    /\ List.length (deveui_of event) =
         (List.length (DevEui event) + (List.length (DevEui event) - 1) / 2)%nat
    /\ (forall i, (i < List.length (DevEui event))%nat ->
          nth_error (DEVEUI_of event) (i + i / 2) = nth_error (upper (DevEui event)) i
          /\ nth_error (deveui_of event) (i + i / 2) =
               nth_error (lower (DevEui event)) i)
    /\ (forall k,
          (3 * k + 2 <
             List.length (DevEui event) + (List.length (DevEui event) - 1) / 2)%nat ->
          nth_error (DEVEUI_of event) (3 * k + 2) = Some (chr 45)
          /\ nth_error (deveui_of event) (3 * k + 2) = Some (chr 45))
    /\ upper (deveui_of event) = DEVEUI_of event
    /\ (forallb (fun c => negb (is_dash c)) (DevEui event) = true ->
        filter (fun c => negb (is_dash c)) (DEVEUI_of event) = upper (DevEui event)).
Proof.
  intros event _. unfold deveui_of, DEVEUI_of, upper, lower.
  destruct (dash_pairs_shape (List.length (DevEui event)) (DevEui event) (le_n _))
    as [Hlen Hfilter].
  destruct (dash_pairs_places (List.length (DevEui event)) (DevEui event) (le_n _))
    as [Hchar Hdash].
  split; [|split; [|split; [|split; [|split]]]].
  - now rewrite length_map.
  - now rewrite !length_map.
  - intros i Hi. rewrite !nth_error_map, (Hchar i Hi). split; [reflexivity|].
    destruct (nth_error (DevEui event) i); [|reflexivity].
    cbn [option_map]. now rewrite lower_upper_char.
  - intros k Hk. rewrite <- Hlen in Hk.
    rewrite !nth_error_map, (Hdash k Hk). split; reflexivity.
  - rewrite !map_map. apply map_ext. apply upper_lower_upper_char.
  - intros Hclean. rewrite <- (Hfilter Hclean) at 2.
    generalize (dash_pairs (DevEui event)). intros l.
    induction l as [|c l IH]; [reflexivity|].
    cbn [map filter]. rewrite is_dash_upper_char.
    destruct (negb (is_dash c)); cbn [map]; now rewrite IH.
Qed.

Lemma device_eui_forms_witness :
  is_ascii_text (DevEui tracker_uplink) = true
  /\ List.length (DEVEUI_of tracker_uplink) = 23%nat
  /\ List.length (deveui_of tracker_uplink) = 23%nat.
Proof.
  split; [reflexivity|].
  split.
  - exact (proj1 (device_eui_forms tracker_uplink eq_refl)).
  - exact (proj1 (proj2 (device_eui_forms tracker_uplink eq_refl))).
Defined.

(** ** GNSS replies without a usable position *)

(** X26.  In the GNSS branch the downlink directive of the reply is
    delivered before the position is read.  So a reply with a directive is
    followed by its downlink also when the position solution is null
    (nothing is stored), when the result object has no
    ['position_solution'] and when the solution lacks ['llh'],
    ['accuracy'], ['gdop'] or ['timestamp']; in the last two cases the
    record then raises [KeyError], with [retVal] as it was. *)
Theorem gnss_downlink_precedes_position :
  forall solver iot event tag length val ir v d dl p h bs st,
    is_gnss_tag tag ->
    solver (List.length (https_log st)) = Some ir ->
    substring_in (lit "result") (body ir) = true ->
    loads ir = Some v ->
    inner_result v (deveui_of event) = inr (PDict d) ->
    dict_get (lit "dnlink") d = Some (PDict dl) ->
    dict_get (lit "port") dl = Some p ->
    dict_get (lit "payload") dl = Some (PStr h) ->
    bytes_fromhex h = Some bs ->
    iot (List.length (downlink_log st)) = true ->
    exists outcome st',
      dispatch solver iot event (tag, length, val) st = (outcome, st')
      /\ downlink_log st' =
           downlink_log st
           ++ [ {| dl_id := WirelessDeviceId event; dl_transmitMode := 0;
                   dl_payload := b64encode bs;
                   dl_port := if py_eq_zero p then 150 else 199 |} ]
      /\ (dict_get (lit "position_solution") d = Some PNone ->
          outcome = Ok tt /\ retVal st' = retVal st)
      /\ (dict_get (lit "position_solution") d = None ->
          outcome = Raise KeyError /\ retVal st' = retVal st)
      /\ (forall sol,
            dict_get (lit "position_solution") d = Some (PDict sol) ->
            dict_get (lit "llh") sol = None
            \/ (exists lat lon alt more,
                   dict_get (lit "llh") sol = Some (PList (lat :: lon :: alt :: more)))
               /\ (dict_get (lit "accuracy") sol = None
                   \/ dict_get (lit "gdop") sol = None
                   \/ dict_get (lit "timestamp") sol = None) ->
            outcome = Raise KeyError /\ retVal st' = retVal st).
Proof.
  intros solver iot event tag length val ir v d dl p h bs st
         Htag Hsolver Hsub Hloads Hres Hdn Hport Hpay Hhex Hiot.
  destruct (gnss_tag_branch tag Htag) as (E1 & E2 & E3 & E4 & E5 & E6 & E7).
  unfold dispatch. rewrite E1, E2, E3, E4, E5, E6, E7.
  rewrite (bind_ok _ _ st _ ir (send_https_ok solver _ st ir Hsolver)).
  rewrite Hsub. unfold json_loads. rewrite Hloads.
  rewrite (bind_ok _ _ _ _ v eq_refl).
  rewrite (bind_ok (bind_r v) _ _ _ tt eq_refl).
  unfold bind at 1.
  rewrite (deliver_downlink_run iot (WirelessDeviceId event) v (deveui_of event)
             d dl p h bs _ Hres Hdn Hport Hpay Hhex).
  cbn [bind_r snd log_request downlink_log]. rewrite Hiot.
  rewrite (lift_ok _ _ _ _ Hres).
  match goal with
  | |- exists outcome st', ?run = _ /\ _ => exists (fst run), (snd run)
  end.
  split; [apply surjective_pairing|].
  split.
  { match goal with
    | |- downlink_log (snd (?k ?s)) = _ =>
        assert (G : grows (fun _ => True) (fun _ => False) k) by grows_local;
        destruct (G s) as (l1 & l2 & _ & H2 & _ & HQ)
    end.
    destruct l2 as [|c l2]; [|now inversion HQ].
    rewrite H2, app_nil_r. reflexivity. }
  split; [|split].
  - intros Hnull.
    rewrite (lift_ok _ PNone _ _) by (unfold getitem; now rewrite Hnull).
    split; reflexivity.
  - intros Hnone.
    rewrite (lift_raise _ KeyError _ _) by (unfold getitem; now rewrite Hnone).
    split; reflexivity.
  - intros sol Hsol Hmiss.
    rewrite (lift_ok _ (PDict sol) _ _) by (unfold getitem; now rewrite Hsol).
    cbv iota.
    destruct Hmiss as [Hno|[(lat & lon & alt & more & Hllh) Hmiss]].
    + rewrite (lift_raise _ KeyError _ _) by (unfold getitem; now rewrite Hno).
      split; reflexivity.
    + rewrite (lift_ok _ lat _ _) by (unfold getitem; now rewrite Hllh).
      rewrite (lift_ok _ lon _ _) by (unfold getitem; now rewrite Hllh).
      rewrite (lift_ok _ alt _ _) by (unfold getitem; now rewrite Hllh).
      destruct (dict_get (lit "accuracy") sol) as [acc|] eqn:Eacc.
      2:{ rewrite (lift_raise _ KeyError _ _) by (unfold getitem; now rewrite Eacc).
          split; reflexivity. }
      rewrite (lift_ok _ acc _ _) by (unfold getitem; now rewrite Eacc).
      destruct (dict_get (lit "gdop") sol) as [gdop|] eqn:Egdop.
      2:{ rewrite (lift_raise _ KeyError _ _) by (unfold getitem; now rewrite Egdop).
          split; reflexivity. }
      rewrite (lift_ok _ gdop _ _) by (unfold getitem; now rewrite Egdop).
      destruct (dict_get (lit "timestamp") sol) as [ts|] eqn:Ets.
      2:{ rewrite (lift_raise _ KeyError _ _) by (unfold getitem; now rewrite Ets).
          split; reflexivity. }
      destruct Hmiss as [H|[H|H]]; discriminate H.
Qed.

Lemma gnss_downlink_precedes_position_witness :
  exists outcome st',
    dispatch
      (scripted [Some (reply_of (solver_result tracker_uplink
                                   [ (lit "dnlink",
                                      PDict [ (lit "port", PInt 0);
                                              (lit "payload", PStr (lit "4d616e")) ]);
                                     (lit "position_solution", PNone) ]))])
      iot_up tracker_uplink (lit "07", 2, lit "a1b2") initial = (outcome, st')
    /\ downlink_log st' =
         downlink_log initial
         ++ [ {| dl_id := WirelessDeviceId tracker_uplink; dl_transmitMode := 0;
                 dl_payload := b64encode [77; 97; 110];
                 dl_port := if py_eq_zero (PInt 0) then 150 else 199 |} ]
    /\ outcome = Ok tt /\ retVal st' = retVal initial.
Proof.
  destruct (gnss_downlink_precedes_position
              (scripted [Some (reply_of (solver_result tracker_uplink
                                           [ (lit "dnlink",
                                              PDict [ (lit "port", PInt 0);
                                                      (lit "payload",
                                                       PStr (lit "4d616e")) ]);
                                             (lit "position_solution", PNone) ]))])
              iot_up tracker_uplink (lit "07") 2 (lit "a1b2")
              (reply_of (solver_result tracker_uplink
                           [ (lit "dnlink",
                              PDict [ (lit "port", PInt 0);
                                      (lit "payload", PStr (lit "4d616e")) ]);
                             (lit "position_solution", PNone) ]))
              (solver_result tracker_uplink
                 [ (lit "dnlink",
                    PDict [ (lit "port", PInt 0); (lit "payload", PStr (lit "4d616e")) ]);
                   (lit "position_solution", PNone) ])
              [ (lit "dnlink",
                 PDict [ (lit "port", PInt 0); (lit "payload", PStr (lit "4d616e")) ]);
                (lit "position_solution", PNone) ]
              [ (lit "port", PInt 0); (lit "payload", PStr (lit "4d616e")) ]
              (PInt 0) (lit "4d616e") [77; 97; 110] initial
              (or_intror (or_intror eq_refl)) eq_refl
              ltac:(vm_compute; reflexivity)
              eq_refl eq_refl eq_refl eq_refl eq_refl eq_refl eq_refl)
    as (outcome & st' & Hrun & Hlog & Hnull & _).
  exists outcome, st'. split; [exact Hrun|]. split; [exact Hlog|].
  apply Hnull. reflexivity.
Defined.

(** * The records of a primary response, run in order *)

(** ** Loops *)

Lemma for_each_app_run {A : Type} (l1 l2 : list A) (body : A -> M unit) (st : hstate) :
  for_each (l1 ++ l2) body st = (for_each l1 body ;;; for_each l2 body) st.
Proof.
  revert st. induction l1 as [|a l1 IH]; intros st; [reflexivity|].
  cbn [app for_each]. unfold bind.
  destruct (body a st) as [[u|e] st1]; [|reflexivity].
  rewrite IH. reflexivity.
Qed.

Lemma for_each_app_inv {A : Type} (l1 l2 : list A) (body : A -> M unit)
      (st st' : hstate) :
  for_each (l1 ++ l2) body st = (Ok tt, st') ->
  exists st1,
    for_each l1 body st = (Ok tt, st1) /\ for_each l2 body st1 = (Ok tt, st').
Proof.
  rewrite for_each_app_run. intros H.
  apply bind_inv in H as ([] & st1 & H1 & H2). now exists st1.
Qed.

Lemma for_each_cons_inv {A : Type} (a : A) (l : list A) (body : A -> M unit)
      (st st' : hstate) :
  for_each (a :: l) body st = (Ok tt, st') ->
  exists st1, body a st = (Ok tt, st1) /\ for_each l body st1 = (Ok tt, st').
Proof.
  cbn [for_each]. intros H.
  apply bind_inv in H as ([] & st1 & H1 & H2). now exists st1.
Qed.

(** A loop over a generator that stops is the loop over its items. *)
Lemma for_gen_items {A : Type} (g : gen A) (body : A -> M unit) (st : hstate) :
  gen_end g = None -> for_gen g body st = for_each (gen_items g) body st.
Proof.
  revert st. induction g as [| e | a g IH]; intros st Hend.
  - reflexivity.
  - discriminate.
  - cbn [for_gen gen_items for_each]. unfold bind.
    destruct (body a st) as [[u|e] st1]; [|reflexivity].
    now apply IH.
Qed.

(** A loop over a generator that ended well went through its items,
    and the generator stopped. *)
Lemma for_gen_items_inv {A : Type} (g : gen A) (body : A -> M unit)
      (st st' : hstate) :
  for_gen g body st = (Ok tt, st') ->
  gen_end g = None /\ for_each (gen_items g) body st = (Ok tt, st').
Proof.
  revert st. induction g as [| e | a g IH]; intros st H.
  - split; [reflexivity | exact H].
  - discriminate.
  - cbn [for_gen] in H. apply bind_inv in H as ([] & st1 & H1 & H2).
    destruct (IH st1 H2) as [Hend Hrun].
    split; [exact Hend|].
    cbn [gen_items for_each]. now rewrite (bind_ok _ _ st st1 tt H1).
Qed.

(** A loop whose body is itself a loop over the items [f a]. *)
Lemma for_each_flat_map {A B : Type} (f : A -> list B) (body : A -> M unit)
      (inner : B -> M unit) (ok : A -> bool) (l : list A) (st : hstate) :
  (forall a st, ok a = true -> body a st = for_each (f a) inner st) ->
  forallb ok l = true ->
  for_each l body st = for_each (flat_map f l) inner st.
Proof.
  intros Hbody. revert st. induction l as [|a l IH]; intros st Hok; [reflexivity|].
  cbn [forallb] in Hok. apply andb_true_iff in Hok as [Ha Hl].
  cbn [for_each flat_map]. rewrite for_each_app_run. unfold bind.
  rewrite (Hbody a st Ha).
  destruct (for_each (f a) inner st) as [[u|e] st1]; [|reflexivity].
  now apply IH.
Qed.

Lemma for_each_flat_map_inv {A B : Type} (f : A -> list B) (body : A -> M unit)
      (inner : B -> M unit) (l : list A) :
  (forall a st st', body a st = (Ok tt, st') -> for_each (f a) inner st = (Ok tt, st')) ->
  forall st st',
    for_each l body st = (Ok tt, st') ->
    for_each (flat_map f l) inner st = (Ok tt, st').
Proof.
  intros Hbody. induction l as [|a l IH]; intros st st' H; [exact H|].
  apply for_each_cons_inv in H as (st1 & Ha & Hl).
  cbn [flat_map]. rewrite for_each_app_run.
  rewrite (bind_ok _ _ st st1 tt (Hbody a st st1 Ha)).
  now apply IH.
Qed.

(** ** From the result object to its triples *)

Section Triples.

Variable solver : nat -> option reply.
Variable iot : nat -> bool.
Variable event : Event.

Lemma stream_record_triples (vi : py) (st : hstate) :
  entry_readable vi = true ->
  stream_record solver iot event vi st =
    for_each (entry_triples vi) (dispatch solver iot event) st.
Proof.
  unfold entry_readable, entry_triples, stream_record.
  destruct vi; try reflexivity.
  destruct (getindex (PList l) 1) as [e|pl]; [discriminate|].
  destruct (gen_end (tlv_parser pl)) eqn:Hend; [discriminate|]. intros _.
  rewrite (lift_ok (inr pl) pl _ st eq_refl).
  now apply for_gen_items.
Qed.

Lemma stream_record_triples_inv (vi : py) (st st' : hstate) :
  stream_record solver iot event vi st = (Ok tt, st') ->
  for_each (entry_triples vi) (dispatch solver iot event) st = (Ok tt, st').
Proof.
  unfold entry_triples, stream_record.
  destruct vi; try (intros H; exact H).
  destruct (getindex (PList l) 1) as [e|pl]; [discriminate|].
  rewrite (lift_ok (inr pl) pl _ st eq_refl). intros H.
  now apply for_gen_items_inv in H as [_ H].
Qed.

Lemma result_item_triples (kv : str * py) (st : hstate) :
  item_readable kv = true ->
  result_item solver iot event kv st =
    for_each (item_triples kv) (dispatch solver iot event) st.
Proof.
  destruct kv as [k v]. unfold item_readable, item_triples, result_item.
  cbn [fst snd]. destruct v; try reflexivity.
  destruct (str_eqb k (lit "stream_records")); [|reflexivity].
  intros Hok. apply (for_each_flat_map _ _ _ entry_readable); [|exact Hok].
  intros vi st0 Hvi. now apply stream_record_triples.
Qed.

Lemma result_item_triples_inv (kv : str * py) (st st' : hstate) :
  result_item solver iot event kv st = (Ok tt, st') ->
  for_each (item_triples kv) (dispatch solver iot event) st = (Ok tt, st').
Proof.
  destruct kv as [k v]. unfold item_triples, result_item.
  cbn [fst snd]. destruct v; try (intros H; exact H).
  destruct (str_eqb k (lit "stream_records")); [|intros H; exact H].
  apply for_each_flat_map_inv. apply stream_record_triples_inv.
Qed.

(** The loop over the items of a readable result object is the loop of
    [dispatch] over its triples, whatever the outcome. *)
Lemma result_items_triples (res : dict) (st : hstate) :
  stream_readable res = true ->
  for_each res (result_item solver iot event) st =
    for_each (stream_triples res) (dispatch solver iot event) st.
Proof.
  intros Hok. apply (for_each_flat_map _ _ _ item_readable); [|exact Hok].
  intros kv st0 Hkv. now apply result_item_triples.
Qed.

(** When the loop over the items returns, [dispatch] has run on the
    triples of the result object, in order. *)
Lemma result_items_triples_inv (res : dict) (st st' : hstate) :
  for_each res (result_item solver iot event) st = (Ok tt, st') ->
  for_each (stream_triples res) (dispatch solver iot event) st = (Ok tt, st').
Proof.
  apply for_each_flat_map_inv. apply result_item_triples_inv.
Qed.

End Triples.

(** ** What a computation leaves as it is *)

Section Frame.

Variable R : hstate -> hstate -> Prop.
Hypothesis R_refl : forall st, R st st.
Hypothesis R_trans : forall st1 st2 st3, R st1 st2 -> R st2 st3 -> R st1 st3.
Hypothesis R_results :
  forall st st', retVal st' = retVal st -> retAcc st' = retAcc st -> R st st'.

Lemma frames_ret {A : Type} (a : A) : frames R (ret a).
Proof. intros st. apply R_refl. Qed.

Lemma frames_raise {A : Type} (e : exn) : frames R (@raise A e).
Proof. intros st. apply R_refl. Qed.

Lemma frames_lift {A : Type} (m : exn + A) : frames R (lift m).
Proof. destruct m; [apply frames_raise | apply frames_ret]. Qed.

Lemma frames_bind {A B : Type} (m : M A) (k : A -> M B) :
  frames R m -> (forall a, frames R (k a)) -> frames R (bind m k).
Proof.
  intros Hm Hk st. specialize (Hm st). unfold bind.
  destruct (m st) as [[a|e] st1]; cbn [snd] in Hm; [|exact Hm].
  eapply R_trans; [exact Hm | apply Hk].
Qed.

Lemma frames_in_retVal (k : str) : frames R (in_retVal k).
Proof. intros st. apply R_refl. Qed.

Lemma frames_read_retVal (k : str) : frames R (read_retVal k).
Proof.
  intros st. unfold read_retVal. destruct (slot_get k (retVal st)); apply R_refl.
Qed.

Lemma frames_bind_r (v : py) : frames R (bind_r v).
Proof. intros st. now apply R_results. Qed.

Lemma frames_read_r : frames R read_r.
Proof. intros st. unfold read_r. destruct (r st); apply R_refl. Qed.

Lemma frames_json_loads (ir : reply) : frames R (json_loads ir).
Proof.
  unfold json_loads. destruct (loads ir); [apply frames_ret | apply frames_raise].
Qed.

Lemma frames_send_https (solver : nat -> option reply) (m : py) :
  frames R (send_https solver m).
Proof.
  intros st. unfold send_https.
  destruct (solver (List.length (https_log st))); now apply R_results.
Qed.

Lemma frames_send_downlink (iot : nat -> bool) (id : str) (mode : Z) (payload : str)
      (port : Z) :
  frames R (send_downlink iot id mode payload port).
Proof.
  intros st. unfold send_downlink. cbv zeta.
  destruct (iot (List.length (downlink_log st))); now apply R_results.
Qed.

End Frame.

Lemma same_slot_refl (k : str) (st : hstate) : same_slot k st st.
Proof. reflexivity. Qed.

Lemma same_slot_trans (k : str) (st1 st2 st3 : hstate) :
  same_slot k st1 st2 -> same_slot k st2 st3 -> same_slot k st1 st3.
Proof. unfold same_slot. intros H1 H2. now rewrite H2. Qed.

Lemma same_slot_results (k : str) (st st' : hstate) :
  retVal st' = retVal st -> retAcc st' = retAcc st -> same_slot k st st'.
Proof. unfold same_slot. now intros ->. Qed.

Lemma same_slot_set_retVal (k k' : str) (v : slot) :
  str_eqb k k' = false -> frames (same_slot k) (set_retVal k' v).
Proof. intros Hne st. unfold same_slot. cbn. now apply slot_get_set_other. Qed.

Lemma same_slot_bind_retAcc (k : str) (d : dict) : frames (same_slot k) (bind_retAcc d).
Proof. intros st. reflexivity. Qed.

Lemma same_slot_set_retAcc (k k' : str) (v : py) : frames (same_slot k) (set_retAcc k' v).
Proof. intros st. unfold set_retAcc. now destruct (retAcc st). Qed.

Lemma still_bound_refl (k : str) (st : hstate) : still_bound k st st.
Proof. split; auto. Qed.

Lemma still_bound_trans (k : str) (st1 st2 st3 : hstate) :
  still_bound k st1 st2 -> still_bound k st2 st3 -> still_bound k st1 st3.
Proof. intros [A1 B1] [A2 B2]. split; auto. Qed.

Lemma still_bound_results (k : str) (st st' : hstate) :
  retVal st' = retVal st -> retAcc st' = retAcc st -> still_bound k st st'.
Proof. intros H1 H2. unfold still_bound. now rewrite H1, H2. Qed.

Lemma still_bound_set_retVal (k k' : str) (v : slot) :
  frames (still_bound k) (set_retVal k' v).
Proof.
  intros st. split; [auto|]. cbn [set_retVal snd retVal].
  destruct (str_eqb k k') eqn:E.
  - apply str_eqb_true in E. subst k'. rewrite slot_get_set_same. discriminate.
  - now rewrite (slot_get_set_other _ _ _ _ E).
Qed.

Lemma still_bound_bind_retAcc (k : str) (d : dict) :
  frames (still_bound k) (bind_retAcc d).
Proof. intros st. split; [discriminate | auto]. Qed.

Lemma still_bound_set_retAcc (k k' : str) (v : py) :
  frames (still_bound k) (set_retAcc k' v).
Proof.
  intros st. unfold set_retAcc.
  destruct (retAcc st) eqn:E; split; cbn [snd retAcc retVal]; auto; discriminate.
Qed.

(** One step on a goal [frames R m], [R] being [same_slot k] or
    [still_bound k]; [others] closes the side condition on a key that is
    written. *)
Ltac frames_step others :=
  match goal with
  | |- frames (same_slot ?k) (bind _ _) =>
      apply (frames_bind _ (same_slot_trans k)); [|intro]
  | |- frames (same_slot ?k) (ret _) => apply (frames_ret _ (same_slot_refl k))
  | |- frames (same_slot ?k) (raise _) => apply (frames_raise _ (same_slot_refl k))
  | |- frames (same_slot ?k) (lift _) => apply (frames_lift _ (same_slot_refl k))
  | |- frames (same_slot ?k) (in_retVal _) =>
      apply (frames_in_retVal _ (same_slot_refl k))
  | |- frames (same_slot ?k) (read_retVal _) =>
      apply (frames_read_retVal _ (same_slot_refl k))
  | |- frames (same_slot ?k) (bind_r _) =>
      apply (frames_bind_r _ (same_slot_results k))
  | |- frames (same_slot ?k) read_r => apply (frames_read_r _ (same_slot_refl k))
  | |- frames (same_slot ?k) (json_loads _) =>
      apply (frames_json_loads _ (same_slot_refl k))
  | |- frames (same_slot ?k) (send_https _ _) =>
      apply (frames_send_https _ (same_slot_results k))
  | |- frames (same_slot ?k) (send_downlink _ _ _ _ _) =>
      apply (frames_send_downlink _ (same_slot_results k))
  | |- frames (same_slot _) (bind_retAcc _) => apply same_slot_bind_retAcc
  | |- frames (same_slot _) (set_retAcc _ _) => apply same_slot_set_retAcc
  | |- frames (same_slot _) (set_retVal _ _) => apply same_slot_set_retVal; others
  | |- frames (still_bound ?k) (bind _ _) =>
      apply (frames_bind _ (still_bound_trans k)); [|intro]
  | |- frames (still_bound ?k) (ret _) => apply (frames_ret _ (still_bound_refl k))
  | |- frames (still_bound ?k) (raise _) => apply (frames_raise _ (still_bound_refl k))
  | |- frames (still_bound ?k) (lift _) => apply (frames_lift _ (still_bound_refl k))
  | |- frames (still_bound ?k) (in_retVal _) =>
      apply (frames_in_retVal _ (still_bound_refl k))
  | |- frames (still_bound ?k) (read_retVal _) =>
      apply (frames_read_retVal _ (still_bound_refl k))
  | |- frames (still_bound ?k) (bind_r _) =>
      apply (frames_bind_r _ (still_bound_results k))
  | |- frames (still_bound ?k) read_r => apply (frames_read_r _ (still_bound_refl k))
  | |- frames (still_bound ?k) (json_loads _) =>
      apply (frames_json_loads _ (still_bound_refl k))
  | |- frames (still_bound ?k) (send_https _ _) =>
      apply (frames_send_https _ (still_bound_results k))
  | |- frames (still_bound ?k) (send_downlink _ _ _ _ _) =>
      apply (frames_send_downlink _ (still_bound_results k))
  | |- frames (still_bound _) (bind_retAcc _) => apply still_bound_bind_retAcc
  | |- frames (still_bound _) (set_retAcc _ _) => apply still_bound_set_retAcc
  | |- frames (still_bound _) (set_retVal _ _) => apply still_bound_set_retVal
  | |- frames _ (if ?b then _ else _) => destruct b
  | |- frames _ (match ?x with _ => _ end) => destruct x
  end.

(** Delivering a directive stores nothing. *)
Lemma deliver_downlink_same_slot (k : str) (iot : nat -> bool) (id : str) (x : py)
      (deveui : str) :
  frames (same_slot k) (deliver_downlink iot id x deveui).
Proof. unfold deliver_downlink. repeat frames_step idtac. Qed.

(** No record unbinds [retAcc] or takes a key out of [retVal]. *)
Lemma dispatch_still_bound (k : str) (solver : nat -> option reply) (iot : nat -> bool)
      (event : Event) (tlv : triple) :
  frames (still_bound k) (dispatch solver iot event tlv).
Proof.
  destruct tlv as [[tag length] val].
  unfold dispatch, wifi_solution, deliver_downlink.
  repeat frames_step idtac.
Qed.

(** The keys of the GNSS solutions. *)
Lemma gnss_key_others (k : str) :
  k = lit "gnss_location" \/ (exists t, k = lit "gnss_location_" ++ t) ->
  str_eqb k (lit "statusCode") = false
  /\ str_eqb k (lit "wifi_location") = false
  /\ str_eqb k (lit "accelerometer") = false
  /\ str_eqb k (lit "sensors") = false
  /\ str_eqb k (lit "msgtype") = false
  /\ str_eqb k (lit "DevEUI") = false
  /\ str_eqb k (lit "timestamp") = false.
Proof.
  intros [->|[t ->]]; repeat split; reflexivity.
Qed.

(** A record that is no GNSS record leaves the GNSS solutions as they
    are, whatever else it does. *)
Lemma dispatch_same_gnss (k : str) (solver : nat -> option reply) (iot : nat -> bool)
      (event : Event) (tlv : triple) :
  k = lit "gnss_location" \/ (exists t, k = lit "gnss_location_" ++ t) ->
  ~ is_gnss_tag (tag_of tlv) ->
  frames (same_slot k) (dispatch solver iot event tlv).
Proof.
  intros Hk Hno.
  destruct (gnss_key_others k Hk) as (K1 & K2 & K3 & K4 & _).
  destruct tlv as [[tag length] val]. unfold tag_of in Hno. cbn [fst] in Hno.
  assert (Eg : str_eqb (upper tag) (lit "05") || str_eqb (upper tag) (lit "06")
               || str_eqb (upper tag) (lit "07") = false).
  { destruct (str_eqb (upper tag) (lit "05")) eqn:E5;
      [exfalso; apply Hno; left; now apply str_eqb_true|].
    destruct (str_eqb (upper tag) (lit "06")) eqn:E6;
      [exfalso; apply Hno; right; left; now apply str_eqb_true|].
    destruct (str_eqb (upper tag) (lit "07")) eqn:E7;
      [exfalso; apply Hno; right; right; now apply str_eqb_true|].
    reflexivity. }
  unfold dispatch, wifi_solution. rewrite Eg.
  repeat frames_step assumption.
Qed.

(** ** Requests of a record *)

Ltac grows_branch :=
  repeat match goal with
    | |- grows _ _ (bind _ _) => apply grows_bind; [|intro]
    | |- grows _ _ (ret _) => apply grows_ret
    | |- grows _ _ (raise _) => apply grows_raise
    | |- grows _ _ (lift _) => apply grows_lift
    | |- grows _ _ (set_retVal _ _) => apply grows_set_retVal
    | |- grows _ _ (in_retVal _) => apply grows_in_retVal
    | |- grows _ _ (read_retVal _) => apply grows_read_retVal
    | |- grows _ _ (bind_retAcc _) => apply grows_bind_retAcc
    | |- grows _ _ (set_retAcc _ _) => apply grows_set_retAcc
    | |- grows _ _ (if ?b then _ else _) => destruct b
    | |- grows _ _ (match ?x with _ => _ end) => destruct x
    end.

(** A record that is neither a Wi-Fi nor a GNSS record makes no
    call. *)
Lemma dispatch_local_quiet (solver : nat -> option reply) (iot : nat -> bool)
      (event : Event) (tlv : triple) :
  is_wifi_tag (tag_of tlv) = false -> ~ is_gnss_tag (tag_of tlv) ->
  grows (fun _ => False) (fun _ => False) (dispatch solver iot event tlv).
Proof.
  destruct tlv as [[tag length] val]. unfold tag_of, is_wifi_tag. cbn [fst].
  intros Hw Hno. apply orb_false_iff in Hw as [E0 E8].
  assert (Eg : str_eqb (upper tag) (lit "05") || str_eqb (upper tag) (lit "06")
               || str_eqb (upper tag) (lit "07") = false).
  { destruct (str_eqb (upper tag) (lit "05")) eqn:E5;
      [exfalso; apply Hno; left; now apply str_eqb_true|].
    destruct (str_eqb (upper tag) (lit "06")) eqn:E6;
      [exfalso; apply Hno; right; left; now apply str_eqb_true|].
    destruct (str_eqb (upper tag) (lit "07")) eqn:E7;
      [exfalso; apply Hno; right; right; now apply str_eqb_true|].
    reflexivity. }
  unfold dispatch. rewrite E0, E8, Eg. grows_branch.
Qed.

(** A scan record that returns has made its request, and that one
    only. *)
Lemma scan_returned (solver : nat -> option reply) (iot : nat -> bool)
      (event : Event) (tag : str) (length : Z) (val : str) (st st' : hstate) :
  is_wifi_tag tag = true \/ is_gnss_tag tag ->
  dispatch solver iot event (tag, length, val) st = (Ok tt, st') ->
  exists request, https_log st' = https_log st ++ [request].
Proof.
  intros Hscan Hrun.
  assert (Hrec : exists request, is_scan_record event tag val request).
  { destruct Hscan as [Hw|Hg].
    - unfold is_wifi_tag in Hw. apply orb_true_iff in Hw as [E|E];
        apply str_eqb_true in E.
      + destruct (py_int16 (slice 2 10 val)) as [ts|] eqn:Ets.
        * eexists. left. right. split; [exact E|]. exists ts. split; [exact Ets | reflexivity].
        * exfalso. revert Hrun. pick_branch E.
          unfold int16_or_raise. rewrite Ets. discriminate.
      + eexists. left. left. split; [exact E | reflexivity].
    - eexists. right. split; [exact Hg | reflexivity]. }
  destruct Hrec as (request & Hrec). exists request.
  destruct (dispatch_scan_record solver iot event tag length val request Hrec)
    as (k & Hk & Hquiet).
  rewrite Hk in Hrun. unfold bind, send_https in Hrun.
  destruct (solver (List.length (https_log st))) as [ir|]; [|discriminate].
  pose proof (extends_no_request _ _ _ (Hquiet ir (log_request request st))) as Hlog.
  rewrite Hrun in Hlog. exact Hlog.
Qed.

Section Runs.

Variable solver : nat -> option reply.
Variable iot : nat -> bool.
Variable event : Event.

(** Records that are no GNSS records, when they all return: one
    request for each Wi-Fi record, and the GNSS solutions as they were. *)
Lemma other_records_run (l : list triple) :
  Forall (fun t => ~ is_gnss_tag (tag_of t)) l ->
  forall st st',
    for_each l (dispatch solver iot event) st = (Ok tt, st') ->
    List.length (https_log st') = (List.length (https_log st) + wifi_count l)%nat
    /\ forall k,
         k = lit "gnss_location" \/ (exists t, k = lit "gnss_location_" ++ t) ->
         slot_get k (retVal st') = slot_get k (retVal st).
Proof.
  induction 1 as [|t l Ht _ IH]; intros st st' Hrun.
  - injection Hrun as <-. split; [unfold wifi_count; cbn; lia | reflexivity].
  - apply for_each_cons_inv in Hrun as (st1 & H1 & Hl).
    destruct (IH st1 st' Hl) as [IHlog IHslot].
    split.
    + rewrite IHlog. unfold wifi_count. cbn [filter].
      destruct (is_wifi_tag (tag_of t)) eqn:Ew.
      * destruct t as [[tag length] val].
        destruct (scan_returned solver iot event tag length val st st1
                    (or_introl Ew) H1) as (request & Hlog).
        rewrite Hlog, length_app. cbn [List.length]. lia.
      * destruct (dispatch_local_quiet solver iot event t Ew Ht st)
          as (l1 & l2 & Hlog & _ & F1 & _).
        rewrite H1 in Hlog. cbn [snd] in Hlog.
        destruct l1 as [|a l1]; [|now inversion F1].
        rewrite Hlog, app_nil_r. lia.
    + intros k Hk. rewrite (IHslot k Hk).
      pose proof (dispatch_same_gnss k solver iot event t Hk Ht st) as Hsame.
      rewrite H1 in Hsame. exact Hsame.
Qed.

(** A GNSS record that returns on a reply with a position solution has
    stored it: under ['gnss_location'], or under ['gnss_location_<TAG>']
    when that key is taken. *)
Lemma gnss_record_stored (tag : str) (length : Z) (val : str) (ir : reply)
      (lat lon alt acc gdop ts : py) (st st' : hstate) :
  is_gnss_tag tag ->
  solver (List.length (https_log st)) = Some ir ->
  gnss_answer event ir lat lon alt acc gdop ts ->
  dispatch solver iot event (tag, length, val) st = (Ok tt, st') ->
  List.length (https_log st') = S (List.length (https_log st))
  /\ slot_get (match slot_get (lit "gnss_location") (retVal st) with
               | Some _ => lit "gnss_location_" ++ upper tag
               | None => lit "gnss_location"
               end) (retVal st') =
       Some (Own (gnss_location event val lat lon alt acc gdop ts))
  /\ (slot_get (lit "gnss_location") (retVal st) <> None ->
      slot_get (lit "gnss_location") (retVal st') =
        slot_get (lit "gnss_location") (retVal st)).
Proof.
  intros Htag Hsolver
    (Hsub & v & d & sol & more & Hloads & Hres & Hpos & Hllh & Hacc & Hgdop & Hts) Hrun.
  split.
  { destruct (scan_returned solver iot event tag length val st st'
                (or_intror Htag) Hrun) as (request & Hlog).
    rewrite Hlog, length_app. cbn [List.length]. lia. }
  revert Hrun.
  destruct (gnss_tag_branch tag Htag) as (E1 & E2 & E3 & E4 & E5 & E6 & E7).
  unfold dispatch. rewrite E1, E2, E3, E4, E5, E6, E7.
  rewrite (bind_ok _ _ st _ ir (send_https_ok solver _ st ir Hsolver)).
  rewrite Hsub. unfold json_loads. rewrite Hloads.
  rewrite (bind_ok _ _ _ _ v eq_refl).
  rewrite (bind_ok (bind_r v) _ _ _ tt eq_refl).
  match goal with
  | |- context [bind (deliver_downlink _ _ _ _) _ ?s] => set (st1 := s)
  end.
  intros Hrun. apply bind_inv in Hrun as ([] & st2 & Hdl & Hrun).
  assert (Hsame : forall k, slot_get k (retVal st2) = slot_get k (retVal st)).
  { intros k.
    pose proof (deliver_downlink_same_slot k iot (WirelessDeviceId event) v
                  (deveui_of event) st1) as H.
    rewrite Hdl in H. exact H. }
  revert Hrun.
  rewrite (lift_ok _ _ _ st2 Hres).
  rewrite (lift_ok (getitem (PDict d) (lit "position_solution")) (PDict sol) _ st2)
    by (unfold getitem; now rewrite Hpos).
  rewrite (lift_ok _ lat _ st2)
    by (unfold bind_sum, getitem; now rewrite Hllh).
  rewrite (lift_ok _ lon _ st2)
    by (unfold bind_sum, getitem; now rewrite Hllh).
  rewrite (lift_ok _ alt _ st2)
    by (unfold bind_sum, getitem; now rewrite Hllh).
  rewrite (lift_ok _ acc _ st2) by (unfold getitem; now rewrite Hacc).
  rewrite (lift_ok _ gdop _ st2) by (unfold getitem; now rewrite Hgdop).
  rewrite (lift_ok _ ts _ st2) by (unfold getitem; now rewrite Hts).
  rewrite (bind_ok (in_retVal (lit "gnss_location")) _ st2 st2 _ eq_refl).
  rewrite (Hsame (lit "gnss_location")).
  destruct (slot_get (lit "gnss_location") (retVal st)) as [s|] eqn:Eseen;
    intros Hrun; apply (f_equal snd) in Hrun; cbn [snd] in Hrun; subst st';
    cbn [set_retVal bind snd retVal]; split.
  - rewrite slot_get_set_other by reflexivity. apply slot_get_set_same.
  - intros _. rewrite slot_get_set_other by reflexivity.
    rewrite slot_get_set_other by reflexivity.
    rewrite (Hsame (lit "gnss_location")). exact Eseen.
  - rewrite slot_get_set_other by reflexivity. apply slot_get_set_same.
  - intros Hc. now destruct Hc.
Qed.

End Runs.

(** ** Records that make no call *)

Section Local.

Variable solver : nat -> option reply.
Variable iot : nat -> bool.
Variable event : Event.

Lemma not_gnss_tag (tag : str) :
  str_eqb (upper tag) (lit "05") || str_eqb (upper tag) (lit "06")
  || str_eqb (upper tag) (lit "07") = false ->
  ~ is_gnss_tag tag.
Proof.
  intros E [H|[H|H]]; rewrite H in E; discriminate E.
Qed.

(** A record that [local_record] accepts is neither a Wi-Fi nor a GNSS
    record. *)
Lemma local_record_tag (acc sensors : bool) (t : triple) (after : bool * bool) :
  local_record acc sensors t = Some after ->
  is_wifi_tag (tag_of t) = false /\ ~ is_gnss_tag (tag_of t).
Proof.
  destruct t as [[tag length] val]. unfold local_record, tag_of, is_wifi_tag.
  cbn [fst].
  destruct (str_eqb (upper tag) (lit "09")) eqn:E9.
  { apply str_eqb_true in E9. rewrite E9. intros _.
    split; [reflexivity | apply not_gnss_tag; rewrite E9; reflexivity]. }
  destruct (str_eqb (upper tag) (lit "0A")) eqn:EA.
  { apply str_eqb_true in EA. rewrite EA. intros _.
    split; [reflexivity | apply not_gnss_tag; rewrite EA; reflexivity]. }
  destruct (str_eqb (upper tag) (lit "0B")) eqn:EB.
  { apply str_eqb_true in EB. rewrite EB. intros _.
    split; [reflexivity | apply not_gnss_tag; rewrite EB; reflexivity]. }
  destruct (str_eqb (upper tag) (lit "0D")) eqn:ED.
  { apply str_eqb_true in ED. rewrite ED. intros _.
    split; [reflexivity | apply not_gnss_tag; rewrite ED; reflexivity]. }
  destruct (str_eqb (upper tag) (lit "0E") || str_eqb (upper tag) (lit "08")) eqn:Ew;
    [discriminate|].
  cbn [orb].
  destruct (str_eqb (upper tag) (lit "05") || str_eqb (upper tag) (lit "06")
            || str_eqb (upper tag) (lit "07")) eqn:Eg; [discriminate|].
  intros _. split; [reflexivity | now apply not_gnss_tag].
Qed.

(** One record that [local_record] accepts returns, with no call
    made, and leaves the state as [local_record] tells. *)
Lemma local_record_run (acc sensors : bool) (t : triple) (acc' sensors' : bool)
      (st : hstate) :
  local_record acc sensors t = Some (acc', sensors') ->
  (acc = true -> retAcc st <> None) ->
  (sensors = true -> slot_get (lit "sensors") (retVal st) <> None) ->
  exists st',
    dispatch solver iot event t st = (Ok tt, st')
    /\ https_log st' = https_log st
    /\ downlink_log st' = downlink_log st
    /\ (acc' = true -> retAcc st' <> None)
    /\ (sensors' = true -> slot_get (lit "sensors") (retVal st') <> None).
Proof.
  intros Hlocal Hacc Hsens.
  destruct (local_record_tag acc sensors t _ Hlocal) as [Hw Hg].
  assert (Hgoal : forall st',
             dispatch solver iot event t st = (Ok tt, st') ->
             (acc' = true -> acc = false -> retAcc st' <> None) ->
             (sensors' = true -> sensors = false ->
              slot_get (lit "sensors") (retVal st') <> None) ->
             exists st'',
               dispatch solver iot event t st = (Ok tt, st'')
               /\ https_log st'' = https_log st
               /\ downlink_log st'' = downlink_log st
               /\ (acc' = true -> retAcc st'' <> None)
               /\ (sensors' = true -> slot_get (lit "sensors") (retVal st'') <> None)).
  { intros st' Hrun Hnewacc Hnewsens. exists st'. split; [exact Hrun|].
    pose proof (dispatch_local_quiet solver iot event t Hw Hg st) as Hquiet.
    rewrite Hrun in Hquiet. apply extends_quiet in Hquiet as [L1 L2].
    pose proof (dispatch_still_bound (lit "sensors") solver iot event t st) as [B1 B2].
    rewrite Hrun in B1, B2. cbn [snd] in B1, B2.
    split; [exact L1|]. split; [exact L2|]. split.
    - intros Ha. destruct acc; [apply B1; now apply Hacc | now apply Hnewacc].
    - intros Hs. destruct sensors; [apply B2; now apply Hsens | now apply Hnewsens]. }
  destruct t as [[tag length] val]. unfold local_record in Hlocal.
  destruct (str_eqb (upper tag) (lit "09")) eqn:E9.
  { apply str_eqb_true in E9.
    destruct (bytes_fromhex val) as [bs|] eqn:Ehex; [|discriminate].
    destruct (unpack_Bhhhh bs) as [[[[[v0 v1] v2] v3] v4]|] eqn:Eun; [|discriminate].
    injection Hlocal as <- <-.
    eapply Hgoal.
    - apply (dispatch_accelerometer_run solver iot event tag length val bs
               v0 v1 v2 v3 v4 st E9 Ehex Eun).
    - intros _ _. discriminate.
    - intros Hs Hs'. rewrite Hs in Hs'. discriminate. }
  destruct (str_eqb (upper tag) (lit "0A")) eqn:EA.
  { apply str_eqb_true in EA.
    destruct (bytes_fromhex val) as [bs|] eqn:Ehex; [|discriminate].
    destruct (unpack_L bs) as [c|] eqn:Eun; [|discriminate].
    destruct acc; [|discriminate]. injection Hlocal as <- <-.
    destruct (retAcc st) as [d|] eqn:Ed; [|now destruct (Hacc eq_refl)].
    eapply Hgoal.
    - apply (dispatch_charge_bound solver iot event tag length val bs c d st
               EA Ehex Eun Ed).
    - intros _ Hf. discriminate Hf.
    - intros Hs Hs'. rewrite Hs in Hs'. discriminate. }
  destruct (str_eqb (upper tag) (lit "0B")) eqn:EB.
  { apply str_eqb_true in EB.
    destruct (bytes_fromhex val) as [bs|] eqn:Ehex; [|discriminate].
    destruct (unpack_H bs) as [u|] eqn:Eun; [|discriminate].
    destruct acc; [|discriminate]. injection Hlocal as <- <-.
    destruct (retAcc st) as [d|] eqn:Ed; [|now destruct (Hacc eq_refl)].
    eapply Hgoal.
    - apply (dispatch_voltage_bound solver iot event tag length val bs u d st
               EB Ehex Eun Ed).
    - intros _ Hf. discriminate Hf.
    - intros Hs Hs'. rewrite Hs in Hs'. discriminate. }
  destruct (str_eqb (upper tag) (lit "0D")) eqn:ED.
  { apply str_eqb_true in ED.
    destruct (length =? 1) eqn:L1.
    { destruct (parse_sensors_basic val) as [e|reading] eqn:Ep; [discriminate|].
      injection Hlocal as <- <-.
      eapply Hgoal.
      - pick_branch ED. rewrite L1, Ep.
        unfold bind, lift, ret, set_retVal, read_retVal. cbn [retVal].
        rewrite (slot_get_set_same (lit "sensors")). reflexivity.
      - intros Ha Ha'. rewrite Ha in Ha'. discriminate.
      - intros _ _. cbn [retVal].
        rewrite slot_get_set_other by reflexivity.
        rewrite slot_get_set_same. discriminate. }
    destruct (length =? 7) eqn:L7.
    { destruct (parse_sensors_full val) as [e|reading] eqn:Ep; [discriminate|].
      injection Hlocal as <- <-.
      eapply Hgoal.
      - pick_branch ED. rewrite L1, L7, Ep.
        unfold bind, lift, ret, set_retVal, read_retVal. cbn [retVal].
        rewrite (slot_get_set_same (lit "sensors")). reflexivity.
      - intros Ha Ha'. rewrite Ha in Ha'. discriminate.
      - intros _ _. cbn [retVal].
        rewrite slot_get_set_other by reflexivity.
        rewrite slot_get_set_same. discriminate. }
    destruct sensors; [|discriminate]. injection Hlocal as <- <-.
    destruct (slot_get (lit "sensors") (retVal st)) as [s0|] eqn:Es;
      [|now destruct (Hsens eq_refl)].
    eapply Hgoal.
    - pick_branch ED. rewrite L1, L7.
      unfold bind, ret, read_retVal. rewrite Es. reflexivity.
    - intros Ha Ha'. rewrite Ha in Ha'. discriminate.
    - intros _ Hf. discriminate Hf. }
  unfold is_wifi_tag in Hlocal.
  destruct (str_eqb (upper tag) (lit "0E")) eqn:E0; [discriminate|].
  destruct (str_eqb (upper tag) (lit "08")) eqn:E8; [discriminate|].
  cbn [orb] in Hlocal.
  destruct (str_eqb (upper tag) (lit "05") || str_eqb (upper tag) (lit "06")
            || str_eqb (upper tag) (lit "07")) eqn:Eg; [discriminate|].
  injection Hlocal as <- <-.
  eapply Hgoal.
  - unfold dispatch. rewrite E0, E8, E9, EA, EB, ED, Eg. reflexivity.
  - intros Ha Ha'. rewrite Ha in Ha'. discriminate.
  - intros Hs Hs'. rewrite Hs in Hs'. discriminate.
Qed.

(** So do records that [local_records] accepts, one after the
    other. *)
Lemma local_records_run (l : list triple) :
  forall acc sensors acc' sensors' st,
    local_records acc sensors l = Some (acc', sensors') ->
    (acc = true -> retAcc st <> None) ->
    (sensors = true -> slot_get (lit "sensors") (retVal st) <> None) ->
    exists st',
      for_each l (dispatch solver iot event) st = (Ok tt, st')
      /\ https_log st' = https_log st
      /\ downlink_log st' = downlink_log st
      /\ (acc' = true -> retAcc st' <> None)
      /\ (sensors' = true -> slot_get (lit "sensors") (retVal st') <> None).
Proof.
  induction l as [|t l IH]; intros acc sensors acc' sensors' st Hl Hacc Hsens.
  - injection Hl as <- <-. exists st. repeat split; assumption.
  - cbn [local_records] in Hl.
    destruct (local_record acc sensors t) as [[a1 s1]|] eqn:Ht; [|discriminate].
    destruct (local_record_run acc sensors t a1 s1 st Ht Hacc Hsens)
      as (st1 & Hrun1 & L1 & D1 & A1 & S1).
    destruct (IH a1 s1 acc' sensors' st1 Hl A1 S1)
      as (st' & Hrun & L & D & A & S).
    exists st'. split.
    + cbn [for_each]. now rewrite (bind_ok _ _ st st1 tt Hrun1).
    + rewrite L, D, L1, D1. repeat split; assumption.
Qed.

Lemma local_records_tags (l : list triple) :
  forall acc sensors after,
    local_records acc sensors l = Some after ->
    Forall (fun t => ~ is_gnss_tag (tag_of t)) l /\ wifi_count l = 0%nat.
Proof.
  induction l as [|t l IH]; intros acc sensors after Hl.
  - split; [constructor | reflexivity].
  - cbn [local_records] in Hl.
    destruct (local_record acc sensors t) as [[a1 s1]|] eqn:Ht; [|discriminate].
    destruct (local_record_tag acc sensors t _ Ht) as [Hw Hg].
    destruct (IH a1 s1 after Hl) as [IHg IHw].
    split; [now constructor|].
    unfold wifi_count in *. cbn [filter]. now rewrite Hw.
Qed.

End Local.

(** ** Two GNSS records among the records of a response *)

Section TwoScans.

Variable solver : nat -> option reply.
Variable iot : nat -> bool.
Variable repr : py -> str.
Variable event : Event.

(** The statements after [td = json.loads(outerResponse)], for a
    response with a result object: the directive, the loop, the four final
    entries. *)
Lemma process_result_object (ir0 : reply) (td : py) (res : dict) (st : hstate) :
  loads ir0 = Some td ->
  inner_result td (deveui_of event) = inr (PDict res) ->
  process_solver_response solver iot repr event ir0 st =
    (deliver_downlink iot (WirelessDeviceId event) td (deveui_of event) ;;;
     for_each res (result_item solver iot event) ;;;
     set_retVal (lit "statusCode") (Own (PInt 200)) ;;;
     set_retVal (lit "msgtype") (Own (PStr (lit "Reference"))) ;;;
     set_retVal (lit "DevEUI") (Own (PStr (DEVEUI_of event))) ;;;
     set_retVal (lit "timestamp") (Own (PStr (Timestamp event))) ;;;
     return_retVal) st.
Proof.
  intros Hloads Hres.
  unfold process_solver_response, json_loads. rewrite Hloads.
  rewrite (bind_ok _ _ st st td eq_refl).
  rewrite (lift_ok _ true _ st (inner_result_has_result _ _ _ Hres)).
  destruct (deliver_downlink iot (WirelessDeviceId event) td (deveui_of event) st)
    as [[[]|e] st1] eqn:Hdl.
  - rewrite !(bind_ok _ _ st st1 tt Hdl).
    rewrite (lift_ok _ _ _ st1 Hres).
    now rewrite (lift_ok (py_items (PDict res)) res _ st1 eq_refl).
  - now rewrite !(bind_raise _ _ st st1 e Hdl).
Qed.

(** What the final entries leave of an entry stored under another
    key. *)
Lemma final_entries_keep (k : str) (v : py) (st : hstate) :
  str_eqb k (lit "statusCode") = false -> str_eqb k (lit "msgtype") = false ->
  str_eqb k (lit "DevEUI") = false -> str_eqb k (lit "timestamp") = false ->
  slot_get k (retVal st) = Some (Own v) ->
  exists st',
    (set_retVal (lit "statusCode") (Own (PInt 200)) ;;;
     set_retVal (lit "msgtype") (Own (PStr (lit "Reference"))) ;;;
     set_retVal (lit "DevEUI") (Own (PStr (DEVEUI_of event))) ;;;
     set_retVal (lit "timestamp") (Own (PStr (Timestamp event))) ;;;
     return_retVal) st = (Ok (PDict (returned_dict st')), st')
    /\ dict_get k (returned_dict st') = Some v
    /\ dict_get (lit "statusCode") (returned_dict st') = Some (PInt 200).
Proof.
  intros K1 K2 K3 K4 Hk. eexists. split; [reflexivity|]. split.
  - apply returned_get. cbn [retVal].
    rewrite (slot_get_set_other _ _ _ _ K4), (slot_get_set_other _ _ _ _ K3),
      (slot_get_set_other _ _ _ _ K2), (slot_get_set_other _ _ _ _ K1).
    exact Hk.
  - apply returned_get. cbn [retVal].
    rewrite (slot_get_set_other _ (lit "timestamp")) by reflexivity.
    rewrite (slot_get_set_other _ (lit "DevEUI")) by reflexivity.
    rewrite (slot_get_set_other _ (lit "msgtype")) by reflexivity.
    apply slot_get_set_same.
Qed.

(** When the response is processed to the end, the two solutions are
    in the result. *)
Lemma two_gnss_kept (ir0 : reply) (td : py) (res : dict)
      (pre mid post : list triple) (tag1 : str) (len1 : Z) (val1 : str)
      (tag2 : str) (len2 : Z) (val2 : str) (ir1 ir2 : reply)
      (lat1 lon1 alt1 acc1 gdop1 ts1 lat2 lon2 alt2 acc2 gdop2 ts2 : py)
      (st st' : hstate) (v : py) :
  slot_get (lit "gnss_location") (retVal st) = None ->
  loads ir0 = Some td ->
  inner_result td (deveui_of event) = inr (PDict res) ->
  stream_triples res = pre ++ (tag1, len1, val1) :: mid ++ (tag2, len2, val2) :: post ->
  is_gnss_tag tag1 -> is_gnss_tag tag2 ->
  Forall (fun t => ~ is_gnss_tag (tag_of t)) (pre ++ mid ++ post) ->
  solver (List.length (https_log st) + wifi_count pre)%nat = Some ir1 ->
  gnss_answer event ir1 lat1 lon1 alt1 acc1 gdop1 ts1 ->
  solver (S (List.length (https_log st) + wifi_count pre + wifi_count mid))%nat =
    Some ir2 ->
  gnss_answer event ir2 lat2 lon2 alt2 acc2 gdop2 ts2 ->
  process_solver_response solver iot repr event ir0 st = (Ok v, st') ->
  exists d,
    v = PDict d
    /\ dict_get (lit "gnss_location") d =
         Some (gnss_location event val1 lat1 lon1 alt1 acc1 gdop1 ts1)
    /\ dict_get (lit "gnss_location_" ++ upper tag2) d =
         Some (gnss_location event val2 lat2 lon2 alt2 acc2 gdop2 ts2).
Proof.
  intros Hfresh Hloads Hres Hshape Htag1 Htag2 Hothers Hs1 Hsol1 Hs2 Hsol2 Hrun.
  apply Forall_app in Hothers as [Hpre Hothers].
  apply Forall_app in Hothers as [Hmid Hpost].
  rewrite (process_result_object ir0 td res st Hloads Hres) in Hrun.
  apply bind_inv in Hrun as ([] & st1 & Hdl & Hrun).
  assert (Hlog1 : https_log st1 = https_log st).
  { pose proof (grows_deliver_downlink (fun _ => False) (fun _ => True) iot event
                  (fun _ _ _ => I) td st) as G.
    rewrite Hdl in G. exact (extends_no_request _ _ _ G). }
  assert (Hslot1 : slot_get (lit "gnss_location") (retVal st1) = None).
  { pose proof (deliver_downlink_same_slot (lit "gnss_location") iot
                  (WirelessDeviceId event) td (deveui_of event) st) as G.
    rewrite Hdl in G. unfold same_slot in G. cbn [snd] in G. now rewrite G. }
  apply bind_inv in Hrun as ([] & st2 & Hitems & Hrun).
  apply result_items_triples_inv in Hitems. rewrite Hshape in Hitems.
  apply for_each_app_inv in Hitems as (sa & Hrun_pre & Hitems).
  apply for_each_cons_inv in Hitems as (sb & Hrun1 & Hitems).
  apply for_each_app_inv in Hitems as (sc & Hrun_mid & Hitems).
  apply for_each_cons_inv in Hitems as (sd & Hrun2 & Hrun_post).
  destruct (other_records_run solver iot event pre Hpre st1 sa Hrun_pre)
    as [La Sa].
  assert (Hs1' : solver (List.length (https_log sa)) = Some ir1)
    by (rewrite La, Hlog1; exact Hs1).
  destruct (gnss_record_stored solver iot event tag1 len1 val1 ir1
              lat1 lon1 alt1 acc1 gdop1 ts1 sa sb Htag1 Hs1' Hsol1 Hrun1)
    as (Lb & Sb & _).
  rewrite (Sa (lit "gnss_location") (or_introl eq_refl)), Hslot1 in Sb.
  destruct (other_records_run solver iot event mid Hmid sb sc Hrun_mid)
    as [Lc Sc].
  assert (Hs2' : solver (List.length (https_log sc)) = Some ir2).
  { rewrite Lc, Lb, La, Hlog1.
    replace (S (List.length (https_log st) + wifi_count pre) + wifi_count mid)%nat
      with (S (List.length (https_log st) + wifi_count pre + wifi_count mid))%nat
      by lia.
    exact Hs2. }
  destruct (gnss_record_stored solver iot event tag2 len2 val2 ir2
              lat2 lon2 alt2 acc2 gdop2 ts2 sc sd Htag2 Hs2' Hsol2 Hrun2)
    as (Ld & Sd & Keep).
  rewrite (Sc (lit "gnss_location") (or_introl eq_refl)), Sb in Sd, Keep.
  specialize (Keep ltac:(discriminate)).
  destruct (other_records_run solver iot event post Hpost sd st2 Hrun_post)
    as [Le Se].
  assert (G1 : slot_get (lit "gnss_location") (retVal st2) =
               Some (Own (gnss_location event val1 lat1 lon1 alt1 acc1 gdop1 ts1)))
    by (rewrite (Se _ (or_introl eq_refl)); exact Keep).
  assert (G2 : slot_get (lit "gnss_location_" ++ upper tag2) (retVal st2) =
               Some (Own (gnss_location event val2 lat2 lon2 alt2 acc2 gdop2 ts2)))
    by (rewrite (Se _ (or_intror (ex_intro _ (upper tag2) eq_refl))); exact Sd).
  destruct (final_entries_keep (lit "gnss_location") _ st2
              eq_refl eq_refl eq_refl eq_refl G1) as (sf & Hf & D1 & _).
  rewrite Hf in Hrun. injection Hrun as <- <-.
  exists (returned_dict sf). split; [reflexivity|]. split; [exact D1|].
  destruct (final_entries_keep (lit "gnss_location_" ++ upper tag2) _ st2
              eq_refl eq_refl eq_refl eq_refl G2) as (sf' & Hf' & D2 & _).
  assert (E : sf' = sf) by (rewrite Hf in Hf'; now injection Hf').
  rewrite E in D2. exact D2.
Qed.

(** The response is processed to the end when the transport of the
    downlinks is up, the directives are deliverable, the stream records
    can be read, and the records around the two GNSS records make no call
    and return. *)
Lemma two_gnss_returns (ir0 : reply) (td : py) (res : dict)
      (pre mid post : list triple) (tag1 : str) (len1 : Z) (val1 : str)
      (tag2 : str) (len2 : Z) (val2 : str) (ir1 ir2 : reply)
      (lat1 lon1 alt1 acc1 gdop1 ts1 lat2 lon2 alt2 acc2 gdop2 ts2 : py)
      (after1 after2 after3 : bool * bool) (st : hstate) :
  (forall n, iot n = true) ->
  loads ir0 = Some td ->
  inner_result td (deveui_of event) = inr (PDict res) ->
  directive_deliverable res ->
  stream_readable res = true ->
  stream_triples res = pre ++ (tag1, len1, val1) :: mid ++ (tag2, len2, val2) :: post ->
  is_gnss_tag tag1 -> is_gnss_tag tag2 ->
  local_records false false pre = Some after1 ->
  local_records (fst after1) (snd after1) mid = Some after2 ->
  local_records (fst after2) (snd after2) post = Some after3 ->
  solver (List.length (https_log st)) = Some ir1 ->
  gnss_solved event ir1 lat1 lon1 alt1 acc1 gdop1 ts1 ->
  solver (S (List.length (https_log st))) = Some ir2 ->
  gnss_solved event ir2 lat2 lon2 alt2 acc2 gdop2 ts2 ->
  exists v st', process_solver_response solver iot repr event ir0 st = (Ok v, st').
Proof.
  intros Hup Hloads Hres Hdn Hread Hshape Htag1 Htag2 Hpre Hmid Hpost
         Hs1 Hsol1 Hs2 Hsol2.
  destruct after1 as [a1 s1], after2 as [a2 s2], after3 as [a3 s3].
  cbn [fst snd] in Hmid, Hpost.
  rewrite (process_result_object ir0 td res st Hloads Hres).
  destruct (deliver_downlink_ok iot (WirelessDeviceId event) td (deveui_of event)
              res st Hup Hres Hdn) as (st1 & Hrun0 & Hlog0 & _).
  rewrite (bind_ok _ _ st st1 tt Hrun0).
  rewrite <- Hlog0 in Hs1, Hs2.
  destruct (local_records_run solver iot event pre false false a1 s1 st1 Hpre
              ltac:(discriminate) ltac:(discriminate))
    as (sa & Hrun_pre & La & _ & Aa & Sa).
  rewrite <- La in Hs1, Hs2.
  destruct (dispatch_gnss_solved solver iot event tag1 len1 val1 ir1
              lat1 lon1 alt1 acc1 gdop1 ts1 sa Htag1 Hup Hs1 Hsol1)
    as (sb & Hrun1 & Lb & _).
  pose proof (dispatch_still_bound (lit "sensors") solver iot event
                (tag1, len1, val1) sa) as [Ab Sb].
  rewrite Hrun1 in Ab, Sb. cbn [snd] in Ab, Sb.
  destruct (local_records_run solver iot event mid a1 s1 a2 s2 sb Hmid
              (fun H => Ab (Aa H)) (fun H => Sb (Sa H)))
    as (sc & Hrun_mid & Lc & _ & Ac & Sc).
  assert (Hs2' : solver (List.length (https_log sc)) = Some ir2).
  { rewrite Lc, Lb, length_app. cbn [List.length]. now rewrite Nat.add_1_r. }
  destruct (dispatch_gnss_solved solver iot event tag2 len2 val2 ir2
              lat2 lon2 alt2 acc2 gdop2 ts2 sc Htag2 Hup Hs2' Hsol2)
    as (sd & Hrun2 & _ & _).
  pose proof (dispatch_still_bound (lit "sensors") solver iot event
                (tag2, len2, val2) sc) as [Ad Sd].
  rewrite Hrun2 in Ad, Sd. cbn [snd] in Ad, Sd.
  destruct (local_records_run solver iot event post a2 s2 a3 s3 sd Hpost
              (fun H => Ad (Ac H)) (fun H => Sd (Sc H)))
    as (se & Hrun_post & _).
  assert (Hitems : for_each res (result_item solver iot event) st1 = (Ok tt, se)).
  { rewrite (result_items_triples solver iot event res st1 Hread), Hshape.
    rewrite for_each_app_run, (bind_ok _ _ st1 sa tt Hrun_pre).
    cbn [for_each]. rewrite (bind_ok _ _ sa sb tt Hrun1).
    rewrite for_each_app_run, (bind_ok _ _ sb sc tt Hrun_mid).
    cbn [for_each]. rewrite (bind_ok _ _ sc sd tt Hrun2).
    exact Hrun_post. }
  rewrite (bind_ok _ _ st1 se tt Hitems).
  eexists _, _. reflexivity.
Qed.


End TwoScans.

Lemma forwarded_requests (event : Event) :
  List.length (https_log (forwarded event)) = S (primary_index event).
Proof.
  unfold forwarded, primary_index. cbn [https_log].
  now destruct (FCnt event <? 2).
Qed.

(** ** GNSS solutions of one uplink *)

(** C9.  The records of an uplink are the triples of all the entries of
    ['stream_records'], in order.  When two of them are GNSS records (tags
    [05], [06], [07] in any letter case), in the same entry or not, with
    any records that are no GNSS records before, between and after them,
    and the solver answers the scan of each with a position solution, then
    every result the handler returns holds both solutions: the first under
    ['gnss_location'], the second under ['gnss_location_<TAG>'] with the
    upper-case tag of its record, and these two keys differ.  The handler
    does return when the calls up to the primary forward return, the
    [Timestamp] is in the format, the downlink transport is up, the
    directives of the three responses are deliverable, the entries can be
    read to their end and the other records make no call and return. *)
Theorem gnss_solutions_kept_apart :
  forall solver iot repr event ir0 td res pre mid post
         tag1 len1 val1 tag2 len2 val2 ir1 ir2
         lat1 lon1 alt1 acc1 gdop1 ts1 lat2 lon2 alt2 acc2 gdop2 ts2,
    FPort event = 199 ->
    solver (primary_index event) = Some ir0 ->
    loads ir0 = Some td ->
    inner_result td (deveui_of event) = inr (PDict res) ->
    stream_triples res = pre ++ (tag1, len1, val1) :: mid ++ (tag2, len2, val2) :: post ->
    is_gnss_tag tag1 -> is_gnss_tag tag2 ->
    Forall (fun t => ~ is_gnss_tag (tag_of t)) (pre ++ mid ++ post) ->
    solver (S (primary_index event) + wifi_count pre)%nat = Some ir1 ->
    gnss_answer event ir1 lat1 lon1 alt1 acc1 gdop1 ts1 ->
    solver (S (S (primary_index event)) + wifi_count pre + wifi_count mid)%nat =
      Some ir2 ->
    gnss_answer event ir2 lat2 lon2 alt2 acc2 gdop2 ts2 ->
    (forall v st,
        lambda_handler solver iot repr event = (Ok v, st) ->
        exists d,
          v = PDict d
          /\ dict_get (lit "gnss_location") d =
               Some (gnss_location event val1 lat1 lon1 alt1 acc1 gdop1 ts1)
          /\ dict_get (lit "gnss_location_" ++ upper tag2) d =
               Some (gnss_location event val2 lat2 lon2 alt2 acc2 gdop2 ts2))
    /\ lit "gnss_location" <> lit "gnss_location_" ++ upper tag2
    /\ ((FCnt event < 2 -> solver 0%nat <> None) ->
        timestamp_ok event = true ->
        (forall n, iot n = true) ->
        directive_deliverable res ->
        gnss_solved event ir1 lat1 lon1 alt1 acc1 gdop1 ts1 ->
        gnss_solved event ir2 lat2 lon2 alt2 acc2 gdop2 ts2 ->
        stream_readable res = true ->
        forall after1 after2 after3,
          local_records false false pre = Some after1 ->
          local_records (fst after1) (snd after1) mid = Some after2 ->
          local_records (fst after2) (snd after2) post = Some after3 ->
          exists v st, lambda_handler solver iot repr event = (Ok v, st)).
Proof.
  intros solver iot repr event ir0 td res pre mid post
         tag1 len1 val1 tag2 len2 val2 ir1 ir2
         lat1 lon1 alt1 acc1 gdop1 ts1 lat2 lon2 alt2 acc2 gdop2 ts2
         Hport Hs0 Hloads Hres Hshape Htag1 Htag2 Hothers Hs1 Hsol1 Hs2 Hsol2.
  split; [|split].
  - intros v st Hrun.
    destruct (handler_returned solver iot repr event v st Hport Hrun)
      as (_ & _ & ir & Hir & Hprocess).
    rewrite Hs0 in Hir. injection Hir as <-.
    apply (two_gnss_kept solver iot repr event ir0 td res pre mid post
             tag1 len1 val1 tag2 len2 val2 ir1 ir2
             lat1 lon1 alt1 acc1 gdop1 ts1 lat2 lon2 alt2 acc2 gdop2 ts2
             (forwarded event) st v); try assumption.
    + reflexivity.
    + now rewrite forwarded_requests.
    + now rewrite forwarded_requests.
  - discriminate.
  - intros Hjoin Hts Hup Hdn Hsolved1 Hsolved2 Hread after1 after2 after3
           Hpre Hmid Hpost.
    rewrite (handler_forwarded solver iot repr event ir0 Hport Hjoin Hts Hs0).
    destruct (local_records_tags pre _ _ _ Hpre) as [_ Wpre].
    destruct (local_records_tags mid _ _ _ Hmid) as [_ Wmid].
    rewrite Wpre, Wmid, !Nat.add_0_r in *.
    apply (two_gnss_returns solver iot repr event ir0 td res pre mid post
             tag1 len1 val1 tag2 len2 val2 ir1 ir2
             lat1 lon1 alt1 acc1 gdop1 ts1 lat2 lon2 alt2 acc2 gdop2 ts2
             after1 after2 after3 (forwarded event)); try assumption.
    + now rewrite forwarded_requests.
    + now rewrite forwarded_requests.
Qed.

Lemma gnss_solutions_kept_apart_witness :
  exists d,
    fst (lambda_handler
           (scripted [ json_reply two_entries_response;
                       json_reply (position_response tracker_uplink 1 2 3);
                       json_reply (position_response tracker_uplink 4 5 6) ])
           iot_up no_repr tracker_uplink) = Ok (PDict d)
    /\ dict_get (lit "gnss_location") d =
         Some (gnss_location tracker_uplink (lit "AABB") (PInt 1) (PInt 2) (PInt 3)
                 (PInt 20) (PInt 2) (PInt 1614600001))
    /\ dict_get (lit "gnss_location_" ++ upper (lit "07")) d =
         Some (gnss_location tracker_uplink (lit "CCDDEE") (PInt 4) (PInt 5) (PInt 6)
                 (PInt 20) (PInt 2) (PInt 1614600001)).
Proof.
  destruct (proj1 (gnss_solutions_kept_apart
              (scripted [ json_reply two_entries_response;
                          json_reply (position_response tracker_uplink 1 2 3);
                          json_reply (position_response tracker_uplink 4 5 6) ])
              iot_up no_repr tracker_uplink
              (reply_of two_entries_response) two_entries_response
              [ (lit "dnlink", PNone);
                (lit "stream_records",
                 PList [ PList [PInt 0; PStr (accelerometer_tlv ++ lit "0602AABB")];
                         PList [PInt 1; PStr (lit "0703CCDDEE")] ]);
                (lit "position_solution", PNone) ]
              [ (lit "09", 9, lit "010001000200030004") ] [] []
              (lit "06") 2 (lit "AABB") (lit "07") 3 (lit "CCDDEE")
              (reply_of (position_response tracker_uplink 1 2 3))
              (reply_of (position_response tracker_uplink 4 5 6))
              (PInt 1) (PInt 2) (PInt 3) (PInt 20) (PInt 2) (PInt 1614600001)
              (PInt 4) (PInt 5) (PInt 6) (PInt 20) (PInt 2) (PInt 1614600001)
              eq_refl
              ltac:(vm_compute; reflexivity)
              eq_refl
              ltac:(vm_compute; reflexivity)
              ltac:(vm_compute; reflexivity)
              (or_intror (or_introl eq_refl))
              (or_intror (or_intror eq_refl))
              ltac:(repeat constructor; intros [H|[H|H]]; discriminate H)
              ltac:(vm_compute; reflexivity)
              ltac:(split; [vm_compute; reflexivity|];
                    eexists _, _, _, _; repeat split; vm_compute; reflexivity)
              ltac:(vm_compute; reflexivity)
              ltac:(split; [vm_compute; reflexivity|];
                    eexists _, _, _, _; repeat split; vm_compute; reflexivity))
              (match fst (lambda_handler
                            (scripted [ json_reply two_entries_response;
                                        json_reply (position_response tracker_uplink 1 2 3);
                                        json_reply (position_response tracker_uplink 4 5 6) ])
                            iot_up no_repr tracker_uplink) with
               | Ok v => v
               | Raise _ => PNone
               end)
              (snd (lambda_handler
                      (scripted [ json_reply two_entries_response;
                                  json_reply (position_response tracker_uplink 1 2 3);
                                  json_reply (position_response tracker_uplink 4 5 6) ])
                      iot_up no_repr tracker_uplink)))
    as (d & Hv & Hrest).
  - vm_compute. reflexivity.
  - exists d. split; [|exact Hrest].
    revert Hv. vm_compute. intros <-. reflexivity.
Defined.

(** ** The results of the handler *)


